(** * Food Wastage Management dashboard: data access, CRUD forms and reports

    A shallow embedding of [streamlit_app.py].  The page functions are
    modelled as functions that return the list of Streamlit calls they make;
    the functions that touch the database thread a [session] (connection,
    database behind it, memoised reads) and may raise.  SQL text is kept as
    text; the store that interprets it stands for the SQL Server instance the
    application connects to. *)

From stdpp Require Import base decidable option list strings gmap fin_maps sorting
  pretty.
From Stdlib Require Import ZArith Lia.

Local Open Scope Z_scope.

(** ** Python values and exceptions *)

(** A cell of a result set.  [VDec] is a SQL [numeric] with scale 12, held
    as the integer number of 10^-12 units. *)
Inductive value :=
  | VNull
  | VInt (n : Z)
  | VStr (s : string)
  | VDec (units : Z).

#[global] Instance value_eq_dec : EqDecision value.
Proof. solve_decision. Defined.

(** The exceptions that reach the code under study, with the text of
    [str(e)]; a [KeyError] prints its key between quotes. *)
Inductive exn :=
  | KeyError (msg : string)
  | MergeError (msg : string)
  | ProgrammingError (msg : string)
  | IntegrityError (msg : string)
  | OperationalError (msg : string)
  | DataError (msg : string)
  | IndexError (msg : string)
  | ValueError (msg : string)
  | TypeError (msg : string).

#[global] Instance exn_eq_dec : EqDecision exn.
Proof. solve_decision. Defined.

Definition str_exn (e : exn) : string :=
  match e with
  | KeyError key => "'" +:+ key +:+ "'"
  | MergeError m | ProgrammingError m | IntegrityError m
  | OperationalError m | DataError m | IndexError m | ValueError m
  | TypeError m => m
  end.

(** Outcome of a Python call: a value or a raised exception. *)
Inductive result (A : Type) :=
  | Return (a : A)
  | Raise (e : exn).
Arguments Return {A} a.
Arguments Raise {A} e.

Definition bind {A B} (r : result A) (k : A -> result B) : result B :=
  match r with
  | Return a => k a
  | Raise e => Raise e
  end.

Notation "x <- r ;; k" := (bind r (fun x => k))
  (at level 100, r at next level, right associativity).

(** ** Strings *)

(** The text of a [Decimal] with twelve decimals, held in 10^-12 units:
    sign, integer part ([whole] says how it is written), point, twelve
    digits. *)
Fixpoint zeros (n : nat) : string :=
  match n with
  | O => EmptyString
  | S n' => "0" +:+ zeros n'
  end.

Definition decimal_text (whole : Z -> string) (units : Z) : string :=
  let frac := pretty (Z.abs units mod 10 ^ 12) in
  (if bool_decide (units < 0) then "-" else EmptyString)
  +:+ whole (Z.abs units / 10 ^ 12) +:+ "."
  +:+ zeros (12 - String.length frac) +:+ frac.

(** Digits, last one first, with a comma after every third one that has a
    digit after it. *)
Fixpoint commas (rev_digits : string) : string :=
  match rev_digits with
  | String a (String b (String c ((String _ _) as rest))) =>
      String a (String b (String c ("," +:+ commas rest)))
  | _ => rev_digits
  end.

(** [format(n, ',')] on an integer. *)
Definition thousands (n : Z) : string :=
  (if bool_decide (n < 0) then "-" else EmptyString)
  +:+ String.rev (commas (String.rev (pretty (Z.abs n)))).

(** [f"{v:,}"] on a cell: a missing cell is Python's [None], which takes
    no format specification, and text takes no comma. *)
Definition format_commas (v : value) : result string :=
  match v with
  | VInt n => Return (thousands n)
  | VDec units => Return (decimal_text thousands units)
  | VNull =>
      Raise (TypeError
               "unsupported format string passed to NoneType.__format__")
  | VStr _ => Raise (ValueError "Cannot specify ',' with 's'.")
  end.

(** [s.endswith(suf)] *)
Definition endswith (s suf : string) : bool :=
  (String.length suf <=? String.length s)%nat
  && String.eqb
       (String.substring (String.length s - String.length suf)
                         (String.length suf) s) suf.

(** [sub in s] on Python strings. *)
Fixpoint str_contains (sub s : string) : bool :=
  String.prefix sub s
  || match s with
     | EmptyString => false
     | String _ s' => str_contains sub s'
     end.

(** ** pandas frames *)

Record DataFrame := mkDataFrame {
  columns : list string;
  rows : list (list value)
}.

#[global] Instance DataFrame_eq_dec : EqDecision DataFrame.
Proof. solve_decision. Defined.

(** [pd.DataFrame()] *)
Definition DataFrame_new : DataFrame := mkDataFrame [] [].

(** [df.empty]: some axis has length zero. *)
Definition empty (df : DataFrame) : bool :=
  bool_decide (columns df = []) || bool_decide (rows df = []).

(** [len(df)] *)
Definition len (df : DataFrame) : nat := length (rows df).

(** [c in df.columns] *)
Definition has_column (c : string) (df : DataFrame) : bool :=
  bool_decide (c ∈ columns df).

Fixpoint col_index (c : string) (cols : list string) : option nat :=
  match cols with
  | [] => None
  | c' :: rest => if String.eqb c c' then Some 0%nat
                  else S <$> col_index c rest
  end.

(** Cell of a row at a column position; a short row reads as missing. *)
Definition cell (r : list value) (i : nat) : value := default VNull (r !! i).

(** [df[cols]] for a list of labels: [KeyError] on a missing label. *)
Fixpoint getitem_positions (cols have : list string) : result (list nat) :=
  match cols with
  | [] => Return []
  | c :: rest =>
      match col_index c have with
      | None => Raise (KeyError c)
      | Some i => ps <- getitem_positions rest have ;; Return (i :: ps)
      end
  end.

Definition getitem (df : DataFrame) (cols : list string) : result DataFrame :=
  ps <- getitem_positions cols (columns df) ;;
  Return (mkDataFrame cols (map (fun r => map (cell r) ps) (rows df))).

(** The two shapes of [DataFrame.merge] call made by the application, both
    with [how='left']:
    [merge(right, on=k, how='left')] and
    [merge(right, left_on=c, right_index=False, how='left')]. *)
Inductive merge_keys :=
  | on_ (k : string)
  | left_on_ (c : string).

(** ** Streamlit calls *)

Inductive figure :=
  | px_bar (data : DataFrame) (x y : string)
  | px_pie (data : DataFrame) (values names : string).

Inductive st_call :=
  | st_header (s : string)
  | st_subheader (s : string)
  | st_warning (s : string)
  | st_error (s : string)
  | st_success (s : string)
  | st_write (s : string)
  | st_code (s : string)
  | st_dataframe (df : DataFrame)
  | st_plotly_chart (fig : figure)
  | st_rerun.

(** ** The claims detail view *)

Section ShowClaims.
(** [DataFrame.merge(left, right, keys)] of the installed pandas. *)
Variable merge : DataFrame -> DataFrame -> merge_keys -> result DataFrame.

Definition food_cols : list string :=
  ["Food_ID"; "Food_Name"; "Location"; "Food_Type"].

(** Lines 319-326: the merge with the food listings. *)
Definition merge_food (claims food_listings : DataFrame)
    (claims_with_details : DataFrame) : result DataFrame :=
  if has_column "Food_ID" claims && has_column "Food_ID" food_listings then
    let available_food_cols :=
      filter (fun col => col ∈ columns food_listings) food_cols in
    if bool_decide (available_food_cols <> []) then
      sel <- getitem food_listings available_food_cols ;;
      merge claims_with_details sel (on_ "Food_ID")
    else Return claims_with_details
  else Return claims_with_details.

(** Lines 329-335: the [if]/[elif] chain that sets [receiver_key]. *)
Definition receiver_key (claims receivers : DataFrame) : option string :=
  if has_column "Receiver_ID" claims && has_column "Receiver_ID" receivers
  then Some "Receiver_ID"
  else if has_column "ReceiverID" claims && has_column "ReceiverID" receivers
  then Some "ReceiverID"
  else if has_column "ReceiverId" claims && has_column "ReceiverId" receivers
  then Some "ReceiverId"
  else None.

(** Lines 345-353: the [for col in claims.columns] loop with its [break]. *)
Fixpoint fallback_loop (cols : list string) (receivers : DataFrame)
    (claims_with_details : DataFrame) : result DataFrame :=
  match cols with
  | [] => Return claims_with_details
  | col :: rest =>
      if has_column col receivers && endswith col "_ID" then
        right <- (if has_column "Name" receivers
                  then getitem receivers ["Name"]
                  else Return receivers) ;;
        merge claims_with_details right (left_on_ col)
      else fallback_loop rest receivers claims_with_details
  end.

(** Lines 337-353. *)
Definition merge_receivers (claims receivers : DataFrame)
    (claims_with_details : DataFrame) : result DataFrame :=
  match receiver_key claims receivers with
  | Some key =>
      let receiver_cols :=
        if has_column "Name" receivers then [key; "Name"] else [key] in
      sel <- getitem receivers receiver_cols ;;
      merge claims_with_details sel (on_ key)
  | None => fallback_loop (columns claims) receivers claims_with_details
  end.

(** The body of the [try] block up to the frame that is displayed. *)
Definition claims_details (claims food_listings receivers : DataFrame)
    : result DataFrame :=
  claims_with_details <- merge_food claims food_listings claims ;;
  merge_receivers claims receivers claims_with_details.

Definition show_claims (claims food_listings receivers : DataFrame)
    : list st_call :=
  st_header "📋 Claims" ::
  if empty claims || empty food_listings || empty receivers then
    [st_warning "No claims data available"]
  else
    match claims_details claims food_listings receivers with
    | Return claims_with_details => [st_dataframe claims_with_details]
    | Raise e =>
        [st_error ("Error displaying claims: " +:+ str_exn e);
         st_write "Raw claims data:";
         st_dataframe claims]
    end.
End ShowClaims.

(** ** [DataFrame.merge] as pandas implements it

    A left merge on one key column keeps the left rows in order; each is
    paired with every right row whose key cell is equal, or padded with
    missing cells when there is none.  Columns other than the key that the
    two frames share get the suffixes [_x] and [_y].  With [left_on] and
    neither [right_on] nor [right_index] the call is rejected before any row
    is read.  A numeric key column is not merged with a key column of
    text: pandas raises [ValueError] when both frames have rows. *)

(** The quotation mark, for the messages that carry one. *)
Definition dq : string := String (Ascii.ascii_of_nat 34) EmptyString.

Definition must_pass_right_on : string :=
  "Must pass " +:+ dq +:+ "right_on" +:+ dq +:+ " OR " +:+ dq
  +:+ "right_index" +:+ dq +:+ ".".

(** The dtype of a column that [pd.read_sql] built: [int64] when every cell
    is an integer, [float64] when integers come with missing cells,
    [object] otherwise. *)
Inductive dtype := int64 | float64 | object.

Definition dtype_name (d : dtype) : string :=
  match d with
  | int64 => "int64"
  | float64 => "float64"
  | object => "object"
  end.

Definition is_int (v : value) : bool :=
  match v with VInt _ => true | _ => false end.

Definition is_int_or_missing (v : value) : bool :=
  match v with VInt _ | VNull => true | _ => false end.

Definition is_decimal (v : value) : bool :=
  match v with VDec _ => true | _ => false end.

Definition column_dtype (cells : list value) : dtype :=
  if forallb is_int cells then int64
  else if forallb is_int_or_missing cells && existsb is_int cells then float64
  else object.

Definition numeric (d : dtype) : bool :=
  match d with object => false | _ => true end.

(** What [infer_dtype] calls string, mixed or empty: an [object] column
    without an integer among its cells that is not one of decimals only. *)
Definition string_like (cells : list value) : bool :=
  negb (existsb is_int cells) && negb (forallb is_decimal cells).

(** The check of the two key columns before the rows are paired. *)
Definition keys_fit (k : string) (lk rk : list value) : result unit :=
  let dl := column_dtype lk in
  let dr := column_dtype rk in
  if bool_decide (lk = []) || bool_decide (rk = []) then Return tt
  else if (numeric dl && negb (numeric dr) && string_like rk)
          || (negb (numeric dl) && numeric dr && string_like lk)
  then Raise (ValueError
                ("You are trying to merge on " +:+ dtype_name dl +:+ " and "
                 +:+ dtype_name dr +:+ " columns for key '" +:+ k
                 +:+ "'. If you wish to proceed you should use pd.concat"))
  else Return tt.

Definition suffix_overlap (others : list string) (suf c : string) : string :=
  if bool_decide (c ∈ others) then c +:+ suf else c.

Definition merge_rows (i j width : nat) (left right : list (list value))
    : list (list value) :=
  flat_map
    (fun l =>
       match filter (fun r => cell r j = cell l i) right with
       | [] => [l ++ replicate width VNull]
       | matches => map (fun r => l ++ delete j r) matches
       end)
    left.

Definition pd_merge (left right : DataFrame) (keys : merge_keys)
    : result DataFrame :=
  match keys with
  | left_on_ _ => Raise (MergeError must_pass_right_on)
  | on_ k =>
      match col_index k (columns left), col_index k (columns right) with
      | Some i, Some j =>
          let lcols := delete i (columns left) in
          let rcols := delete j (columns right) in
          _ <- keys_fit k (map (fun r => cell r i) (rows left))
                          (map (fun r => cell r j) (rows right)) ;;
          Return (mkDataFrame
                    (map (suffix_overlap rcols "_x") (take i (columns left))
                     ++ [k]
                     ++ map (suffix_overlap rcols "_x") (drop (S i) (columns left))
                     ++ map (suffix_overlap lcols "_y") rcols)
                    (merge_rows i j (length rcols) (rows left) (rows right)))
      | _, _ => Raise (KeyError k)
      end
  end.

(** ** The queries view: one pass of the loop over [queries.items()] *)

Definition first_column (df : DataFrame) : string := hd "" (columns df).
Definition last_column (df : DataFrame) : string := List.last (columns df) "".

(** Lines 673-680, for the frame [result] that [load_data(query)] returned. *)
Definition show_result (result : DataFrame) : list st_call :=
  if negb (empty result) then
    st_dataframe result ::
    (if (2 <=? length (columns result))%nat && (1 <? len result)%nat then
       if str_contains "Total" (last_column result)
          || str_contains "Count" (last_column result)
       then [st_plotly_chart
               (px_bar result (first_column result) (last_column result))]
       else []
     else [])
  else [].

(** The chart, if any, among the calls of one pass. *)
Fixpoint chart_of (calls : list st_call) : option figure :=
  match calls with
  | [] => None
  | st_plotly_chart fig :: _ => Some fig
  | _ :: rest => chart_of rest
  end.

(** ** The relational store *)

(** Modelled from the spec: the table declarations are not part of the
    application source; the columns and their order follow the data model
    (Provider, Receiver, FoodListing, Claim), identities and quantities are
    integers and every other column is text. *)
Module Provider.
Record t := mk {
  Provider_ID : Z;
  Name : string;
  Type_ : string;
  Address : string;
  City : string;
  Contact : string
}.
Definition cols : list string :=
  ["Provider_ID"; "Name"; "Type"; "Address"; "City"; "Contact"].
Definition to_row (p : t) : list value :=
  [VInt (Provider_ID p); VStr (Name p); VStr (Type_ p); VStr (Address p);
   VStr (City p); VStr (Contact p)].
End Provider.

Module Receiver.
Record t := mk {
  Receiver_ID : Z;
  Name : string;
  Type_ : string;
  City : string;
  Contact : string
}.
Definition cols : list string :=
  ["Receiver_ID"; "Name"; "Type"; "City"; "Contact"].
Definition to_row (r : t) : list value :=
  [VInt (Receiver_ID r); VStr (Name r); VStr (Type_ r); VStr (City r);
   VStr (Contact r)].
End Receiver.

Module FoodListing.
Record t := mk {
  Food_ID : Z;
  Food_Name : string;
  Quantity : Z;
  Expiry_Date : string;
  Provider_ID : Z;
  Provider_Type : string;
  Location : string;
  Food_Type : string;
  Meal_Type : string
}.
Definition cols : list string :=
  ["Food_ID"; "Food_Name"; "Quantity"; "Expiry_Date"; "Provider_ID";
   "Provider_Type"; "Location"; "Food_Type"; "Meal_Type"].
Definition to_row (f : t) : list value :=
  [VInt (Food_ID f); VStr (Food_Name f); VInt (Quantity f);
   VStr (Expiry_Date f); VInt (Provider_ID f); VStr (Provider_Type f);
   VStr (Location f); VStr (Food_Type f); VStr (Meal_Type f)].
End FoodListing.

Module Claim.
Record t := mk {
  Claim_ID : Z;
  Food_ID : Z;
  Receiver_ID : Z;
  Status : string
}.
Definition cols : list string :=
  ["Claim_ID"; "Food_ID"; "Receiver_ID"; "Status"].
Definition to_row (c : t) : list value :=
  [VInt (Claim_ID c); VInt (Food_ID c); VInt (Receiver_ID c);
   VStr (Status c)].
End Claim.

#[global] Instance Provider_eq_dec : EqDecision Provider.t.
Proof. solve_decision. Defined.
#[global] Instance Receiver_eq_dec : EqDecision Receiver.t.
Proof. solve_decision. Defined.
#[global] Instance FoodListing_eq_dec : EqDecision FoodListing.t.
Proof. solve_decision. Defined.
#[global] Instance Claim_eq_dec : EqDecision Claim.t.
Proof. solve_decision. Defined.

Record database := mkDatabase {
  Providers : list Provider.t;
  Receivers : list Receiver.t;
  Food_Listings_Dataset : list FoodListing.t;
  Claims : list Claim.t
}.

#[global] Instance database_eq_dec : EqDecision database.
Proof. solve_decision. Defined.

Definition providers_frame (db : database) : DataFrame :=
  mkDataFrame Provider.cols (map Provider.to_row (Providers db)).
Definition receivers_frame (db : database) : DataFrame :=
  mkDataFrame Receiver.cols (map Receiver.to_row (Receivers db)).
Definition food_listings_frame (db : database) : DataFrame :=
  mkDataFrame FoodListing.cols
              (map FoodListing.to_row (Food_Listings_Dataset db)).
Definition claims_frame (db : database) : DataFrame :=
  mkDataFrame Claim.cols (map Claim.to_row (Claims db)).

(** *** SQL text of the application *)

(** [f"SELECT * FROM {table}"] *)
Definition select_all (table : string) : string := "SELECT * FROM " +:+ table.

Definition insert_provider_sql : string :=
  "INSERT INTO Providers (Name, Type, Address, City, Contact) VALUES (?, ?, ?, ?, ?)".

Definition insert_receiver_sql : string :=
  "INSERT INTO Receivers (Name, Type, City, Contact) VALUES (?, ?, ?, ?)".

Definition update_provider_sql : string :=
  "UPDATE Providers SET Name=?, Type=?, Address=?, City=?, Contact=? WHERE Provider_ID=?".

Definition query1_name : string :=
  "Query 1: How many food providers and receivers are there in each city?".

Definition query1 : string := "
            SELECT 
                City,
                COUNT(DISTINCT Provider_ID) AS Total_Providers,
                COUNT(DISTINCT Receiver_ID) AS Total_Receivers
            FROM (
                SELECT City, Provider_ID, NULL AS Receiver_ID FROM Providers
                UNION ALL
                SELECT City, NULL AS Provider_ID, Receiver_ID FROM Receivers
            ) AS combined
            GROUP BY City
            ORDER BY City;
        ".

Definition query5_name : string :=
  "Query 5: Total quantity of food available from all providers".

Definition query5 : string := "
            SELECT SUM(Quantity) AS Total_Quantity_Available
            FROM Food_Listings_Dataset;
        ".

Definition query10_name : string :=
  "Query 10: What percentage of food claims are completed vs. pending vs. canceled?".

Definition query10 : string := "
            SELECT 
                Status,
                COUNT(*) AS Count,
                ROUND((COUNT(*) * 100.0 / (SELECT COUNT(*) FROM Claims)), 2) AS Percentage
            FROM Claims
            GROUP BY Status;
        ".

(** *** Aggregates and arithmetic of the server *)

(** Modelled from the spec: the data model calls the identities and the
    quantities integers; they are the server's [int], and a number outside
    its range is the server's error 8115. *)
Definition int_min : Z := -2147483648.
Definition int_max : Z := 2147483647.

Definition in_int (n : Z) : bool := (int_min <=? n) && (n <=? int_max).

Definition overflow : exn :=
  DataError "Arithmetic overflow error converting expression to data type int.".

(** The total of an [int] column is an [int]: the rows are added one after
    the other and the statement fails once the running total leaves the
    range. *)
Fixpoint running_total (acc : Z) (l : list Z) : result Z :=
  match l with
  | [] => Return acc
  | x :: rest =>
      if in_int (acc + x) then running_total (acc + x) rest
      else Raise overflow
  end.

(** [SUM] over a column: no row gives NULL. *)
Definition sql_sum (l : list Z) : result value :=
  match l with
  | [] => Return VNull
  | _ => total <- running_total 0 l ;; Return (VInt total)
  end.

(** [COUNT(DISTINCT col)]: NULLs are not counted. *)
Definition count_distinct (l : list (option Z)) : Z :=
  Z.of_nat (length (remove_dups (omap id l))).

(** The keys of a [GROUP BY]: each distinct value once. *)
Definition group_keys (l : list string) : list string := remove_dups l.

(** An integer count times the literal [100.0] is a numeric with one
    decimal, here in tenths. *)
Definition times_100_0 (count : Z) : Z := count * 1000.

(** Division of a numeric(15,1) by an integer: the quotient is a numeric
    with 12 decimals, digits beyond the twelfth dropped; a zero divisor is
    the server's error 8134. *)
Definition sql_div (tenths divisor : Z) : result Z :=
  if decide (divisor = 0) then
    Raise (DataError "Divide by zero error encountered.")
  else Return (Z.quot (tenths * 10 ^ 11) divisor).

(** [ROUND(x, 2)] on a numeric with 12 decimals: to the nearest hundredth,
    a tie away from zero; the scale of the result stays 12. *)
Definition sql_round2 (units : Z) : Z :=
  Z.sgn units * ((Z.abs units + 5 * 10 ^ 9) / 10 ^ 10) * 10 ^ 10.

Fixpoint mapM {A B} (f : A -> result B) (l : list A) : result (list B) :=
  match l with
  | [] => Return []
  | a :: rest => b <- f a ;; bs <- mapM f rest ;; Return (b :: bs)
  end.

(** *** The three reports under study *)

(** The derived table [combined] of Query 1. *)
Definition combined (db : database) : list (string * option Z * option Z) :=
  map (fun p => (Provider.City p, Some (Provider.Provider_ID p), None))
      (Providers db)
  ++ map (fun r => (Receiver.City r, None, Some (Receiver.Receiver_ID r)))
         (Receivers db).

Definition report1_row (comb : list (string * option Z * option Z))
    (city : string) : list value :=
  let grp := filter (fun row => row.1.1 = city) comb in
  [VStr city;
   VInt (count_distinct (map (fun row => row.1.2) grp));
   VInt (count_distinct (map (fun row => row.2) grp))].

(** Query 1; text is compared code point by code point, in [GROUP BY] and
    in [ORDER BY] alike. *)
Definition report1 (db : database) : DataFrame :=
  let comb := combined db in
  mkDataFrame ["City"; "Total_Providers"; "Total_Receivers"]
    (map (report1_row comb)
         (merge_sort String.le (group_keys (map (fun row => row.1.1) comb)))).

(** Query 5. *)
Definition report5 (db : database) : result DataFrame :=
  total <- sql_sum (map FoodListing.Quantity (Food_Listings_Dataset db)) ;;
  Return (mkDataFrame ["Total_Quantity_Available"] [[total]]).

Definition status_count (claims : list Claim.t) (status : string) : Z :=
  Z.of_nat (length (filter (fun c => Claim.Status c = status) claims)).

Definition report10_row (claims : list Claim.t) (status : string)
    : result (list value) :=
  let count := status_count claims status in
  q <- sql_div (times_100_0 count) (Z.of_nat (length claims)) ;;
  Return [VStr status; VInt count; VDec (sql_round2 q)].

(** Query 10.  The select list is evaluated once per group; the order of
    the groups is the server's choice, the model lists them in the order
    of [group_keys]. *)
Definition report10 (db : database) : result DataFrame :=
  rs <- mapM (report10_row (Claims db))
             (group_keys (map Claim.Status (Claims db))) ;;
  Return (mkDataFrame ["Status"; "Count"; "Percentage"] rs).

(** *** Statements the store runs *)

Definition unsupported : exn :=
  ProgrammingError "statement outside the fragment of SQL modelled here".

(** The value an identity column gets on insert: one more than the largest
    in use. *)
Definition next_id (ids : list Z) : Z := 1 + foldr Z.max 0 ids.

Definition same_sql (q text : string) : bool :=
  bool_decide (String.words q = String.words text).

(** [pd.read_sql(query, conn)] against the store. *)
Definition sql_read (query : string) (db : database) : result DataFrame :=
  if same_sql query (select_all "Providers") then Return (providers_frame db)
  else if same_sql query (select_all "Receivers") then
    Return (receivers_frame db)
  else if same_sql query (select_all "Food_Listings_Dataset") then
    Return (food_listings_frame db)
  else if same_sql query (select_all "Claims") then Return (claims_frame db)
  else if same_sql query query1 then Return (report1 db)
  else if same_sql query query5 then report5 db
  else if same_sql query query10 then report10 db
  else Raise unsupported.

Definition update_provider (id : Z) (name type_ address city contact : string)
    (p : Provider.t) : Provider.t :=
  if decide (Provider.Provider_ID p = id) then
    Provider.mk id name type_ address city contact
  else p.

(** [cursor.execute(query, params)] against the store; a statement that
    fails changes nothing. *)
Definition sql_execute (query : string) (params : list value) (db : database)
    : result database :=
  if same_sql query insert_provider_sql then
    match params with
    | [VStr name; VStr type_; VStr address; VStr city; VStr contact] =>
        Return (mkDatabase
                  (Providers db ++
                   [Provider.mk
                      (next_id (map Provider.Provider_ID (Providers db)))
                      name type_ address city contact])
                  (Receivers db) (Food_Listings_Dataset db) (Claims db))
    | _ => Raise (ProgrammingError "parameters do not fit the statement")
    end
  else if same_sql query insert_receiver_sql then
    match params with
    | [VStr name; VStr type_; VStr city; VStr contact] =>
        Return (mkDatabase
                  (Providers db)
                  (Receivers db ++
                   [Receiver.mk
                      (next_id (map Receiver.Receiver_ID (Receivers db)))
                      name type_ city contact])
                  (Food_Listings_Dataset db) (Claims db))
    | _ => Raise (ProgrammingError "parameters do not fit the statement")
    end
  else if same_sql query update_provider_sql then
    match params with
    | [VStr name; VStr type_; VStr address; VStr city; VStr contact; VInt id] =>
        Return (mkDatabase
                  (map (update_provider id name type_ address city contact)
                       (Providers db))
                  (Receivers db) (Food_Listings_Dataset db) (Claims db))
    | _ => Raise (ProgrammingError "parameters do not fit the statement")
    end
  else Raise unsupported.

(** ** The data access layer *)

(** What the application asks of a pyodbc connection of type [C]. *)
Record driver (C : Type) := mkDriver {
  conn_cursor : C -> result unit;
  cursor_execute : string -> list value -> C -> result C;
  conn_commit : C -> result C;
  pd_read_sql : string -> C -> result DataFrame
}.
Arguments mkDriver {C}.
Arguments conn_cursor {C}.
Arguments cursor_execute {C}.
Arguments conn_commit {C}.
Arguments pd_read_sql {C}.

(** The driver connected to the store above. *)
Definition sql_server : driver database :=
  mkDriver (fun _ => Return tt) sql_execute Return sql_read.

(** The process-wide state: the global [conn] ([None] when
    [init_connection] failed) and the results [st.cache_data] keeps for
    [load_data], keyed by the query text. *)
Record session (C : Type) := mkSession {
  conn : option C;
  memo : gmap string DataFrame
}.
Arguments mkSession {C}.
Arguments conn {C}.
Arguments memo {C}.

(** A call that may raise and may change the session. *)
Definition io (C A : Type) : Type := session C -> result A * session C.

Definition ret {C A} (a : A) : io C A := fun s => (Return a, s).

Definition iobind {C A B} (m : io C A) (k : A -> io C B) : io C B :=
  fun s =>
    match m s with
    | (Return a, s') => k a s'
    | (Raise e, s') => (Raise e, s')
    end.

Notation "x <<- m ;; k" := (iobind m (fun x => k))
  (at level 100, m at next level, right associativity).

Section DataAccess.
Context {C : Type} (drv : driver C).

(** Lines 112-117, under [@st.cache_data]: a query text already seen is
    answered from the memo. *)
Definition load_data (query : string) : io C DataFrame :=
  fun s =>
    match memo s !! query with
    | Some df => (Return df, s)
    | None =>
        match conn s with
        | Some c =>
            match pd_read_sql drv query c with
            | Return df =>
                (Return df, mkSession (conn s) (<[query := df]> (memo s)))
            | Raise e => (Raise e, s)
            end
        | None =>
            (Return DataFrame_new,
             mkSession (conn s) (<[query := DataFrame_new]> (memo s)))
        end
    end.

(** Lines 119-129.  [params] is [None] when the argument is left out. *)
Definition execute_query (query : string) (params : option (list value))
    : io C bool :=
  fun s =>
    match conn s with
    | Some c =>
        match conn_cursor drv c with
        | Raise e => (Raise e, s)
        | Return _ =>
            let executed :=
              match params with
              | Some (p :: ps) => cursor_execute drv query (p :: ps) c
              | _ => cursor_execute drv query [] c
              end in
            match executed with
            | Raise e => (Raise e, s)
            | Return c1 =>
                match conn_commit drv c1 with
                | Raise e => (Raise e, mkSession (Some c1) (memo s))
                | Return c2 => (Return true, mkSession (Some c2) (memo s))
                end
            end
        end
    | None => (Return false, s)
    end.

(** Lines 133-140 (the outer memo of [load_all_data] holds the same four
    frames and is left out). *)
Definition load_all_data
    : io C (DataFrame * DataFrame * DataFrame * DataFrame) :=
  providers <<- load_data "SELECT * FROM Providers" ;;
  receivers <<- load_data "SELECT * FROM Receivers" ;;
  food_listings <<- load_data "SELECT * FROM Food_Listings_Dataset" ;;
  claims <<- load_data "SELECT * FROM Claims" ;;
  ret (providers, receivers, food_listings, claims).
End DataAccess.

(** ** The CRUD forms *)

(** What the user leaves in a form: the text inputs and select boxes, and
    whether the submit button was pressed.  A form without an address field
    ignores [address]. *)
Record form := mkForm {
  name : string;
  type_ : string;
  address : string;
  city : string;
  contact : string;
  submitted : bool
}.

Definition provider_types : list string :=
  ["Supermarket"; "Grocery Store"; "Restaurant"; "Catering Service"].

(** [data[col].tolist()] *)
Definition column_values (data : DataFrame) (col : string)
    : result (list value) :=
  match col_index col (columns data) with
  | Some i => Return (map (fun r => cell r i) (rows data))
  | None => Raise (KeyError col)
  end.

(** [data[data[col] == v].iloc[0]], as the labels with the cells. *)
Definition first_row_where (data : DataFrame) (col : string) (v : value)
    : result (list (string * value)) :=
  match col_index col (columns data) with
  | Some i =>
      match filter (fun r => cell r i = v) (rows data) with
      | r :: _ => Return (zip (columns data) r)
      | [] => Raise (IndexError "single positional indexer is out-of-bounds")
      end
  | None => Raise (KeyError col)
  end.

(** [row[label]] *)
Definition row_get (row : list (string * value)) (label : string)
    : result value :=
  match list_find (fun kv => kv.1 = label) row with
  | Some (_, (_, v)) => Return v
  | None => Raise (KeyError label)
  end.

(** [repr(v)] of a cell. *)
Definition repr (v : value) : string :=
  match v with
  | VNull => "None"
  | VInt n => pretty n
  | VStr s => "'" +:+ s +:+ "'"
  | VDec units => "Decimal('" +:+ decimal_text pretty units +:+ "')"
  end.

(** [options.index(v)] *)
Definition list_index (options : list string) (v : value) : result nat :=
  match list_find (fun o => VStr o = v) options with
  | Some (i, _) => Return i
  | None => Raise (ValueError (repr v +:+ " is not in list"))
  end.

(** The identity column of a table, lines 479 and 509. *)
Definition id_col (table : string) : string :=
  if String.eqb table "Providers" then "Provider_ID"
  else if String.eqb table "Receivers" then "Receiver_ID"
  else if String.eqb table "Food_Listings_Dataset" then "Food_ID"
  else "Claim_ID".

Definition lift {C A} (r : result A) : io C A := fun s => (r, s).

Section Crud.
Context {C : Type} (drv : driver C).

(** Lines 430-461. *)
Definition show_create_form (table : string) (f : form)
    : io C (list st_call) :=
  if String.eqb table "Providers" then
    if submitted f then
      ok <<- execute_query drv insert_provider_sql
               (Some [VStr (name f); VStr (type_ f); VStr (address f);
                      VStr (city f); VStr (contact f)]) ;;
      ret (st_subheader ("Add New " +:+ table) ::
           if ok : bool
           then [st_success "Provider added successfully!"; st_rerun]
           else [])
    else ret [st_subheader ("Add New " +:+ table)]
  else if String.eqb table "Receivers" then
    if submitted f then
      ok <<- execute_query drv insert_receiver_sql
               (Some [VStr (name f); VStr (type_ f); VStr (city f);
                      VStr (contact f)]) ;;
      ret (st_subheader ("Add New " +:+ table) ::
           if ok : bool
           then [st_success "Receiver added successfully!"; st_rerun]
           else [])
    else ret [st_subheader ("Add New " +:+ table)]
  else ret [st_subheader ("Add New " +:+ table)].

(** Lines 463-467. *)
Definition show_read_table (table : string) : io C (list st_call) :=
  data <<- load_data drv (select_all table) ;;
  ret [st_subheader (table +:+ " Data"); st_dataframe data].

(** Lines 469-497.  [choice] is the position the user picks in the select
    box of identities (position 0 when nothing is picked). *)
Definition show_update_form (table : string) (choice : nat) (f : form)
    : io C (list st_call) :=
  data <<- load_data drv (select_all table) ;;
  if empty data then
    ret [st_subheader ("Update " +:+ table); st_warning "No data available"]
  else
    ids <<- lift (column_values data (id_col table)) ;;
    let selected_id := default (default VNull (head ids)) (ids !! choice) in
    selected_row <<- lift (first_row_where data (id_col table) selected_id) ;;
    if String.eqb table "Providers" then
      _ <<- lift (row_get selected_row "Name") ;;
      current_type <<- lift (row_get selected_row "Type") ;;
      _ <<- lift (list_index provider_types current_type) ;;
      _ <<- lift (row_get selected_row "Address") ;;
      _ <<- lift (row_get selected_row "City") ;;
      _ <<- lift (row_get selected_row "Contact") ;;
      if submitted f then
        ok <<- execute_query drv update_provider_sql
                 (Some [VStr (name f); VStr (type_ f); VStr (address f);
                        VStr (city f); VStr (contact f); selected_id]) ;;
        ret (st_subheader ("Update " +:+ table) ::
             if ok : bool
             then [st_success "Provider updated successfully!"; st_rerun]
             else [])
      else ret [st_subheader ("Update " +:+ table)]
    else ret [st_subheader ("Update " +:+ table)].

(** Lines 669-680: the body of the loop of [show_queries] for one entry
    of [queries]. *)
Definition show_query (query_name query : string) : io C (list st_call) :=
  result <<- load_data drv query ;;
  ret (st_code query :: show_result result).
End Crud.

(** A session right after start: connected to [db], nothing memoised. *)
Definition fresh (db : database) : session database := mkSession (Some db) ∅.

(** ** Statements of the specification, in its own words *)

(** A column name present in both frames. *)
Definition shared (claims receivers : DataFrame) (k : string) : bool :=
  has_column k claims && has_column k receivers.

(** The receiver key "tried in order": the first of the three spellings
    that both frames have. *)
Definition key_tried_in_order (claims receivers : DataFrame) : option string :=
  head (filter (fun k => shared claims receivers k)
               ["Receiver_ID"; "ReceiverID"; "ReceiverId"]).

(** The fallback: the first column of Claims, in column order, that
    Receivers has too and whose name ends in [_ID]. *)
Definition first_shared_id (claims receivers : DataFrame) : option string :=
  head (filter (fun col => has_column col receivers && endswith col "_ID")
               (columns claims)).

(** The receiver step as the resolution rule describes it. *)
Definition receiver_join
    (merge : DataFrame -> DataFrame -> merge_keys -> result DataFrame)
    (claims receivers claims_with_details : DataFrame) : result DataFrame :=
  match key_tried_in_order claims receivers with
  | Some key =>
      sel <- getitem receivers
               (if has_column "Name" receivers then [key; "Name"] else [key]) ;;
      merge claims_with_details sel (on_ key)
  | None =>
      match first_shared_id claims receivers with
      | Some col =>
          right <- (if has_column "Name" receivers
                    then getitem receivers ["Name"]
                    else Return receivers) ;;
          merge claims_with_details right (left_on_ col)
      | None => Return claims_with_details
      end
  end.

(** What the view shows for the outcome of the [try] block. *)
Definition shown (claims : DataFrame) (r : result DataFrame) : list st_call :=
  match r with
  | Return df => [st_dataframe df]
  | Raise e =>
      [st_error ("Error displaying claims: " +:+ str_exn e);
       st_write "Raw claims data:";
       st_dataframe claims]
  end.

(** The hundredths of a percentage held with 12 decimals. *)
Definition hundredths (units : Z) : Z := units / 10 ^ 10.

(** The percentage column of Query 10 for one status, in 10^-12 units. *)
Definition percentage (claims : list Claim.t) (status : string) : Z :=
  sql_round2
    (Z.quot (times_100_0 (status_count claims status) * 10 ^ 11)
            (Z.of_nat (length claims))).

Definition sum_Z (l : list Z) : Z := foldr Z.add 0 l.

(** The cities of the rows of a Query 1 result, top to bottom. *)
Definition cities_of (df : DataFrame) : list string :=
  omap (fun r => match r with VStr c :: _ => Some c | _ => None end) (rows df).

(** *** Fixtures *)

Definition fixture : database :=
  mkDatabase
    [Provider.mk 1 "Fresh Mart" "Supermarket" "1 Main St" "Bakerton" "555-0101";
     Provider.mk 2 "Corner Cafe" "Restaurant" "9 Elm St" "Adambury" "555-0102"]
    [Receiver.mk 1 "Hope Shelter" "Shelter" "Adambury" "555-0201";
     Receiver.mk 2 "City Food Bank" "Food Bank" "Carlton" "555-0202"]
    [FoodListing.mk 1 "Bread" 10 "2025-03-01" 1 "Supermarket" "Bakerton"
                    "Vegetarian" "Breakfast";
     FoodListing.mk 2 "Rice" 5 "2025-03-02" 2 "Restaurant" "Adambury"
                    "Vegan" "Lunch";
     FoodListing.mk 3 "Soup" 20 "2025-03-03" 2 "Restaurant" "Adambury"
                    "Vegetarian" "Dinner"]
    [Claim.mk 1 1 1 "Completed";
     Claim.mk 2 2 2 "Pending";
     Claim.mk 3 3 1 "Completed"].

(** What Query 5 returns on the fixture. *)
Definition total_of_fixture : DataFrame :=
  mkDataFrame ["Total_Quantity_Available"] [[VInt 35]].

(** No table has a row. *)
Definition empty_database : database := mkDatabase [] [] [] [].

(** Providers and receivers are known, nothing is listed yet. *)
Definition no_listing_yet : database :=
  mkDatabase (Providers fixture) (Receivers fixture) [] [].

(** A Receivers frame whose identity column is spelled [ReceiverID] while
    Claims spells it [Receiver_ID]. *)
Definition receivers_other_spelling : DataFrame :=
  mkDataFrame ["ReceiverID"; "Name"; "Type"; "City"; "Contact"]
              (rows (receivers_frame fixture)).

Definition new_provider : form :=
  mkForm "Green Grocer" "Grocery Store" "4 Oak Ave" "Carlton" "555-0103" true.

(** A [merge] that raises whatever it is given. *)
Definition broken_merge (left right : DataFrame) (keys : merge_keys)
    : result DataFrame :=
  Raise (MergeError "merge is not available").

(** The parameter list [cursor.execute] receives: none when [params] is
    left out or empty. *)
Definition params_passed (params : option (list value)) : list value :=
  match params with
  | Some (p :: ps) => p :: ps
  | _ => []
  end.

(** The row a Providers insert of the form's fields yields. *)
Definition provider_of_form (id : Z) (f : form) : Provider.t :=
  Provider.mk id (name f) (type_ f) (address f) (city f) (contact f).

Definition receiver_of_form (id : Z) (f : form) : Receiver.t :=
  Receiver.mk id (name f) (type_ f) (city f) (contact f).

Definition with_provider (db : database) (p : Provider.t) : database :=
  mkDatabase (Providers db ++ [p]) (Receivers db) (Food_Listings_Dataset db)
             (Claims db).

Definition with_receiver (db : database) (r : Receiver.t) : database :=
  mkDatabase (Providers db) (Receivers db ++ [r]) (Food_Listings_Dataset db)
             (Claims db).

(** The session once [main] has called [load_all_data] on the fixture. *)
Definition session_after_start : session database :=
  (load_all_data sql_server (fresh fixture)).2.

(** ... and once the Create form for Providers has been submitted in it. *)
Definition session_after_create : session database :=
  (show_create_form sql_server "Providers" new_provider session_after_start).2.

(** The rows a submitted Create form adds: the identity is the store's. *)
Definition created_provider (db : database) (f : form) : Provider.t :=
  provider_of_form (next_id (map Provider.Provider_ID (Providers db))) f.

Definition created_receiver (db : database) (f : form) : Receiver.t :=
  receiver_of_form (next_id (map Receiver.Receiver_ID (Receivers db))) f.

Definition edited_receiver : form :=
  mkForm "Hope Shelter West" "Shelter" "" "Bakerton" "555-0299" true.

(** Powers of ten as numerals, for [lia] and [nia]. *)
Ltac powers_of_ten :=
  change (10 ^ 10) with 10000000000 in *;
  change (10 ^ 14) with 100000000000000 in *;
  change (10 ^ 9) with 1000000000 in *.


(** * The other pages *)

(** ** More statements of the store *)

Definition insert_listing_sql : string := "
                INSERT INTO Food_Listings_Dataset (Food_Name, Quantity, Expiry_Date, Provider_ID, Provider_Type, Location, Food_Type, Meal_Type)
                VALUES (?, ?, ?, ?, ?, ?, ?, ?)
                ".

(** [f"DELETE FROM {table} WHERE {id_col}=?"], lines 509-513. *)
Definition delete_sql (table : string) : string :=
  "DELETE FROM " +:+ table +:+ " WHERE " +:+ id_col table +:+ "=?".

Definition with_listing (db : database) (l : FoodListing.t) : database :=
  mkDatabase (Providers db) (Receivers db) (Food_Listings_Dataset db ++ [l])
             (Claims db).

(** The rows a [DELETE ... WHERE id_col = id] leaves. *)
Definition delete_providers (id : Z) (db : database) : database :=
  mkDatabase (filter (fun p => Provider.Provider_ID p <> id) (Providers db))
             (Receivers db) (Food_Listings_Dataset db) (Claims db).

Definition delete_receivers (id : Z) (db : database) : database :=
  mkDatabase (Providers db)
             (filter (fun r => Receiver.Receiver_ID r <> id) (Receivers db))
             (Food_Listings_Dataset db) (Claims db).

Definition delete_listings (id : Z) (db : database) : database :=
  mkDatabase (Providers db) (Receivers db)
             (filter (fun l => FoodListing.Food_ID l <> id)
                     (Food_Listings_Dataset db))
             (Claims db).

Definition delete_claims (id : Z) (db : database) : database :=
  mkDatabase (Providers db) (Receivers db) (Food_Listings_Dataset db)
             (filter (fun c => Claim.Claim_ID c <> id) (Claims db)).

Definition misfit : exn :=
  ProgrammingError "parameters do not fit the statement".

(** [cursor.execute] for every mutating statement of the application: the
    listing insert of the Food Listings page and the four deletes, besides
    the statements of [sql_execute].  The store declares no constraint
    between tables; an integer parameter outside the range of [int] does
    not fit its column. *)
Definition sql_execute_all (query : string) (params : list value)
    (db : database) : result database :=
  if same_sql query insert_listing_sql then
    match params with
    | [VStr food_name; VInt quantity; VStr expiry_date; VInt provider_id;
       VStr provider_type; VStr location; VStr food_type; VStr meal_type] =>
        if in_int quantity && in_int provider_id then
          Return (with_listing db
                    (FoodListing.mk
                       (next_id (map FoodListing.Food_ID
                                     (Food_Listings_Dataset db)))
                       food_name quantity expiry_date provider_id
                       provider_type location food_type meal_type))
        else Raise overflow
    | _ => Raise misfit
    end
  else if same_sql query (delete_sql "Providers") then
    match params with
    | [VInt id] => Return (delete_providers id db)
    | _ => Raise misfit
    end
  else if same_sql query (delete_sql "Receivers") then
    match params with
    | [VInt id] => Return (delete_receivers id db)
    | _ => Raise misfit
    end
  else if same_sql query (delete_sql "Food_Listings_Dataset") then
    match params with
    | [VInt id] => Return (delete_listings id db)
    | _ => Raise misfit
    end
  else if same_sql query (delete_sql "Claims") then
    match params with
    | [VInt id] => Return (delete_claims id db)
    | _ => Raise misfit
    end
  else sql_execute query params db.

(** ** Delete form and the CRUD page *)

Section CrudPage.
Context {C : Type} (drv : driver C).

(** Lines 499-516.  [choice] is the position picked in the select box of
    identities, [pressed] whether the Delete button was pressed. *)
Definition show_delete_form (table : string) (choice : nat) (pressed : bool)
    : io C (list st_call) :=
  data <<- load_data drv (select_all table) ;;
  if empty data then
    ret [st_subheader ("Delete from " +:+ table);
         st_warning "No data available"]
  else
    ids <<- lift (column_values data (id_col table)) ;;
    let selected_id := default (default VNull (head ids)) (ids !! choice) in
    if pressed then
      ok <<- execute_query drv (delete_sql table) (Some [selected_id]) ;;
      ret (st_subheader ("Delete from " +:+ table) ::
           if ok : bool
           then [st_success "Record deleted successfully!"; st_rerun]
           else [])
    else ret [st_subheader ("Delete from " +:+ table)].

(** Lines 414-428.  [operation] and [table] are the picks of the two select
    boxes; the remaining arguments are what the user leaves in the form of
    the operation. *)
Definition show_crud_operations (operation table : string) (choice : nat)
    (f : form) (pressed : bool) : io C (list st_call) :=
  calls <<- (if String.eqb operation "Create" then show_create_form drv table f
             else if String.eqb operation "Read" then show_read_table drv table
             else if String.eqb operation "Update" then
               show_update_form drv table choice f
             else if String.eqb operation "Delete" then
               show_delete_form table choice pressed
             else ret []) ;;
  ret (st_header "🔧 CRUD Operations" :: calls).

(** One call into the data access layer. *)
Inductive access :=
  | Load (query : string)
  | Exec (query : string) (params : option (list value)).

Definition run_access (s : session C) (a : access) : session C :=
  match a with
  | Load query => (load_data drv query s).2
  | Exec query params => (execute_query drv query params s).2
  end.

(** Any sequence of calls, in order. *)
Definition run_accesses (s : session C) (l : list access) : session C :=
  foldl run_access s l.
End CrudPage.

(** A session without a connection in which every memoised frame is the
    empty frame of [load_data]. *)
Definition offline {C} (s : session C) : Prop :=
  conn s = None /\ forall q df, memo s !! q = Some df -> df = DataFrame_new.

Definition crud_tables : list string :=
  ["Providers"; "Receivers"; "Food_Listings_Dataset"; "Claims"].

(** The identities in a table, top to bottom. *)
Definition ids_of (table : string) (db : database) : list Z :=
  if String.eqb table "Providers" then
    map Provider.Provider_ID (Providers db)
  else if String.eqb table "Receivers" then
    map Receiver.Receiver_ID (Receivers db)
  else if String.eqb table "Food_Listings_Dataset" then
    map FoodListing.Food_ID (Food_Listings_Dataset db)
  else map Claim.Claim_ID (Claims db).

Definition table_frame (table : string) (db : database) : DataFrame :=
  if String.eqb table "Providers" then providers_frame db
  else if String.eqb table "Receivers" then receivers_frame db
  else if String.eqb table "Food_Listings_Dataset" then food_listings_frame db
  else claims_frame db.

(** What this process takes a table to be: the state [seen] of the
    database in which the select of the table was first read, when that
    frame is memoised; the current state when the select was not read
    yet. *)
Definition reads_as (table : string) (m : gmap string DataFrame)
    (db seen : database) : Prop :=
  m !! select_all table = Some (table_frame table seen)
  \/ (m !! select_all table = None /\ seen = db).

Definition delete_rows (table : string) (id : Z) (db : database) : database :=
  if String.eqb table "Providers" then delete_providers id db
  else if String.eqb table "Receivers" then delete_receivers id db
  else if String.eqb table "Food_Listings_Dataset" then delete_listings id db
  else delete_claims id db.

(** Whether a visit of the CRUD page reaches an [execute_query] call at
    all. *)
Definition may_write (operation table : string) (f : form) (pressed : bool)
    : bool :=
  String.eqb operation "Create"
  && (String.eqb table "Providers" || String.eqb table "Receivers")
  && submitted f
  || String.eqb operation "Update" && String.eqb table "Providers"
     && submitted f
  || String.eqb operation "Delete" && pressed.

(** ** More reports of the store *)

Definition provider_counts_sql : string := "
        SELECT p.Name, p.Type, COUNT(f.Food_ID) as TotalListings
        FROM Providers p
        LEFT JOIN Food_Listings_Dataset f ON p.Provider_ID = f.Provider_ID
        GROUP BY p.Name, p.Type
        ORDER BY TotalListings DESC
    ".

Definition query4_name : string :=
  "Query 4: Which receivers have claimed the most food?".

Definition query4 : string := "
            SELECT 
                r.Receiver_ID,
                r.Name AS Receiver_Name,
                COUNT(c.Claim_ID) AS Total_Claims
            FROM Claims c
            JOIN Receivers r 
                ON c.Receiver_ID = r.Receiver_ID
            GROUP BY r.Receiver_ID, r.Name
            ORDER BY Total_Claims DESC;
        ".


Definition query7 : string := "
            SELECT 
                Food_Type,
                COUNT(Food_ID) AS Listings_Count
            FROM Food_Listings_Dataset
            GROUP BY Food_Type
            ORDER BY Listings_Count DESC;
        ".


Definition query8 : string := "
            SELECT 
                fl.Food_Name,
                COUNT(c.Claim_ID) AS TotalClaims
            FROM Food_Listings_Dataset fl
            LEFT JOIN Claims c ON fl.Food_ID = c.Food_ID
            GROUP BY fl.Food_Name
            ORDER BY TotalClaims DESC;
        ".

Definition query13_name : string :=
  "Query 13: Total quantity of food donated by each provider".

Definition query13 : string := "
            SELECT 
                p.Provider_ID,
                p.Name AS Provider_Name,
                SUM(f.Quantity) AS Total_Quantity_Donated
            FROM Food_Listings_Dataset f
            JOIN Providers p
                ON f.Provider_ID = p.Provider_ID
            GROUP BY p.Provider_ID, p.Name
            ORDER BY Total_Quantity_Donated DESC;
        ".

(** [a JOIN b ON on]: every pair that matches. *)
Definition inner_join {A B} (on : A -> B -> bool) (l : list A) (r : list B)
    : list (A * B) :=
  flat_map (fun a => map (pair a) (filter (fun b => on a b) r)) l.

(** [a LEFT JOIN b ON on]: a row of [a] without a match is kept once, with
    NULL for the columns of [b]. *)
Definition left_join {A B} (on : A -> B -> bool) (l : list A) (r : list B)
    : list (A * option B) :=
  flat_map (fun a =>
              match filter (fun b => on a b) r with
              | [] => [(a, None)]
              | matches => map (fun b => (a, Some b)) matches
              end) l.

(** [GROUP BY key] with one aggregate per group. *)
Definition grouped {R K} `{EqDecision K} (key : R -> K) (agg : list R -> Z)
    (joined : list R) : list (K * Z) :=
  map (fun k => (k, agg (filter (fun r => key r = k) joined)))
      (remove_dups (map key joined)).

(** [ORDER BY aggregate DESC]: the larger aggregate first.  The order among
    equal aggregates is the server's choice; the model keeps the one of the
    sort below. *)
Definition more_first {K} (a b : K * Z) : Prop := b.2 <= a.2.

#[global] Instance more_first_dec {K} : RelDecision (@more_first K).
Proof. intros a b. unfold more_first. apply _. Defined.

Definition order_desc {K} (l : list (K * Z)) : list (K * Z) :=
  merge_sort more_first l.

(** [COUNT( * )] of a group. *)
Definition count_rows {R} (grp : list R) : Z := Z.of_nat (length grp).

(** [COUNT(b.col)] over a left join: the rows that found a match. *)
Definition count_matched {A B} (grp : list (A * option B)) : Z :=
  Z.of_nat (length (filter (fun r => is_Some r.2) grp)).

Definition same_food (fl : FoodListing.t) (c : Claim.t) : bool :=
  bool_decide (FoodListing.Food_ID fl = Claim.Food_ID c).

Definition listed_by (p : Provider.t) (f : FoodListing.t) : bool :=
  bool_decide (Provider.Provider_ID p = FoodListing.Provider_ID f).

Definition provided_by (f : FoodListing.t) (p : Provider.t) : bool :=
  bool_decide (FoodListing.Provider_ID f = Provider.Provider_ID p).

Definition claimed_by (c : Claim.t) (r : Receiver.t) : bool :=
  bool_decide (Claim.Receiver_ID c = Receiver.Receiver_ID r).

(** The statistics query of the Providers page, lines 283-289. *)
Definition provider_groups (db : database) : list (string * string * Z) :=
  grouped (fun r => (Provider.Name r.1, Provider.Type_ r.1)) count_matched
          (left_join listed_by (Providers db) (Food_Listings_Dataset db)).

Definition provider_counts (db : database) : DataFrame :=
  mkDataFrame ["Name"; "Type"; "TotalListings"]
    (map (fun g => [VStr g.1.1; VStr g.1.2; VInt g.2])
         (order_desc (provider_groups db))).

(** Query 4. *)
Definition report4_groups (db : database) : list (Z * string * Z) :=
  grouped (fun r => (Receiver.Receiver_ID r.2, Receiver.Name r.2)) count_rows
          (inner_join claimed_by (Claims db) (Receivers db)).

Definition report4 (db : database) : DataFrame :=
  mkDataFrame ["Receiver_ID"; "Receiver_Name"; "Total_Claims"]
    (map (fun g => [VInt g.1.1; VStr g.1.2; VInt g.2])
         (order_desc (report4_groups db))).

(** Query 7. *)
Definition report7_groups (db : database) : list (string * Z) :=
  grouped FoodListing.Food_Type count_rows (Food_Listings_Dataset db).

Definition report7 (db : database) : DataFrame :=
  mkDataFrame ["Food_Type"; "Listings_Count"]
    (map (fun g => [VStr g.1; VInt g.2]) (order_desc (report7_groups db))).

(** Query 8. *)
Definition report8_groups (db : database) : list (string * Z) :=
  grouped (fun r => FoodListing.Food_Name r.1) count_matched
          (left_join same_food (Food_Listings_Dataset db) (Claims db)).

Definition report8 (db : database) : DataFrame :=
  mkDataFrame ["Food_Name"; "TotalClaims"]
    (map (fun g => [VStr g.1; VInt g.2]) (order_desc (report8_groups db))).

(** [GROUP BY key] with an aggregate that can fail: the statement fails
    with the first group whose aggregate does. *)
Definition grouped_m {R K} `{EqDecision K} (key : R -> K)
    (agg : list R -> result Z) (joined : list R) : result (list (K * Z)) :=
  mapM (fun k => total <- agg (filter (fun r => key r = k) joined) ;;
                 Return (k, total))
       (remove_dups (map key joined)).

(** Query 13: [SUM(f.Quantity)] of a group is an [int] like the column. *)
Definition report13_groups (db : database) : result (list (Z * string * Z)) :=
  grouped_m (fun r => (Provider.Provider_ID r.2, Provider.Name r.2))
            (fun grp =>
               running_total 0 (map (fun r => FoodListing.Quantity r.1) grp))
            (inner_join provided_by (Food_Listings_Dataset db) (Providers db)).

Definition report13 (db : database) : result DataFrame :=
  groups <- report13_groups db ;;
  Return (mkDataFrame
            ["Provider_ID"; "Provider_Name"; "Total_Quantity_Donated"]
            (map (fun g => [VInt g.1.1; VStr g.1.2; VInt g.2])
                 (order_desc groups))).

(** [pd.read_sql] for the further queries, besides those of [sql_read]. *)
Definition sql_read_all (query : string) (db : database) : result DataFrame :=
  if same_sql query provider_counts_sql then Return (provider_counts db)
  else if same_sql query query4 then Return (report4 db)
  else if same_sql query query7 then Return (report7 db)
  else if same_sql query query8 then Return (report8 db)
  else if same_sql query query13 then report13 db
  else sql_read query db.

(** The driver connected to the store with all of the statements above. *)
Definition app_server : driver database :=
  mkDriver (fun _ => Return tt) sql_execute_all Return sql_read_all.

(** The last cells of the rows of a report: its aggregate column. *)
Definition aggregates (df : DataFrame) : list Z :=
  omap (fun r => match List.last r VNull with VInt n => Some n | _ => None end)
       (rows df).

(** ** The Providers and Receivers pages *)

Section Pages.
Context {C : Type} (drv : driver C).

(** Lines 271-290. *)
Definition show_providers (providers : DataFrame) : io C (list st_call) :=
  if empty providers then
    ret [st_header "🏢 Food Providers"; st_warning "No providers available"]
  else
    provider_counts <<- load_data drv provider_counts_sql ;;
    ret [st_header "🏢 Food Providers"; st_dataframe providers;
         st_subheader "Provider Statistics"; st_dataframe provider_counts].

(** Lines 292-300. *)
Definition show_receivers (receivers : DataFrame) : list st_call :=
  st_header "👥 Food Receivers" ::
  if empty receivers then [st_warning "No receivers available"]
  else [st_dataframe receivers].
End Pages.

(** The Delete button pressed once for each of [choices], in order. *)
Definition delete_presses (table : string) (s : session database)
    (choices : list nat) : session database :=
  foldl (fun s choice => (show_delete_form app_server table choice true s).2)
        s choices.

(** The fixture after another client removed provider 2. *)
Definition fixture_without_cafe : database := delete_rows "Providers" 2 fixture.

(** The memo once the four tables of the fixture have been read. *)
Definition memo_of_fixture : gmap string DataFrame :=
  memo (load_all_data app_server (fresh fixture)).2.

(** A provider that came after the tables were read. *)
Definition late_provider : Provider.t :=
  Provider.mk 7 "Night Market" "Supermarket" "7 Quay" "Carlton" "555-0107".

(** A Providers table with a type that the forms do not offer. *)
Definition database_with_bakery : database :=
  mkDatabase
    [Provider.mk 1 "Fresh Mart" "Supermarket" "1 Main St" "Bakerton" "555-0101";
     Provider.mk 2 "Sun Bakery" "Bakery" "2 Mill Rd" "Adambury" "555-0104"]
    [] [] [].



(** ** The Food Listings page and the dashboard *)

(** [series.unique()]: each value once, in the order of first appearance. *)
Fixpoint unique (l : list value) : list value :=
  match l with
  | [] => []
  | v :: rest => v :: filter (fun w => w <> v) (unique rest)
  end.

(** [df[col].unique()] *)
Definition column_unique (df : DataFrame) (col : string)
    : result (list value) :=
  vs <- column_values df col ;; Return (unique vs).

(** [df[df[col].isin(values)]] *)
Definition isin_rows (df : DataFrame) (col : string) (values : list value)
    : result DataFrame :=
  match col_index col (columns df) with
  | Some i =>
      Return (mkDataFrame (columns df)
                (filter (fun r => cell r i ∈ values) (rows df)))
  | None => Raise (KeyError col)
  end.

(** [df[df[col] == v]] *)
Definition eq_rows (df : DataFrame) (col : string) (v : value)
    : result DataFrame :=
  match col_index col (columns df) with
  | Some i =>
      Return (mkDataFrame (columns df)
                (filter (fun r => cell r i = v) (rows df)))
  | None => Raise (KeyError col)
  end.

(** [df.head(n)] *)
Definition head_rows (n : nat) (df : DataFrame) : DataFrame :=
  mkDataFrame (columns df) (take n (rows df)).

(** What the user leaves in the form of the Food Listings page; the date
    picked is held as its text. *)
Record listing_form := mkListingForm {
  food_name : string;
  quantity : Z;
  expiry_date : string;
  provider_id : Z;
  provider_type : string;
  location : string;
  food_type : string;
  meal_type : string;
  listing_submitted : bool
}.

Section ListingsPage.
Context {C : Type} (drv : driver C).

(** Lines 215-269.  The three filters are the picks of the multiselects,
    [add_pressed] is the Add New Listing button and [show_add_form] the
    flag of that name in the session state; the flag is returned with the
    calls. *)
Definition show_food_listings (food_listings providers : DataFrame)
    (location_filter food_type_filter provider_type_filter : list value)
    (add_pressed show_add_form : bool) (lf : listing_form)
    : io C (list st_call * bool) :=
  if empty food_listings then
    ret ([st_header "🥘 Food Listings";
          st_warning "No food listings available"], show_add_form)
  else
    _ <<- lift (column_unique food_listings "Location") ;;
    _ <<- lift (column_unique food_listings "Food_Type") ;;
    _ <<- lift (column_unique food_listings "Provider_Type") ;;
    filtered1 <<- lift (if bool_decide (location_filter <> []) then
                          isin_rows food_listings "Location" location_filter
                        else Return food_listings) ;;
    filtered2 <<- lift (if bool_decide (food_type_filter <> []) then
                          isin_rows filtered1 "Food_Type" food_type_filter
                        else Return filtered1) ;;
    filtered_listings <<-
      lift (if bool_decide (provider_type_filter <> []) then
              isin_rows filtered2 "Provider_Type" provider_type_filter
            else Return filtered2) ;;
    let flag := add_pressed || show_add_form in
    let page := [st_header "🥘 Food Listings"; st_dataframe filtered_listings] in
    if flag then
      let form := page ++ [st_subheader "Add New Food Listing"] in
      if listing_submitted lf then
        ok <<- execute_query drv insert_listing_sql
                 (Some [VStr (food_name lf); VInt (quantity lf);
                        VStr (expiry_date lf); VInt (provider_id lf);
                        VStr (provider_type lf); VStr (location lf);
                        VStr (food_type lf); VStr (meal_type lf)]) ;;
        if ok : bool then
          ret (form ++ [st_success "Listing added successfully!"; st_rerun],
               false)
        else ret (form, flag)
      else ret (form, flag)
    else ret (page, flag).
End ListingsPage.

(** The calls of the dashboard and of the EDA page: those of the other
    pages and [st.metric] with a number or with text. *)
Inductive page_call :=
  | st (call : st_call)
  | st_metric (label : string) (count : nat)
  | st_metric_text (label text : string).

(** The pick of a select box: the option at the picked position, the
    first option when nothing is picked. *)
Definition picked (options : list value) (pick : nat) : value :=
  default (default VNull (head options)) (options !! pick).

(** Lines 175-213. *)
Definition show_dashboard (providers receivers food_listings claims : DataFrame)
    (location_pick food_type_pick : nat) : result (list page_call) :=
  let top :=
    [st (st_header "📊 Dashboard Overview");
     st_metric "Total Providers" (len providers);
     st_metric "Total Receivers" (len receivers);
     st_metric "Total Food Listings" (len food_listings);
     st_metric "Total Claims" (len claims);
     st (st_subheader "Recent Activity")] in
  if empty food_listings then
    Return (top ++ [st (st_subheader "Quick Filters")])
  else
    locations <- column_unique food_listings "Location" ;;
    let location_filter := picked (VStr "All" :: locations) location_pick in
    food_types <- column_unique food_listings "Food_Type" ;;
    let food_type_filter := picked (VStr "All" :: food_types) food_type_pick in
    filtered1 <- (if bool_decide (location_filter <> VStr "All") then
                    eq_rows food_listings "Location" location_filter
                  else Return food_listings) ;;
    filtered_listings <-
      (if bool_decide (food_type_filter <> VStr "All") then
         eq_rows filtered1 "Food_Type" food_type_filter
       else Return filtered1) ;;
    Return (top ++ [st (st_dataframe (head_rows 10 food_listings));
                    st (st_subheader "Quick Filters");
                    st (st_dataframe filtered_listings)]).

(** ** The fifth tab of the EDA page *)

Definition eda_query5 : string := "
            SELECT SUM(Quantity) AS Total_Quantity_Available
            FROM Food_Listings_Dataset;
        ".

(** [df.iloc[0][label]] *)
Definition iloc0_get (df : DataFrame) (label : string) : result value :=
  match rows df with
  | r :: _ => row_get (zip (columns df) r) label
  | [] => Raise (IndexError "single positional indexer is out-of-bounds")
  end.

Section EdaPage.
Context {C : Type} (drv : driver C).

(** Lines 778-788: the block under [with tab5]. *)
Definition show_eda_query5 : io C (list page_call) :=
  result5 <<- load_data drv eda_query5 ;;
  if negb (empty result5) then
    total_quantity <<- lift (iloc0_get result5 "Total_Quantity_Available") ;;
    text <<- lift (format_commas total_quantity) ;;
    ret [st (st_subheader "Query 5: Total Quantity of Food Available");
         st_metric_text "Total Food Available" (text +:+ " units");
         st (st_dataframe result5)]
  else ret [st (st_subheader "Query 5: Total Quantity of Food Available")].
End EdaPage.

(** The listing a submitted form adds: the identity is the store's. *)
Definition created_listing (db : database) (lf : listing_form) : FoodListing.t :=
  FoodListing.mk
    (next_id (map FoodListing.Food_ID (Food_Listings_Dataset db)))
    (food_name lf) (quantity lf) (expiry_date lf) (provider_id lf)
    (provider_type lf) (location lf) (food_type lf) (meal_type lf).

(** A listing passes a multiselect that is empty or holds its value. *)
Definition listing_shown (location_filter food_type_filter
                          provider_type_filter : list value)
    (l : FoodListing.t) : Prop :=
  (location_filter = [] \/ VStr (FoodListing.Location l) ∈ location_filter)
  /\ (food_type_filter = []
      \/ VStr (FoodListing.Food_Type l) ∈ food_type_filter)
  /\ (provider_type_filter = []
      \/ VStr (FoodListing.Provider_Type l) ∈ provider_type_filter).

#[global] Instance listing_shown_dec lf ff pf l :
  Decision (listing_shown lf ff pf l).
Proof. unfold listing_shown. apply _. Defined.

(** A listing passes a select box on All or on its value. *)
Definition quick_match (location_filter food_type_filter : value)
    (l : FoodListing.t) : Prop :=
  (location_filter = VStr "All"
   \/ VStr (FoodListing.Location l) = location_filter)
  /\ (food_type_filter = VStr "All"
      \/ VStr (FoodListing.Food_Type l) = food_type_filter).

#[global] Instance quick_match_dec lv fv l : Decision (quick_match lv fv l).
Proof. unfold quick_match. apply _. Defined.

Definition listings_frame_of (ls : list FoodListing.t) : DataFrame :=
  mkDataFrame FoodListing.cols (map FoodListing.to_row ls).

Definition new_listing : listing_form :=
  mkListingForm "Pasta" 7 "2025-03-09" 1 "Supermarket" "Bakerton"
                "Vegetarian" "Dinner" true.

(** The options of the two select boxes of the dashboard. *)
Definition location_options (ls : list FoodListing.t) : list value :=
  VStr "All" :: unique (map (fun l => VStr (FoodListing.Location l)) ls).

Definition food_type_options (ls : list FoodListing.t) : list value :=
  VStr "All" :: unique (map (fun l => VStr (FoodListing.Food_Type l)) ls).

(** * Properties *)

(** ** Strings *)

Lemma append_cons a s t : String a s +:+ t = String a (s +:+ t).
Proof. reflexivity. Qed.

Lemma append_nil_l t : "" +:+ t = t.
Proof. reflexivity. Qed.

Lemma prefix_spec sub s :
  String.prefix sub s = true <-> exists post, s = sub +:+ post.
Proof.
  revert sub; induction s as [|b s IH]; intros [|a sub]; simpl.
  - split; [exists ""; done | done].
  - split; [done | intros [post H]; discriminate].
  - split; [intros _; by exists (String b s) | done].
  - destruct (Ascii.ascii_dec a b) as [->|Hne].
    + rewrite IH. split; intros [post H]; exists post;
        rewrite append_cons in *; congruence.
    + split; [done | intros [post H]; rewrite append_cons in H; congruence].
Qed.

(** [str_contains] is Python's substring test. *)
Lemma str_contains_spec sub s :
  str_contains sub s = true <-> exists pre post, s = pre +:+ sub +:+ post.
Proof.
  induction s as [|b s IH]; cbn [str_contains].
  - rewrite orb_false_r, prefix_spec. split.
    + intros [post H]. by exists "", post.
    + intros [[|a pre] [post H]]; [by exists post | discriminate].
  - rewrite orb_true_iff, prefix_spec, IH. split.
    + intros [[post H] | (pre & post & H)].
      * by exists "", post.
      * exists (String b pre), post. rewrite append_cons. by rewrite H.
    + intros ([|a pre] & post & H).
      * left. by exists post.
      * right. exists pre, post. rewrite append_cons in H. congruence.
Qed.

Lemma substring_all s : String.substring 0 (String.length s) s = s.
Proof. induction s; simpl; congruence. Qed.

Lemma substring_skip pre s n :
  String.substring (String.length pre) n (pre +:+ s) = String.substring 0 n s.
Proof. induction pre; [done|]. rewrite append_cons. simpl. done. Qed.

Lemma length_append s t :
  String.length (s +:+ t) = (String.length s + String.length t)%nat.
Proof. induction s; [done|]. rewrite append_cons. simpl. lia. Qed.

Lemma substring_split n s :
  (n <= String.length s)%nat ->
  s = String.substring 0 n s +:+ String.substring n (String.length s - n) s.
Proof.
  revert n; induction s as [|a s IH]; intros [|n] Hn; simpl in *; try lia.
  - done.
  - rewrite append_nil_l. f_equal. symmetry. apply substring_all.
  - rewrite append_cons. f_equal. apply IH. lia.
Qed.

(** [endswith] is Python's suffix test. *)
Lemma endswith_spec s suf :
  endswith s suf = true <-> exists pre, s = pre +:+ suf.
Proof.
  unfold endswith. rewrite andb_true_iff, Nat.leb_le, String.eqb_eq. split.
  - intros [Hle Hsub].
    exists (String.substring 0 (String.length s - String.length suf) s).
    pose proof (substring_split (String.length s - String.length suf) s) as Hs.
    replace (String.length s - (String.length s - String.length suf))%nat
      with (String.length suf) in Hs by lia.
    rewrite Hsub in Hs. apply Hs. lia.
  - intros [pre ->]. rewrite length_append. split; [lia|].
    replace (String.length pre + String.length suf - String.length suf)%nat
      with (String.length pre) by lia.
    rewrite substring_skip. apply substring_all.
Qed.

(** ** The claims detail view *)

Lemma receiver_key_in_order claims receivers :
  receiver_key claims receivers = key_tried_in_order claims receivers.
Proof.
  unfold receiver_key, key_tried_in_order, shared.
  rewrite !filter_cons, filter_nil.
  destruct (has_column "Receiver_ID" claims && has_column "Receiver_ID" receivers);
    [done|].
  destruct (has_column "ReceiverID" claims && has_column "ReceiverID" receivers);
    [done|].
  by destruct (has_column "ReceiverId" claims && has_column "ReceiverId" receivers).
Qed.

(** The loop stops at the first column that qualifies. *)
Lemma fallback_loop_first merge cols receivers cwd :
  fallback_loop merge cols receivers cwd =
  match head (filter (fun col => has_column col receivers && endswith col "_ID")
                     cols) with
  | Some col =>
      right <- (if has_column "Name" receivers
                then getitem receivers ["Name"]
                else Return receivers) ;;
      merge cwd right (left_on_ col)
  | None => Return cwd
  end.
Proof.
  induction cols as [|col rest IH]; [done|].
  cbn [fallback_loop]. rewrite filter_cons.
  destruct (has_column col receivers && endswith col "_ID"); [done|].
  exact IH.
Qed.

Lemma merge_receivers_join merge claims receivers cwd :
  merge_receivers merge claims receivers cwd =
  receiver_join merge claims receivers cwd.
Proof.
  unfold merge_receivers, receiver_join.
  rewrite receiver_key_in_order.
  destruct (key_tried_in_order claims receivers); [done|].
  apply fallback_loop_first.
Qed.

Lemma merge_food_not_shared merge claims food_listings cwd :
  shared claims food_listings "Food_ID" = false ->
  merge_food merge claims food_listings cwd = Return cwd.
Proof. unfold merge_food, shared. by intros ->. Qed.

Lemma merge_food_shared merge claims food_listings cwd :
  shared claims food_listings "Food_ID" = true ->
  merge_food merge claims food_listings cwd =
    (sel <- getitem food_listings
              (filter (fun col => has_column col food_listings) food_cols) ;;
     merge cwd sel (on_ "Food_ID")).
Proof.
  unfold merge_food, shared. intros Hshared. rewrite Hshared.
  apply andb_true_iff in Hshared as [_ Hfood].
  unfold has_column in Hfood. apply bool_decide_eq_true in Hfood.
  assert (Heq : filter (fun col => col ∈ columns food_listings) food_cols =
                filter (fun col => has_column col food_listings) food_cols).
  { apply list_filter_iff. intros col. unfold has_column.
    by rewrite bool_decide_spec. }
  rewrite <- Heq. rewrite bool_decide_eq_true_2; [done|].
  unfold food_cols. rewrite filter_cons, decide_True by done. done.
Qed.

Lemma show_claims_shown merge claims food_listings receivers :
  empty claims = false -> empty food_listings = false ->
  empty receivers = false ->
  show_claims merge claims food_listings receivers =
    st_header "📋 Claims" ::
    shown claims (claims_details merge claims food_listings receivers).
Proof.
  intros Hc Hf Hr. unfold show_claims. rewrite Hc, Hf, Hr. cbn [orb].
  unfold shown. by destruct (claims_details merge claims food_listings receivers).
Qed.

(** C1 (as amended).  With three non-empty frames, the view resolves the
    receiver key by trying [Receiver_ID], [ReceiverID], [ReceiverId] in
    that order, each required in both Claims and Receivers; failing these,
    the first Claims column that Receivers shares and that ends in [_ID] is
    handed to a fallback merge as its left key.  When no key resolves the
    receiver merge is skipped and the frame shown is the one the food
    listing step left: the raw claims frame when [Food_ID] is not a column
    of both Claims and the listings, and otherwise what the merge on
    [Food_ID] returns for the claims and the listing columns among
    [Food_ID], [Food_Name], [Location], [Food_Type].  When any step raises,
    an error notice is shown, followed by the raw claims frame. *)
Theorem show_claims_receiver_key_resolution merge claims food_listings receivers :
  empty claims = false -> empty food_listings = false ->
  empty receivers = false ->
  show_claims merge claims food_listings receivers =
    st_header "📋 Claims" ::
    shown claims
      (cwd <- merge_food merge claims food_listings claims ;;
       receiver_join merge claims receivers cwd)
  /\ (forall cwd,
        merge_food merge claims food_listings claims = Return cwd ->
        key_tried_in_order claims receivers = None ->
        first_shared_id claims receivers = None ->
        show_claims merge claims food_listings receivers =
          [st_header "📋 Claims"; st_dataframe cwd])
  /\ (shared claims food_listings "Food_ID" = false ->
      merge_food merge claims food_listings claims = Return claims)
  /\ (shared claims food_listings "Food_ID" = true ->
      merge_food merge claims food_listings claims =
        (sel <- getitem food_listings
                  (filter (fun col => has_column col food_listings) food_cols) ;;
         merge claims sel (on_ "Food_ID")))
  /\ (forall e,
        claims_details merge claims food_listings receivers = Raise e ->
        show_claims merge claims food_listings receivers =
          [st_header "📋 Claims";
           st_error ("Error displaying claims: " +:+ str_exn e);
           st_write "Raw claims data:";
           st_dataframe claims]).
Proof.
  intros Hc Hf Hr.
  pose proof (show_claims_shown merge _ _ _ Hc Hf Hr) as Hshow.
  assert (Hdet : claims_details merge claims food_listings receivers =
            (cwd <- merge_food merge claims food_listings claims ;;
             receiver_join merge claims receivers cwd)).
  { unfold claims_details.
    destruct (merge_food merge claims food_listings claims); [|done].
    cbn [bind]. apply merge_receivers_join. }
  repeat split.
  - by rewrite Hshow, Hdet.
  - intros cwd Hfood Hkey Hfall. rewrite Hshow, Hdet, Hfood. cbn [bind].
    unfold receiver_join. by rewrite Hkey, Hfall.
  - apply merge_food_not_shared.
  - apply merge_food_shared.
  - intros e He. by rewrite Hshow, He.
Qed.

Lemma show_claims_receiver_key_resolution_witness :
  show_claims pd_merge (claims_frame fixture) (food_listings_frame fixture)
              (receivers_frame fixture) =
    st_header "📋 Claims" ::
    shown (claims_frame fixture)
      (cwd <- merge_food pd_merge (claims_frame fixture)
                (food_listings_frame fixture) (claims_frame fixture) ;;
       receiver_join pd_merge (claims_frame fixture) (receivers_frame fixture)
                     cwd).
Proof.
  exact (proj1 (show_claims_receiver_key_resolution pd_merge
                  (claims_frame fixture) (food_listings_frame fixture)
                  (receivers_frame fixture) eq_refl eq_refl eq_refl)).
Defined.

(** C1 as stated fails: Claims spells the key [Receiver_ID], Receivers
    spells it [ReceiverID], no key resolves, and the frame shown carries
    the food listing columns: it is not the raw claims frame. *)
Lemma show_claims_unresolved_key_shows_food_columns :
  key_tried_in_order (claims_frame fixture) receivers_other_spelling = None
  /\ first_shared_id (claims_frame fixture) receivers_other_spelling = None
  /\ exists df,
       show_claims pd_merge (claims_frame fixture) (food_listings_frame fixture)
                   receivers_other_spelling
       = [st_header "📋 Claims"; st_dataframe df]
       /\ columns df = ["Claim_ID"; "Food_ID"; "Receiver_ID"; "Status";
                        "Food_Name"; "Location"; "Food_Type"]
       /\ df <> claims_frame fixture.
Proof.
  split; [reflexivity|]. split; [reflexivity|].
  eexists. split; [vm_compute; reflexivity|]. split; [reflexivity|].
  discriminate.
Qed.

(** The usual schema: both merges succeed, one row per claim, with the
    receiver's name. *)
Example show_claims_fixture :
  show_claims pd_merge (claims_frame fixture) (food_listings_frame fixture)
              (receivers_frame fixture) =
    [st_header "📋 Claims";
     st_dataframe
       (mkDataFrame
          ["Claim_ID"; "Food_ID"; "Receiver_ID"; "Status"; "Food_Name";
           "Location"; "Food_Type"; "Name"]
          [[VInt 1; VInt 1; VInt 1; VStr "Completed"; VStr "Bread";
            VStr "Bakerton"; VStr "Vegetarian"; VStr "Hope Shelter"];
           [VInt 2; VInt 2; VInt 2; VStr "Pending"; VStr "Rice";
            VStr "Adambury"; VStr "Vegan"; VStr "City Food Bank"];
           [VInt 3; VInt 3; VInt 1; VStr "Completed"; VStr "Soup";
            VStr "Adambury"; VStr "Vegetarian"; VStr "Hope Shelter"]])].
Proof. vm_compute. reflexivity. Qed.

(** The fallback merge passes [left_on] alone, which pandas rejects: the
    view then shows the error notice and the raw claims frame. *)
Example show_claims_fallback_raises :
  show_claims pd_merge (claims_frame fixture) (food_listings_frame fixture)
              (mkDataFrame ["Name"; "Food_ID"] [[VStr "Hope Shelter"; VInt 1]])
  = [st_header "📋 Claims";
     st_error ("Error displaying claims: " +:+ must_pass_right_on);
     st_write "Raw claims data:";
     st_dataframe (claims_frame fixture)].
Proof. vm_compute. reflexivity. Qed.

(** A key of text against a key of integers: pandas refuses the merge, and
    the view shows the error notice and the raw claims frame. *)
Example show_claims_text_key_raises :
  exists msg,
    pd_merge (claims_frame fixture)
             (mkDataFrame ["Food_ID"; "Food_Name"] [[VStr "1"; VStr "Bread"]])
             (on_ "Food_ID") = Raise (ValueError msg)
    /\ show_claims pd_merge (claims_frame fixture)
         (mkDataFrame ["Food_ID"; "Food_Name"] [[VStr "1"; VStr "Bread"]])
         (receivers_frame fixture)
       = [st_header "📋 Claims";
          st_error ("Error displaying claims: " +:+ msg);
          st_write "Raw claims data:";
          st_dataframe (claims_frame fixture)].
Proof. eexists. split; vm_compute; reflexivity. Qed.

(** C10.  If any one of the three frames is empty the view shows the header
    and the no-data warning and nothing else, whatever [merge] would do:
    the output is that of a run in which every merge raises, so no merge is
    performed even when the other two frames have rows. *)
Theorem show_claims_empty_table_no_merge merge claims food_listings receivers :
  empty claims = true \/ empty food_listings = true \/ empty receivers = true ->
  show_claims merge claims food_listings receivers =
    [st_header "📋 Claims"; st_warning "No claims data available"]
  /\ show_claims merge claims food_listings receivers =
     show_claims broken_merge claims food_listings receivers.
Proof.
  intros H.
  assert (Hany : empty claims || empty food_listings || empty receivers = true).
  { destruct H as [-> | [-> | ->]]; rewrite ?orb_true_r; done. }
  unfold show_claims. by rewrite Hany.
Qed.

Lemma show_claims_empty_table_no_merge_witness :
  show_claims pd_merge (claims_frame fixture) (food_listings_frame fixture)
              (receivers_frame empty_database) =
    [st_header "📋 Claims"; st_warning "No claims data available"].
Proof.
  exact (proj1 (show_claims_empty_table_no_merge pd_merge
                  (claims_frame fixture) (food_listings_frame fixture)
                  (receivers_frame empty_database)
                  (or_intror (or_intror eq_refl)))).
Defined.

(** With three non-empty frames the view always ends on a frame. *)
Lemma show_claims_nonempty_shows_frame merge claims food_listings receivers :
  empty claims = false -> empty food_listings = false ->
  empty receivers = false ->
  exists df,
    last (show_claims merge claims food_listings receivers) =
      Some (st_dataframe df).
Proof.
  intros Hc Hf Hr. rewrite (show_claims_shown merge _ _ _ Hc Hf Hr).
  destruct (claims_details merge claims food_listings receivers) as [df|e];
    cbn [shown]; by eexists.
Qed.

(** ** The queries view *)

(** C9 (as amended).  For a result of the queries view, a bar chart of the
    last column against the first is drawn exactly when the result has at
    least two columns and more than one row and the name of its last column
    contains [Total] or [Count]; otherwise no chart is drawn. *)
Theorem show_result_chart result :
  chart_of (show_result result) =
    if (2 <=? length (columns result))%nat && (1 <? len result)%nat
       && (str_contains "Total" (last_column result)
           || str_contains "Count" (last_column result))
    then Some (px_bar result (first_column result) (last_column result))
    else None.
Proof.
  unfold show_result, empty, len.
  destruct result as [cols rs]; cbn [columns rows].
  destruct cols as [|c1 cols]; [done|].
  destruct rs as [|r1 rs]; [cbn; by rewrite andb_false_r|].
  rewrite !bool_decide_eq_false_2 by done. cbn [orb negb].
  destruct ((2 <=? length (c1 :: cols))%nat && (1 <? length (r1 :: rs))%nat);
    [|done].
  cbn [andb].
  by destruct (str_contains "Total" (last_column _)
               || str_contains "Count" (last_column _)).
Qed.

(** C9 as stated fails on Query 5 itself: the only column is
    [Total_Quantity_Available], and the single-row result gets no chart. *)
Lemma report5_has_total_but_no_chart :
  report5 fixture = Return total_of_fixture
  /\ str_contains "Total" (last_column total_of_fixture) = true
  /\ (show_query sql_server query5_name query5 (fresh fixture)).1 =
       Return [st_code query5; st_dataframe total_of_fixture]
  /\ chart_of [st_code query5; st_dataframe total_of_fixture] = None.
Proof. repeat split; vm_compute; reflexivity. Qed.

(** Query 1 on the fixture has three rows and ends on [Total_Receivers]. *)
Example report1_gets_bar_chart :
  chart_of (show_result (report1 fixture)) =
    Some (px_bar (report1 fixture) "City" "Total_Receivers").
Proof. vm_compute. reflexivity. Qed.

(** ** The data access layer *)

Section AnyDriver.
Context {C : Type} (drv : driver C).

Lemma execute_query_passes params query c :
  match params with
  | Some (p :: ps) => cursor_execute drv query (p :: ps) c
  | _ => cursor_execute drv query [] c
  end = cursor_execute drv query (params_passed params) c.
Proof. by destruct params as [[|p ps]|]. Qed.

(** C2 (as amended).  [execute_query] returns [False] exactly when there is
    no connection; with a connection it returns [True] exactly when the
    cursor is obtained, the statement executes and the commit succeeds; and
    an exception raised by any of these three driver calls leaves
    [execute_query] as that same exception. *)
Theorem execute_query_outcome query params (s : session C) :
  ((execute_query drv query params s).1 = Return false <-> conn s = None)
  /\ ((execute_query drv query params s).1 = Return true <->
      exists c c1 c2 u,
        conn s = Some c /\ conn_cursor drv c = Return u
        /\ cursor_execute drv query (params_passed params) c = Return c1
        /\ conn_commit drv c1 = Return c2)
  /\ (forall e,
        (execute_query drv query params s).1 = Raise e <->
        exists c,
          conn s = Some c
          /\ (conn_cursor drv c = Raise e
              \/ (exists u, conn_cursor drv c = Return u)
                 /\ (cursor_execute drv query (params_passed params) c = Raise e
                     \/ exists c1,
                          cursor_execute drv query (params_passed params) c
                            = Return c1
                          /\ conn_commit drv c1 = Raise e))).
Proof.
  unfold execute_query.
  destruct (conn s) as [c|] eqn:Hconn; cbn [fst];
    cbv zeta; rewrite ?execute_query_passes.
  - destruct (conn_cursor drv c) as [u|e0] eqn:Hcur; cbn [fst].
    + destruct (cursor_execute drv query (params_passed params) c)
        as [c1|e1] eqn:Hexe; cbn [fst].
      * destruct (conn_commit drv c1) as [c2|e2] eqn:Hcom; cbn [fst].
        -- split; [split; done|]. split.
           ++ split; [intros _; by exists c, c1, c2, u | done].
           ++ intros e. split; [done|].
              intros (c' & Hc' & [? | [_ [? | (c1' & ? & Hr)]]]);
                simplify_eq; congruence.
        -- split; [split; done|]. split.
           ++ split; [done|]. intros (c' & c1' & c2' & u' & ? & ? & ? & ?).
              simplify_eq; congruence.
           ++ intros e. split.
              ** intros [= ->]. exists c. split; [done|]. right.
                 split; [by exists u|]. right. by exists c1.
              ** intros (c' & Hc' & [? | [_ [? | (c1' & ? & Hr)]]]);
                   simplify_eq; congruence.
      * split; [split; done|]. split.
        -- split; [done|]. intros (c' & c1' & c2' & u' & ? & ? & ? & ?).
           simplify_eq; congruence.
        -- intros e. split.
           ++ intros [= ->]. exists c. split; [done|]. right.
              split; [by exists u|]. by left.
           ++ intros (c' & Hc' & [? | [_ [? | (c1' & ? & Hr)]]]);
                simplify_eq; congruence.
    + split; [split; done|]. split.
      * split; [done|]. intros (c' & c1' & c2' & u' & ? & ? & ? & ?).
        simplify_eq; congruence.
      * intros e. split.
        -- intros [= ->]. exists c. split; [done|]. by left.
        -- intros (c' & Hc' & [? | [[u' ?] _]]); simplify_eq; congruence.
  - split; [split; done|]. split.
    + split; [done|]. intros (c' & c1' & c2' & u' & ? & _). congruence.
    + intros e. split; [done|]. intros (c' & ? & _). congruence.
Qed.

Lemma load_data_conn query (s : session C) :
  conn (load_data drv query s).2 = conn s.
Proof.
  unfold load_data. destruct (memo s !! query); [done|].
  destruct (conn s) as [c|] eqn:Hc; [|done].
  by destruct (pd_read_sql drv query c).
Qed.

(** A query text that was answered once is answered from the memo. *)
Lemma load_data_again query (s s1 : session C) df :
  load_data drv query s = (Return df, s1) ->
  load_data drv query s1 = (Return df, s1).
Proof.
  unfold load_data. destruct (memo s !! query) as [df0|] eqn:Hm.
  - intros [= -> ->]. by rewrite Hm.
  - destruct (conn s) as [c|].
    + destruct (pd_read_sql drv query c) as [df1|e]; [|done].
      intros [= -> <-]. cbn [memo]. by rewrite lookup_insert_eq.
    + intros [= <- <-]. cbn [memo]. by rewrite lookup_insert_eq.
Qed.

Lemma show_query_again query_name query (s s1 : session C) calls :
  show_query drv query_name query s = (Return calls, s1) ->
  show_query drv query_name query s1 = (Return calls, s1).
Proof.
  unfold show_query, iobind, ret.
  destruct (load_data drv query s) as [[df|e] s'] eqn:Hload; [|done].
  intros [= <- <-]. by rewrite (load_data_again query s s' df).
Qed.

Lemma show_read_table_memoised (table : string) (s : session C) df :
  memo s !! select_all table = Some df ->
  show_read_table drv table s =
    (Return [st_subheader (table +:+ " Data"); st_dataframe df], s).
Proof.
  intros Hm. unfold show_read_table, iobind, load_data. by rewrite Hm.
Qed.

(** The Update form issues no statement for a table other than Providers:
    the database behind the connection is the one it started with. *)
Lemma show_update_form_other_tables table choice f (s : session C) :
  table <> "Providers" ->
  conn (show_update_form drv table choice f s).2 = conn s.
Proof.
  intros Hne. apply String.eqb_neq in Hne.
  unfold show_update_form, iobind.
  pose proof (load_data_conn (select_all table) s) as Hload.
  destruct (load_data drv (select_all table) s) as [[data|e] s1];
    cbn [snd] in Hload; [|done].
  destruct (empty data); [done|].
  unfold lift.
  destruct (column_values data (id_col table)) as [ids|e]; [|done].
  destruct (first_row_where data (id_col table) _) as [row|e]; [|done].
  by rewrite Hne.
Qed.
End AnyDriver.

(** C2 as stated fails: a parameter list that does not fit the statement
    makes the driver raise, and [execute_query] raises with it. *)
Lemma execute_query_raises_on_bad_parameters :
  execute_query sql_server insert_provider_sql (Some [VStr "Green Grocer"])
                (fresh fixture)
  = (Raise (ProgrammingError "parameters do not fit the statement"),
     fresh fixture).
Proof. reflexivity. Qed.

Example execute_query_without_connection :
  execute_query sql_server insert_provider_sql (Some [VStr "Green Grocer"])
                (mkSession None ∅)
  = (Return false, mkSession None ∅).
Proof. reflexivity. Qed.

(** ** The CRUD forms *)

Lemma insert_provider_runs db f :
  sql_execute insert_provider_sql
    [VStr (name f); VStr (type_ f); VStr (address f); VStr (city f);
     VStr (contact f)] db
  = Return (with_provider db (created_provider db f)).
Proof. reflexivity. Qed.

Lemma insert_receiver_runs db f :
  sql_execute insert_receiver_sql
    [VStr (name f); VStr (type_ f); VStr (city f); VStr (contact f)] db
  = Return (with_receiver db (created_receiver db f)).
Proof. reflexivity. Qed.

Lemma read_providers db :
  sql_read (select_all "Providers") db = Return (providers_frame db).
Proof. reflexivity. Qed.

Lemma read_receivers db :
  sql_read (select_all "Receivers") db = Return (receivers_frame db).
Proof. reflexivity. Qed.

Lemma show_create_form_providers db m f :
  submitted f = true ->
  show_create_form sql_server "Providers" f (mkSession (Some db) m) =
    (Return [st_subheader "Add New Providers";
             st_success "Provider added successfully!"; st_rerun],
     mkSession (Some (with_provider db (created_provider db f))) m).
Proof.
  intros Hsub. unfold show_create_form.
  change (String.eqb "Providers" "Providers") with true. cbv iota.
  rewrite Hsub. unfold iobind, execute_query.
  cbn [conn sql_server conn_cursor cursor_execute conn_commit memo].
  rewrite insert_provider_runs. reflexivity.
Qed.

Lemma show_create_form_receivers db m f :
  submitted f = true ->
  show_create_form sql_server "Receivers" f (mkSession (Some db) m) =
    (Return [st_subheader "Add New Receivers";
             st_success "Receiver added successfully!"; st_rerun],
     mkSession (Some (with_receiver db (created_receiver db f))) m).
Proof.
  intros Hsub. unfold show_create_form.
  change (String.eqb "Receivers" "Providers") with false.
  change (String.eqb "Receivers" "Receivers") with true. cbv iota.
  rewrite Hsub. unfold iobind, execute_query.
  cbn [conn sql_server conn_cursor cursor_execute conn_commit memo].
  rewrite insert_receiver_runs. reflexivity.
Qed.

Lemma show_read_table_fresh (table : string) db m frame :
  m !! select_all table = None ->
  sql_read (select_all table) db = Return frame ->
  (show_read_table sql_server table (mkSession (Some db) m)).1 =
    Return [st_subheader (table +:+ " Data"); st_dataframe frame].
Proof.
  intros Hm Hread. unfold show_read_table, iobind, load_data.
  cbn [memo conn sql_server pd_read_sql]. by rewrite Hm, Hread.
Qed.

(** C3 (as amended).  For the Providers and the Receivers table, a
    submitted Create form appends one row that holds the submitted fields
    under an identity the store assigns, and changes nothing else.  A Read
    of that table whose select has not been memoised in the session then
    returns a row whose fields equal the submitted values, next to every
    row that was there; a Read whose select has been memoised returns the
    memoised frame. *)
Theorem create_then_read (db : database) (m : gmap string DataFrame) (f : form) :
  submitted f = true ->
  (show_create_form sql_server "Providers" f (mkSession (Some db) m) =
     (Return [st_subheader "Add New Providers";
              st_success "Provider added successfully!"; st_rerun],
      mkSession (Some (with_provider db (created_provider db f))) m)
   /\ (m !! select_all "Providers" = None ->
       exists data,
         (show_read_table sql_server "Providers"
            (mkSession (Some (with_provider db (created_provider db f))) m)).1
           = Return [st_subheader "Providers Data"; st_dataframe data]
         /\ columns data = Provider.cols
         /\ [VInt (Provider.Provider_ID (created_provider db f));
             VStr (name f); VStr (type_ f); VStr (address f); VStr (city f);
             VStr (contact f)] ∈ rows data
         /\ forall p, p ∈ Providers db -> Provider.to_row p ∈ rows data)
   /\ (forall df, m !! select_all "Providers" = Some df ->
       (show_read_table sql_server "Providers"
          (mkSession (Some (with_provider db (created_provider db f))) m)).1
         = Return [st_subheader "Providers Data"; st_dataframe df]))
  /\
  (show_create_form sql_server "Receivers" f (mkSession (Some db) m) =
     (Return [st_subheader "Add New Receivers";
              st_success "Receiver added successfully!"; st_rerun],
      mkSession (Some (with_receiver db (created_receiver db f))) m)
   /\ (m !! select_all "Receivers" = None ->
       exists data,
         (show_read_table sql_server "Receivers"
            (mkSession (Some (with_receiver db (created_receiver db f))) m)).1
           = Return [st_subheader "Receivers Data"; st_dataframe data]
         /\ columns data = Receiver.cols
         /\ [VInt (Receiver.Receiver_ID (created_receiver db f));
             VStr (name f); VStr (type_ f); VStr (city f); VStr (contact f)]
            ∈ rows data
         /\ forall r, r ∈ Receivers db -> Receiver.to_row r ∈ rows data)
   /\ (forall df, m !! select_all "Receivers" = Some df ->
       (show_read_table sql_server "Receivers"
          (mkSession (Some (with_receiver db (created_receiver db f))) m)).1
         = Return [st_subheader "Receivers Data"; st_dataframe df])).
Proof.
  intros Hsub. split; (split; [|split]).
  - by apply show_create_form_providers.
  - intros Hm. eexists. split; [|split; [|split]].
    + by apply show_read_table_fresh; [|apply read_providers].
    + done.
    + cbn [rows providers_frame with_provider Providers].
      rewrite map_app. apply elem_of_app. right. apply list_elem_of_singleton.
      reflexivity.
    + intros p Hp. cbn [rows providers_frame with_provider Providers].
      rewrite map_app. apply elem_of_app. left. by apply list_elem_of_fmap_2.
  - intros df Hm.
    by rewrite (show_read_table_memoised sql_server "Providers" _ df).
  - by apply show_create_form_receivers.
  - intros Hm. eexists. split; [|split; [|split]].
    + by apply show_read_table_fresh; [|apply read_receivers].
    + done.
    + cbn [rows receivers_frame with_receiver Receivers].
      rewrite map_app. apply elem_of_app. right. apply list_elem_of_singleton.
      reflexivity.
    + intros r Hr. cbn [rows receivers_frame with_receiver Receivers].
      rewrite map_app. apply elem_of_app. left. by apply list_elem_of_fmap_2.
  - intros df Hm.
    by rewrite (show_read_table_memoised sql_server "Receivers" _ df).
Qed.

Lemma create_then_read_witness :
  show_create_form sql_server "Providers" new_provider
    (mkSession (Some fixture) ∅) =
    (Return [st_subheader "Add New Providers";
             st_success "Provider added successfully!"; st_rerun],
     mkSession
       (Some (with_provider fixture (created_provider fixture new_provider)))
       ∅).
Proof.
  exact (proj1 (proj1 (create_then_read fixture ∅ new_provider eq_refl))).
Defined.

(** C3 as stated fails in a running session: [main] has loaded the four
    tables, so after the insert the Read of Providers is answered from the
    memo and does not have the new row. *)
Lemma create_then_read_is_stale :
  (exists db, conn session_after_create = Some db
     /\ created_provider fixture new_provider ∈ Providers db)
  /\ (show_read_table sql_server "Providers" session_after_create).1 =
       Return [st_subheader "Providers Data";
               st_dataframe (providers_frame fixture)]
  /\ Provider.to_row (created_provider fixture new_provider)
       ∉ rows (providers_frame fixture).
Proof.
  split; [|split].
  - eexists. split; [vm_compute; reflexivity|].
    vm_compute. do 2 right. left.
  - vm_compute. reflexivity.
  - intros Hin. apply list_elem_of_fmap in Hin as (p & Hrow & Hp).
    vm_compute in Hrow. apply list_elem_of_In in Hp.
    destruct Hp as [<- | [<- | []]]; discriminate.
Qed.

(** The Create form has no branch for the two other tables. *)
Example create_form_other_tables :
  show_create_form sql_server "Claims" new_provider (fresh fixture) =
    (Return [st_subheader "Add New Claims"], fresh fixture)
  /\ show_create_form sql_server "Food_Listings_Dataset" new_provider
       (fresh fixture) =
    (Return [st_subheader "Add New Food_Listings_Dataset"], fresh fixture).
Proof. split; reflexivity. Qed.

Lemma update_provider_runs db f id :
  sql_execute update_provider_sql
    [VStr (name f); VStr (type_ f); VStr (address f); VStr (city f);
     VStr (contact f); VInt id] db
  = Return (mkDatabase
              (map (update_provider id (name f) (type_ f) (address f) (city f)
                                    (contact f)) (Providers db))
              (Receivers db) (Food_Listings_Dataset db) (Claims db)).
Proof. reflexivity. Qed.

(** The Providers update rewrites the rows with the selected identity, in
    place, and no other. *)
Lemma update_provider_frame id n t a c k (ps : list Provider.t) (i : nat) p :
  ps !! i = Some p ->
  map (update_provider id n t a c k) ps !! i =
    Some (if decide (Provider.Provider_ID p = id)
          then Provider.mk id n t a c k else p).
Proof.
  intros Hp. change (map ?f ps) with (f <$> ps).
  rewrite list_lookup_fmap, Hp. unfold update_provider. cbn.
  by destruct (decide (Provider.Provider_ID p = id)).
Qed.

Example update_providers_fixture :
  conn (show_update_form sql_server "Providers" 1 new_provider
          (fresh fixture)).2
  = Some (mkDatabase
            [Provider.mk 1 "Fresh Mart" "Supermarket" "1 Main St" "Bakerton"
                         "555-0101";
             Provider.mk 2 "Green Grocer" "Grocery Store" "4 Oak Ave" "Carlton"
                         "555-0103"]
            (Receivers fixture) (Food_Listings_Dataset fixture)
            (Claims fixture)).
Proof. vm_compute. reflexivity. Qed.

(** C4 at the Receivers table: a receiver is selected in the Update form,
    new field values are submitted, and the form shows its heading only;
    no statement is issued and the database is the fixture as it was. *)
Theorem update_receivers_issues_no_statement :
  show_update_form sql_server "Receivers" 0 edited_receiver (fresh fixture) =
    (Return [st_subheader "Update Receivers"],
     mkSession (Some fixture)
               {[ select_all "Receivers" := receivers_frame fixture ]}).
Proof. vm_compute. reflexivity. Qed.

(** ** Query 5: the total quantity *)

(** When the running total returns, it is the sum. *)
Lemma running_total_returns (l : list Z) : forall acc total,
  running_total acc l = Return total -> total = acc + sum_Z l.
Proof.
  unfold sum_Z. induction l as [|x l IH]; intros acc total; cbn [running_total foldr].
  - intros [= <-]. lia.
  - destruct (in_int (acc + x)); [|done].
    intros Hrun. apply IH in Hrun. lia.
Qed.

Lemma in_int_spec (n : Z) : in_int n = true <-> int_min <= n <= int_max.
Proof. unfold in_int. rewrite andb_true_iff, !Z.leb_le. tauto. Qed.

(** Quantities that are not negative are added up as long as the sum
    stays in the range of [int], whatever their order. *)
Lemma running_total_in_range (l : list Z) : forall acc,
  0 <= acc -> Forall (fun x => 0 <= x) l -> acc + sum_Z l <= int_max ->
  running_total acc l = Return (acc + sum_Z l).
Proof.
  unfold sum_Z.
  induction l as [|x l IH]; intros acc Hacc Hpos Hmax; cbn [running_total foldr].
  - f_equal. lia.
  - apply Forall_cons in Hpos as [Hx Hpos].
    assert (Hrest : 0 <= foldr Z.add 0 l).
    { clear -Hpos. induction Hpos; cbn [foldr]; lia. }
    cbn [foldr] in Hmax.
    replace (in_int (acc + x)) with true
      by (symmetry; apply in_int_spec; unfold int_min; lia).
    rewrite IH by (done || lia). f_equal. lia.
Qed.

(** ... and past that range the statement fails. *)
Lemma running_total_overflow (l : list Z) : forall acc,
  0 <= acc <= int_max -> Forall (fun x => 0 <= x) l ->
  int_max < acc + sum_Z l ->
  running_total acc l = Raise overflow.
Proof.
  unfold sum_Z.
  induction l as [|x l IH]; intros acc Hacc Hpos Hmax; cbn [running_total foldr].
  - cbn [foldr] in Hmax. lia.
  - apply Forall_cons in Hpos as [Hx Hpos]. cbn [foldr] in Hmax.
    destruct (in_int (acc + x)) eqn:Hin; [|done].
    apply in_int_spec in Hin. apply IH; [lia | done | lia].
Qed.

Lemma sum_Z_nonneg (l : list Z) : Forall (fun x => 0 <= x) l -> 0 <= sum_Z l.
Proof. unfold sum_Z. induction 1; cbn [foldr]; lia. Qed.

Lemma sql_sum_in_range (l : list Z) :
  l <> [] -> Forall (fun x => 0 <= x) l -> sum_Z l <= int_max ->
  sql_sum l = Return (VInt (sum_Z l)).
Proof.
  intros Hne Hpos Hmax. destruct l as [|x l]; [done|].
  unfold sql_sum. by rewrite running_total_in_range.
Qed.

(** Query 5 on a listings table with a row: when the statement returns,
    its one cell is the sum of the Quantity column, and it does return for
    quantities that are not negative and whose sum is in the range of
    [int]. *)
Lemma report5_total db :
  Food_Listings_Dataset db <> [] ->
  (forall df, sql_read query5 db = Return df ->
     df = mkDataFrame ["Total_Quantity_Available"]
            [[VInt (sum_Z (map FoodListing.Quantity
                               (Food_Listings_Dataset db)))]])
  /\ (Forall (fun f => 0 <= FoodListing.Quantity f) (Food_Listings_Dataset db) ->
      sum_Z (map FoodListing.Quantity (Food_Listings_Dataset db)) <= int_max ->
      sql_read query5 db =
        Return (mkDataFrame ["Total_Quantity_Available"]
                  [[VInt (sum_Z (map FoodListing.Quantity
                                     (Food_Listings_Dataset db)))]])).
Proof.
  intros Hne.
  change (sql_read query5 db) with (report5 db). unfold report5, sql_sum.
  destruct (map FoodListing.Quantity (Food_Listings_Dataset db))
    as [|q qs] eqn:Hqs; [by destruct (Food_Listings_Dataset db)|].
  split.
  - intros df.
    destruct (running_total 0 (q :: qs)) as [total|e] eqn:Hrun; [|done].
    apply running_total_returns in Hrun. cbn [bind]. intros [= <-].
    do 4 f_equal. lia.
  - intros Hpos Hmax. rewrite running_total_in_range; [done | done | | done].
    rewrite <- Hqs. by apply Forall_fmap, (Forall_impl _ _ _ Hpos).
Qed.

(** The fifth tab of the EDA page reads the same total under a text of its
    own and shows it with thousands separators. *)
Lemma show_eda_query5_total db :
  Food_Listings_Dataset db <> [] ->
  Forall (fun f => 0 <= FoodListing.Quantity f) (Food_Listings_Dataset db) ->
  sum_Z (map FoodListing.Quantity (Food_Listings_Dataset db)) <= int_max ->
  (show_eda_query5 sql_server (fresh db)).1 =
    Return [st (st_subheader "Query 5: Total Quantity of Food Available");
            st_metric_text "Total Food Available"
              (thousands (sum_Z (map FoodListing.Quantity
                                     (Food_Listings_Dataset db)))
               +:+ " units");
            st (st_dataframe
                  (mkDataFrame ["Total_Quantity_Available"]
                     [[VInt (sum_Z (map FoodListing.Quantity
                                        (Food_Listings_Dataset db)))]]))].
Proof.
  intros Hne Hpos Hmax.
  destruct (report5_total db Hne) as [_ Hret]. specialize (Hret Hpos Hmax).
  unfold show_eda_query5, iobind, load_data.
  cbn [fresh memo conn sql_server pd_read_sql]. rewrite lookup_empty.
  change (sql_read eda_query5 db) with (sql_read query5 db). rewrite Hret.
  reflexivity.
Qed.

(** The fixture of the claim: quantities 10, 5 and 20. *)
Example report5_fixture :
  map FoodListing.Quantity (Food_Listings_Dataset fixture) = [10; 5; 20]
  /\ sql_read query5 fixture = Return total_of_fixture
  /\ (show_eda_query5 sql_server (fresh fixture)).1 =
       Return [st (st_subheader "Query 5: Total Quantity of Food Available");
               st_metric_text "Total Food Available" "35 units";
               st (st_dataframe total_of_fixture)].
Proof. repeat split; vm_compute; reflexivity. Qed.

Example thousands_separators :
  thousands 1234567 = "1,234,567" /\ thousands 999 = "999"
  /\ thousands (-1000) = "-1,000" /\ thousands 0 = "0".
Proof. repeat split; vm_compute; reflexivity. Qed.

(** C5.  The claim fails on the code for a listings table without a row:
    [SUM] is then NULL, not the number 0 that the sum of no quantity is.
    The queries view shows the frame with the missing cell, and the fifth
    tab of the EDA page, which formats the cell as a number, raises
    [TypeError] before it shows anything. *)
Theorem report5_no_listing_is_null db :
  Food_Listings_Dataset db = [] ->
  sql_read query5 db =
    Return (mkDataFrame ["Total_Quantity_Available"] [[VNull]])
  /\ VNull <> VInt (sum_Z (map FoodListing.Quantity (Food_Listings_Dataset db)))
  /\ (show_query sql_server query5_name query5 (fresh db)).1 =
       Return [st_code query5;
               st_dataframe
                 (mkDataFrame ["Total_Quantity_Available"] [[VNull]])]
  /\ (show_eda_query5 sql_server (fresh db)).1 =
       Raise (TypeError
                "unsupported format string passed to NoneType.__format__").
Proof.
  intros Hnone.
  assert (Hread : sql_read query5 db =
            Return (mkDataFrame ["Total_Quantity_Available"] [[VNull]])).
  { change (sql_read query5 db) with (report5 db).
    unfold report5. by rewrite Hnone. }
  split; [done|]. split; [done|]. split.
  - unfold show_query, iobind, load_data.
    cbn [fresh memo conn sql_server pd_read_sql]. rewrite lookup_empty.
    by rewrite Hread.
  - unfold show_eda_query5, iobind, load_data.
    cbn [fresh memo conn sql_server pd_read_sql]. rewrite lookup_empty.
    change (sql_read eda_query5 db) with (sql_read query5 db).
    by rewrite Hread.
Qed.

Lemma report5_no_listing_is_null_witness :
  (show_eda_query5 sql_server (fresh no_listing_yet)).1 =
    Raise (TypeError
             "unsupported format string passed to NoneType.__format__").
Proof.
  exact (proj2 (proj2 (proj2 (report5_no_listing_is_null no_listing_yet
                                eq_refl)))).
Defined.

(** ** Query 10: the distribution of claim statuses *)

Lemma length_pos {A} (l : list A) : l <> [] -> 0 < Z.of_nat (length l).
Proof. destruct l; [done | simpl; lia]. Qed.

Lemma status_count_nonneg claims s : 0 <= status_count claims s.
Proof. unfold status_count. lia. Qed.

Lemma status_count_pos claims s :
  s ∈ map Claim.Status claims -> 0 < status_count claims s.
Proof.
  intros Hin. apply list_elem_of_fmap in Hin as (c & -> & Hc).
  unfold status_count.
  assert (c ∈ filter (fun c' => Claim.Status c' = Claim.Status c) claims) as Hf
    by (by apply list_elem_of_filter).
  destruct (filter _ claims); [by apply elem_of_nil in Hf | simpl; lia].
Qed.

Lemma status_count_cons c claims s :
  status_count (c :: claims) s =
  (if decide (Claim.Status c = s) then 1 else 0) + status_count claims s.
Proof.
  unfold status_count. rewrite filter_cons.
  destruct (decide (Claim.Status c = s)); simpl; lia.
Qed.

Lemma sql_round2_nonneg t :
  0 <= t -> sql_round2 t = (t + 5 * 10 ^ 9) / 10 ^ 10 * 10 ^ 10.
Proof.
  intros Ht. unfold sql_round2.
  destruct (decide (t = 0)) as [->|Hne]; [reflexivity|].
  rewrite Z.sgn_pos, Z.abs_eq by lia. lia.
Qed.

(** The percentage has two decimals. *)
Lemma percentage_hundredths claims s :
  percentage claims s = hundredths (percentage claims s) * 10 ^ 10.
Proof.
  unfold percentage, hundredths, sql_round2.
  rewrite Z.div_mul by lia. reflexivity.
Qed.

(** It is within half a hundredth of the exact share. *)
Lemma percentage_bounds claims s :
  claims <> [] ->
  percentage claims s * Z.of_nat (length claims)
    <= status_count claims s * 10 ^ 14 + 5 * 10 ^ 9 * Z.of_nat (length claims)
  /\ status_count claims s * 10 ^ 14
     <= percentage claims s * Z.of_nat (length claims)
        + 5 * 10 ^ 9 * Z.of_nat (length claims).
Proof.
  intros Hne.
  pose proof (length_pos claims Hne) as Hn.
  pose proof (status_count_nonneg claims s) as Hc.
  unfold percentage, times_100_0.
  set (n := Z.of_nat (length claims)) in *.
  set (c := status_count claims s) in *.
  rewrite Z.quot_div_nonneg by lia.
  rewrite sql_round2_nonneg by (apply Z.div_pos; lia).
  replace (c * 1000 * 10 ^ 11) with (c * 10 ^ 14) by lia.
  set (t := c * 10 ^ 14 / n).
  assert (Ht : t * n <= c * 10 ^ 14 < (t + 1) * n).
  { subst t. pose proof (Z.div_mod (c * 10 ^ 14) n ltac:(lia)) as Hd.
    pose proof (Z.mod_pos_bound (c * 10 ^ 14) n Hn). nia. }
  set (h := (t + 5 * 10 ^ 9) / 10 ^ 10).
  assert (Hh : h * 10 ^ 10 <= t + 5 * 10 ^ 9 < (h + 1) * 10 ^ 10).
  { subst h. pose proof (Z.div_mod (t + 5 * 10 ^ 9) (10 ^ 10) ltac:(lia)) as Hd.
    pose proof (Z.mod_pos_bound (t + 5 * 10 ^ 9) (10 ^ 10) ltac:(lia)). lia. }
  powers_of_ten. split; nia.
Qed.

Lemma sum_Z_add (A : Type) (f g : A -> Z) l :
  sum_Z (map (fun x => f x + g x) l) = sum_Z (map f l) + sum_Z (map g l).
Proof.
  induction l as [|x l IH]; simpl; [done | unfold sum_Z in *; simpl; lia].
Qed.

Lemma sum_Z_indicator (k0 : string) keys :
  NoDup keys -> k0 ∈ keys ->
  sum_Z (map (fun k => if decide (k0 = k) then 1 else 0) keys) = 1.
Proof.
  induction 1 as [|k keys Hk Hnd IH]; intros Hin; [by apply elem_of_nil in Hin|].
  unfold sum_Z in *. cbn [map foldr].
  destruct (decide (k0 = k)) as [->|Hne].
  - assert (foldr Z.add 0
              (map (fun k' => if decide (k = k') then 1 else 0) keys) = 0)
      as ->; [|done].
    clear IH Hin Hnd. induction keys as [|k' keys IH]; [done|].
    cbn [map foldr]. apply not_elem_of_cons in Hk as [Hne Hk].
    rewrite decide_False by done. rewrite IH by done. done.
  - apply elem_of_cons in Hin as [?|Hin]; [done|]. rewrite IH by done. done.
Qed.

(** The groups partition the claims. *)
Lemma status_count_partition claims keys :
  NoDup keys -> (forall c, c ∈ claims -> Claim.Status c ∈ keys) ->
  sum_Z (map (status_count claims) keys) = Z.of_nat (length claims).
Proof.
  intros Hnd. induction claims as [|c claims IH]; intros Hall.
  - unfold status_count. simpl. clear. induction keys; [done|].
    unfold sum_Z in *. simpl. lia.
  - rewrite (map_ext _ _ (status_count_cons c claims)).
    rewrite sum_Z_add, sum_Z_indicator, IH; [simpl length; lia | | done |].
    + intros c' Hc'. apply Hall. by right.
    + apply Hall. by left.
Qed.

Lemma percentages_sum claims keys :
  claims <> [] -> NoDup keys ->
  (forall c, c ∈ claims -> Claim.Status c ∈ keys) ->
  2 * Z.abs (sum_Z (map (fun s => hundredths (percentage claims s)) keys) - 10000)
  <= Z.of_nat (length keys).
Proof.
  intros Hne Hnd Hall.
  pose proof (status_count_partition claims keys Hnd Hall) as Hsum.
  pose proof (length_pos claims Hne) as Hn.
  set (n := Z.of_nat (length claims)) in *.
  assert (Hbound :
    sum_Z (map (fun s => hundredths (percentage claims s)) keys) * 10 ^ 10 * n
      <= sum_Z (map (status_count claims) keys) * 10 ^ 14
         + Z.of_nat (length keys) * (5 * 10 ^ 9 * n)
    /\ sum_Z (map (status_count claims) keys) * 10 ^ 14
       <= sum_Z (map (fun s => hundredths (percentage claims s)) keys)
          * 10 ^ 10 * n
          + Z.of_nat (length keys) * (5 * 10 ^ 9 * n)).
  { clear Hsum Hnd Hall. induction keys as [|s keys IH]; [simpl; lia|].
    destruct (percentage_bounds claims s Hne) as [Hup Hlo].
    rewrite (percentage_hundredths claims s) in Hup, Hlo. fold n in Hup, Hlo.
    unfold sum_Z in *. cbn [map foldr length].
    rewrite Nat2Z.inj_succ. destruct IH as [IHup IHlo].
    powers_of_ten. split; lia. }
  rewrite Hsum in Hbound. destruct Hbound as [Hup Hlo].
  powers_of_ten. nia.
Qed.

Lemma report10_rows claims keys :
  claims <> [] ->
  mapM (report10_row claims) keys =
    Return (map (fun s => [VStr s; VInt (status_count claims s);
                           VDec (percentage claims s)]) keys).
Proof.
  intros Hne. induction keys as [|s keys IH]; [done|].
  cbn [mapM map]. rewrite IH. unfold report10_row, sql_div.
  rewrite decide_False by (pose proof (length_pos claims Hne); lia).
  reflexivity.
Qed.

(** C6.  For a Claims table with at least one row, Query 10 returns one
    row per distinct Status, each with the number of claims of that status
    and the percentage of all claims, which has two decimals and is within
    half a hundredth of the exact share; the percentages of all the rows
    add up to 100.00 within half a hundredth per row. *)
Theorem report10_distribution db :
  Claims db <> [] ->
  sql_read query10 db =
    Return (mkDataFrame ["Status"; "Count"; "Percentage"]
              (map (fun s => [VStr s; VInt (status_count (Claims db) s);
                              VDec (percentage (Claims db) s)])
                   (group_keys (map Claim.Status (Claims db)))))
  /\ NoDup (group_keys (map Claim.Status (Claims db)))
  /\ (forall s, s ∈ group_keys (map Claim.Status (Claims db)) <->
                exists c, c ∈ Claims db /\ Claim.Status c = s)
  /\ (forall s, s ∈ group_keys (map Claim.Status (Claims db)) ->
        0 < status_count (Claims db) s
        /\ percentage (Claims db) s =
             hundredths (percentage (Claims db) s) * 10 ^ 10
        /\ Z.abs (percentage (Claims db) s * Z.of_nat (length (Claims db))
                  - status_count (Claims db) s * 10 ^ 14)
           <= 5 * 10 ^ 9 * Z.of_nat (length (Claims db)))
  /\ 2 * Z.abs (sum_Z (map (fun s => hundredths (percentage (Claims db) s))
                           (group_keys (map Claim.Status (Claims db))))
                - 10000)
     <= Z.of_nat (length (group_keys (map Claim.Status (Claims db)))).
Proof.
  intros Hne. unfold group_keys. repeat split.
  - change (sql_read query10 db) with (report10 db).
    unfold report10, group_keys. by rewrite report10_rows.
  - apply NoDup_remove_dups.
  - rewrite elem_of_remove_dups. intros Hs.
    apply list_elem_of_fmap in Hs as (c & -> & Hc). by exists c.
  - intros (c & Hc & <-). rewrite elem_of_remove_dups.
    by apply list_elem_of_fmap_2.
  - apply status_count_pos. by apply elem_of_remove_dups.
  - apply percentage_hundredths.
  - destruct (percentage_bounds (Claims db) s Hne) as [Hup Hlo]. lia.
  - apply percentages_sum; [done | apply NoDup_remove_dups |].
    intros c Hc. rewrite elem_of_remove_dups. by apply list_elem_of_fmap_2.
Qed.

Lemma report10_distribution_witness :
  sql_read query10 fixture =
    Return (mkDataFrame ["Status"; "Count"; "Percentage"]
              (map (fun s => [VStr s; VInt (status_count (Claims fixture) s);
                              VDec (percentage (Claims fixture) s)])
                   (group_keys (map Claim.Status (Claims fixture))))).
Proof.
  refine (proj1 (report10_distribution fixture _)). discriminate.
Defined.

(** One claim of three is pending: 33.33 and 66.67. *)
Example report10_fixture :
  sql_read query10 fixture =
    Return (mkDataFrame ["Status"; "Count"; "Percentage"]
              [[VStr "Pending"; VInt 1; VDec 33330000000000];
               [VStr "Completed"; VInt 2; VDec 66670000000000]]).
Proof. reflexivity. Qed.

(** C7.  On a Claims table without rows Query 10 returns its three columns
    and no row, and the queries view shows the query text and nothing
    more.  The divisor of the percentage is then zero, so one evaluation of
    the division would have been the server's divide-by-zero error: there
    is no group, and the select list is not evaluated. *)
Theorem report10_empty_claims db :
  Claims db = [] ->
  sql_read query10 db =
    Return (mkDataFrame ["Status"; "Count"; "Percentage"] [])
  /\ (show_query sql_server query10_name query10 (fresh db)).1 =
       Return [st_code query10]
  /\ forall count,
       sql_div (times_100_0 count) (Z.of_nat (length (Claims db))) =
         Raise (DataError "Divide by zero error encountered.").
Proof.
  intros Hc.
  assert (Hread : sql_read query10 db =
            Return (mkDataFrame ["Status"; "Count"; "Percentage"] [])).
  { change (sql_read query10 db) with (report10 db).
    unfold report10. by rewrite Hc. }
  split; [done|]. split.
  - unfold show_query, iobind, load_data.
    cbn [fresh memo conn sql_server pd_read_sql].
    rewrite lookup_empty, Hread. reflexivity.
  - intros count. by rewrite Hc.
Qed.

Lemma report10_empty_claims_witness :
  sql_read query10 empty_database =
    Return (mkDataFrame ["Status"; "Count"; "Percentage"] []).
Proof. exact (proj1 (report10_empty_claims empty_database eq_refl)). Defined.


(** ** Query 1: providers and receivers per city *)

Lemma remove_dups_perm {A} `{EqDecision A} (l k : list A) :
  l ≡ₚ k -> remove_dups l ≡ₚ remove_dups k.
Proof.
  intros Hp. apply NoDup_Permutation; [apply NoDup_remove_dups ..|].
  intros x. rewrite !elem_of_remove_dups. by rewrite Hp.
Qed.

Lemma count_distinct_perm l k : l ≡ₚ k -> count_distinct l = count_distinct k.
Proof.
  intros Hp. unfold count_distinct. f_equal. apply Permutation_length.
  apply remove_dups_perm. by rewrite Hp.
Qed.

Lemma report1_row_perm comb comb' city :
  comb ≡ₚ comb' -> report1_row comb city = report1_row comb' city.
Proof.
  intros Hp. unfold report1_row.
  rewrite (count_distinct_perm
             (map (fun row => row.1.2) (filter (fun row => row.1.1 = city) comb))
             (map (fun row => row.1.2) (filter (fun row => row.1.1 = city) comb'))),
          (count_distinct_perm
             (map (fun row => row.2) (filter (fun row => row.1.1 = city) comb))
             (map (fun row => row.2) (filter (fun row => row.1.1 = city) comb')));
    [done | |].
  - change (map ?f ?l) with (f <$> l). by rewrite Hp.
  - change (map ?f ?l) with (f <$> l). by rewrite Hp.
Qed.

Lemma combined_perm db db' :
  Providers db ≡ₚ Providers db' -> Receivers db ≡ₚ Receivers db' ->
  combined db ≡ₚ combined db'.
Proof.
  intros Hp Hr. unfold combined.
  change (map ?f ?l) with (f <$> l). by rewrite Hp, Hr.
Qed.

(** The sorted list of distinct cities does not depend on the order in
    which the rows are stored. *)
Lemma report1_cities_perm db db' :
  Providers db ≡ₚ Providers db' -> Receivers db ≡ₚ Receivers db' ->
  merge_sort String.le (group_keys (map (fun row => row.1.1) (combined db))) =
  merge_sort String.le (group_keys (map (fun row => row.1.1) (combined db'))).
Proof.
  intros Hp Hr. apply (Sorted_unique String.le).
  - apply Sorted_merge_sort, _.
  - apply Sorted_merge_sort, _.
  - rewrite !merge_sort_Permutation. unfold group_keys.
    apply remove_dups_perm. change (map ?f ?l) with (f <$> l).
    by rewrite (combined_perm db db').
Qed.

Lemma report1_perm db db' :
  Providers db ≡ₚ Providers db' -> Receivers db ≡ₚ Receivers db' ->
  report1 db = report1 db'.
Proof.
  intros Hp Hr. unfold report1. f_equal.
  rewrite (report1_cities_perm db db') by done.
  apply map_ext. intros city. apply report1_row_perm. by apply combined_perm.
Qed.

Lemma cities_of_report1 db :
  cities_of (report1 db) =
  merge_sort String.le (group_keys (map (fun row => row.1.1) (combined db))).
Proof.
  unfold cities_of, report1. cbn [rows].
  induction (merge_sort _ _) as [|c l IH]; [done|].
  cbn. by rewrite <- IH at 2.
Qed.

(** One row per city, cities ascending. *)
Lemma report1_ordered db :
  Sorted String.le (cities_of (report1 db)) /\ NoDup (cities_of (report1 db)).
Proof.
  rewrite cities_of_report1. split.
  - apply Sorted_merge_sort, _.
  - rewrite merge_sort_Permutation. apply NoDup_remove_dups.
Qed.

Lemma show_query1_returns (s : session database) :
  exists calls s1,
    show_query sql_server query1_name query1 s = (Return calls, s1).
Proof.
  unfold show_query, iobind, ret, load_data.
  destruct (memo s !! query1); [by eexists _, _|].
  destruct (conn s) as [db|]; [|by eexists _, _].
  change (pd_read_sql sql_server query1 db) with (Return (report1 db)).
  by eexists _, _.
Qed.

(** C8.  Running Query 1 in the queries view twice in a row gives the same
    calls, in the same order, both times, and leaves the database as it
    was.  The result has one row per city, cities ascending, so its order
    is fixed by the data: two databases that hold the same providers and
    receivers, stored in any order, give the identical result. *)
Theorem report1_idempotent :
  (forall s : session database,
     exists calls s1,
       show_query sql_server query1_name query1 s = (Return calls, s1)
       /\ show_query sql_server query1_name query1 s1 = (Return calls, s1)
       /\ conn s1 = conn s)
  /\ (forall db,
        sql_read query1 db = Return (report1 db)
        /\ (show_query sql_server query1_name query1 (fresh db)).1 =
             Return (st_code query1 :: show_result (report1 db))
        /\ Sorted String.le (cities_of (report1 db))
        /\ NoDup (cities_of (report1 db)))
  /\ (forall db db',
        Providers db ≡ₚ Providers db' -> Receivers db ≡ₚ Receivers db' ->
        sql_read query1 db = sql_read query1 db').
Proof.
  split; [|split].
  - intros s. destruct (show_query1_returns s) as (calls & s1 & Hrun).
    exists calls, s1. split; [done|]. split.
    + by apply (show_query_again sql_server query1_name query1 s).
    + unfold show_query, iobind, ret in Hrun.
      pose proof (load_data_conn sql_server query1 s) as Hc.
      destruct (load_data sql_server query1 s) as [[df|e] s']; [|done].
      by injection Hrun as _ <-.
  - intros db. split; [reflexivity|]. split; [reflexivity|].
    apply report1_ordered.
  - intros db db' Hp Hr.
    change (sql_read query1 db) with (Return (report1 db)).
    change (sql_read query1 db') with (Return (report1 db')).
    f_equal. by apply report1_perm.
Qed.

Example report1_fixture :
  sql_read query1 fixture =
    Return (mkDataFrame ["City"; "Total_Providers"; "Total_Receivers"]
              [[VStr "Adambury"; VInt 1; VInt 1];
               [VStr "Bakerton"; VInt 1; VInt 0];
               [VStr "Carlton"; VInt 0; VInt 1]]).
Proof. vm_compute. reflexivity. Qed.

(** * Properties of the other pages *)

(** ** The memo of [load_data] across reads and writes *)

Section AccessSequences.
Context {C : Type} (drv : driver C).

Lemma load_data_memoises query (s s1 : session C) df :
  load_data drv query s = (Return df, s1) -> memo s1 !! query = Some df.
Proof.
  unfold load_data. destruct (memo s !! query) as [df0|] eqn:Hm.
  - by intros [= -> ->].
  - destruct (conn s) as [c|].
    + destruct (pd_read_sql drv query c) as [df1|e]; [|done].
      intros [= -> <-]. cbn [memo]. by rewrite lookup_insert_eq.
    + intros [= <- <-]. cbn [memo]. by rewrite lookup_insert_eq.
Qed.

Lemma execute_query_memo query params (s : session C) :
  memo (execute_query drv query params s).2 = memo s.
Proof.
  unfold execute_query. destruct (conn s) as [c|]; [|done].
  destruct (conn_cursor drv c); [|done]. cbv zeta.
  destruct (match params with
            | Some (p :: ps) => cursor_execute drv query (p :: ps) c
            | _ => cursor_execute drv query [] c
            end) as [c1|e]; [|done].
  by destruct (conn_commit drv c1).
Qed.

Lemma load_data_keeps query (s : session C) q df :
  memo s !! q = Some df -> memo (load_data drv query s).2 !! q = Some df.
Proof.
  intros Hq. unfold load_data.
  destruct (memo s !! query) as [df0|] eqn:Hm; [done|].
  assert (query <> q) by congruence.
  destruct (conn s) as [c|].
  - destruct (pd_read_sql drv query c); [|done].
    cbn [snd memo]. by rewrite lookup_insert_ne.
  - cbn [snd memo]. by rewrite lookup_insert_ne.
Qed.

Lemma run_accesses_keeps (l : list access) (s : session C) q df :
  memo s !! q = Some df -> memo (run_accesses drv s l) !! q = Some df.
Proof.
  revert s. induction l as [|a l IH]; intros s Hq; [done|].
  cbn [run_accesses foldl]. apply IH. destruct a as [query|query params].
  - by apply load_data_keeps.
  - cbn [run_access]. by rewrite execute_query_memo.
Qed.

(** X1.  Once [load_data] has returned a frame for a query text, it returns
    that same frame for that text after any sequence of further reads and
    of writes through [execute_query], whatever the writes did to the
    database: a write never refreshes a read. *)
Theorem load_data_is_never_refreshed query (s s1 : session C) df
    (l : list access) :
  load_data drv query s = (Return df, s1) ->
  load_data drv query (run_accesses drv s1 l) =
    (Return df, run_accesses drv s1 l).
Proof.
  intros Hload. apply load_data_memoises in Hload.
  unfold load_data. by rewrite (run_accesses_keeps l s1 query df Hload).
Qed.

Lemma load_data_offline query (s : session C) :
  offline s ->
  (load_data drv query s).1 = Return DataFrame_new
  /\ offline (load_data drv query s).2.
Proof.
  intros [Hc Hm]. unfold load_data.
  destruct (memo s !! query) as [df|] eqn:Hq.
  - split; [cbn; f_equal; by apply (Hm query) | done].
  - rewrite Hc. split; [done|]. split; [done|].
    intros q df. cbn [snd memo]. rewrite lookup_insert.
    destruct (decide (query = q)); [by intros [= <-] | apply Hm].
Qed.

Lemma execute_query_offline query params (s : session C) :
  conn s = None -> execute_query drv query params s = (Return false, s).
Proof. unfold execute_query. by intros ->. Qed.

Lemma run_accesses_offline (l : list access) (s : session C) :
  offline s -> offline (run_accesses drv s l).
Proof.
  revert s. induction l as [|a l IH]; intros s Hoff; [done|].
  cbn [run_accesses foldl]. apply IH. destruct a as [query|query params].
  - by apply load_data_offline.
  - cbn [run_access]. rewrite execute_query_offline; [done | apply Hoff].
Qed.
End AccessSequences.

Lemma load_data_is_never_refreshed_witness :
  load_data sql_server (select_all "Providers")
    (run_accesses sql_server
       (load_data sql_server (select_all "Providers") (fresh fixture)).2
       [Exec insert_provider_sql
             (Some [VStr "Green Grocer"; VStr "Grocery Store";
                    VStr "4 Oak Ave"; VStr "Carlton"; VStr "555-0103"]);
        Load (select_all "Receivers")])
  = (Return (providers_frame fixture),
     run_accesses sql_server
       (load_data sql_server (select_all "Providers") (fresh fixture)).2
       [Exec insert_provider_sql
             (Some [VStr "Green Grocer"; VStr "Grocery Store";
                    VStr "4 Oak Ave"; VStr "Carlton"; VStr "555-0103"]);
        Load (select_all "Receivers")]).
Proof.
  exact (load_data_is_never_refreshed sql_server (select_all "Providers")
           (fresh fixture) _ (providers_frame fixture) _ eq_refl).
Defined.

(** ** Without a connection *)

Lemma load_all_data_offline {C} (drv : driver C) (s : session C) :
  offline s ->
  (load_all_data drv s).1 =
    Return (DataFrame_new, DataFrame_new, DataFrame_new, DataFrame_new).
Proof.
  intros Hoff. unfold load_all_data, iobind, ret.
  destruct (load_data_offline drv "SELECT * FROM Providers" s Hoff) as [H1 Ho1].
  destruct (load_data drv "SELECT * FROM Providers" s) as [r1 s1].
  cbn [fst snd] in *. subst r1.
  destruct (load_data_offline drv "SELECT * FROM Receivers" s1 Ho1) as [H2 Ho2].
  destruct (load_data drv "SELECT * FROM Receivers" s1) as [r2 s2].
  cbn [fst snd] in *. subst r2.
  destruct (load_data_offline drv "SELECT * FROM Food_Listings_Dataset" s2 Ho2)
    as [H3 Ho3].
  destruct (load_data drv "SELECT * FROM Food_Listings_Dataset" s2) as [r3 s3].
  cbn [fst snd] in *. subst r3.
  destruct (load_data_offline drv "SELECT * FROM Claims" s3 Ho3) as [H4 Ho4].
  destruct (load_data drv "SELECT * FROM Claims" s3) as [r4 s4].
  cbn [fst snd] in *. by subst r4.
Qed.

(** X2.  In a process whose connection failed, every read gives the empty
    frame, every write returns [False] and changes nothing, and this stays
    so after any sequence of reads and writes (no reconnection).  The pages
    degrade accordingly: [load_all_data] yields four empty frames, on which
    the Claims page shows its no-data warning; a submitted Create form
    shows no success notice; Read shows an empty frame; Update and Delete
    show the no-data warning for every table. *)
Theorem offline_session_degrades {C} (drv : driver C)
    (merge : DataFrame -> DataFrame -> merge_keys -> result DataFrame)
    (s : session C) :
  offline s ->
  (forall l, offline (run_accesses drv s l))
  /\ (forall query, (load_data drv query s).1 = Return DataFrame_new)
  /\ (forall query params,
        execute_query drv query params s = (Return false, s))
  /\ (forall providers receivers food_listings claims,
        (load_all_data drv s).1 =
          Return (providers, receivers, food_listings, claims) ->
        providers = DataFrame_new /\ receivers = DataFrame_new
        /\ food_listings = DataFrame_new /\ claims = DataFrame_new
        /\ show_claims merge claims food_listings receivers =
             [st_header "📋 Claims"; st_warning "No claims data available"])
  /\ (forall table f,
        (show_create_form drv table f s).1 =
          Return [st_subheader ("Add New " +:+ table)])
  /\ (forall table,
        (show_read_table drv table s).1 =
          Return [st_subheader (table +:+ " Data"); st_dataframe DataFrame_new])
  /\ (forall table choice f,
        (show_update_form drv table choice f s).1 =
          Return [st_subheader ("Update " +:+ table);
                  st_warning "No data available"])
  /\ (forall table choice pressed,
        (show_delete_form drv table choice pressed s).1 =
          Return [st_subheader ("Delete from " +:+ table);
                  st_warning "No data available"]).
Proof.
  intros Hoff. pose proof Hoff as [Hconn _].
  split; [intros l; by apply run_accesses_offline|].
  split; [intros query; by apply load_data_offline|].
  split; [intros query params; by apply execute_query_offline|].
  split.
  { intros p r f c. rewrite load_all_data_offline by done.
    intros [= <- <- <- <-]. done. }
  split.
  { intros table f. unfold show_create_form, iobind.
    destruct (String.eqb table "Providers"), (String.eqb table "Receivers"),
      (submitted f); try done; by rewrite execute_query_offline. }
  split.
  { intros table. unfold show_read_table, iobind.
    destruct (load_data_offline drv (select_all table) s Hoff) as [H1 _].
    destruct (load_data drv (select_all table) s) as [r1 s1].
    cbn [fst] in H1. by subst r1. }
  split.
  - intros table choice f. unfold show_update_form, iobind.
    destruct (load_data_offline drv (select_all table) s Hoff) as [H1 _].
    destruct (load_data drv (select_all table) s) as [r1 s1].
    cbn [fst] in H1. by subst r1.
  - intros table choice pressed. unfold show_delete_form, iobind.
    destruct (load_data_offline drv (select_all table) s Hoff) as [H1 _].
    destruct (load_data drv (select_all table) s) as [r1 s1].
    cbn [fst] in H1. by subst r1.
Qed.

Lemma offline_session_degrades_witness :
  execute_query sql_server insert_provider_sql
    (Some [VStr "Green Grocer"; VStr "Grocery Store"; VStr "4 Oak Ave";
           VStr "Carlton"; VStr "555-0103"])
    (mkSession None ∅)
  = (Return false, mkSession None ∅).
Proof.
  refine (proj1 (proj2 (proj2
            (offline_session_degrades sql_server pd_merge (mkSession None ∅) _)))
            insert_provider_sql _).
  split; [reflexivity|].
  intros q df H. cbn in H. rewrite lookup_empty in H. discriminate.
Defined.

(** ** The CRUD page *)

Section CrudPageAnyDriver.
Context {C : Type} (drv : driver C).

Lemma show_create_form_unwired table f (s : session C) :
  (String.eqb table "Providers" || String.eqb table "Receivers")
  && submitted f = false ->
  conn (show_create_form drv table f s).2 = conn s.
Proof.
  unfold show_create_form.
  destruct (String.eqb table "Providers"), (String.eqb table "Receivers"),
    (submitted f); done.
Qed.

Lemma show_read_table_conn table (s : session C) :
  conn (show_read_table drv table s).2 = conn s.
Proof.
  unfold show_read_table, iobind.
  pose proof (load_data_conn drv (select_all table) s) as Hload.
  by destruct (load_data drv (select_all table) s) as [[data|e] s1].
Qed.

Lemma show_update_form_unsubmitted table choice f (s : session C) :
  submitted f = false ->
  conn (show_update_form drv table choice f s).2 = conn s.
Proof.
  intros Hsub. unfold show_update_form, iobind.
  pose proof (load_data_conn drv (select_all table) s) as Hload.
  destruct (load_data drv (select_all table) s) as [[data|e] s1];
    cbn [snd] in Hload; [|done].
  destruct (empty data); [done|].
  unfold lift.
  destruct (column_values data (id_col table)) as [ids|e]; [|done].
  destruct (first_row_where data (id_col table) _) as [row|e]; [|done].
  destruct (String.eqb table "Providers"); [|done].
  destruct (row_get row "Name"); [|done].
  destruct (row_get row "Type") as [ty|]; [|done].
  destruct (list_index provider_types ty); [|done].
  destruct (row_get row "Address"); [|done].
  destruct (row_get row "City"); [|done].
  destruct (row_get row "Contact"); [|done].
  by rewrite Hsub.
Qed.

Lemma show_delete_form_unpressed table choice (s : session C) :
  conn (show_delete_form drv table choice false s).2 = conn s.
Proof.
  unfold show_delete_form, iobind.
  pose proof (load_data_conn drv (select_all table) s) as Hload.
  destruct (load_data drv (select_all table) s) as [[data|e] s1];
    cbn [snd] in Hload; [|done].
  destruct (empty data); [done|].
  unfold lift. by destruct (column_values data (id_col table)).
Qed.

Lemma with_header_conn {A} (m : io C (list A)) (h : A) (s : session C) :
  conn (m s).2 = conn s ->
  conn ((calls <<- m ;; ret (h :: calls)) s).2 = conn s.
Proof. unfold iobind, ret. by destruct (m s) as [[calls|e] s1]. Qed.

(** X3.  The CRUD page can change the database only from a submitted
    Create form for Providers or Receivers, a submitted Update form for
    Providers, or a pressed Delete button: every other visit (every Read,
    Create for the listings and claims tables, Update for the three other
    tables, any form left unsubmitted) leaves the database behind the
    connection as it was, whatever the driver does. *)
Theorem crud_page_writes_only_where_wired operation table choice f pressed
    (s : session C) :
  may_write operation table f pressed = false ->
  conn (show_crud_operations drv operation table choice f pressed s).2 = conn s.
Proof.
  unfold may_write, show_crud_operations. intros Hw.
  apply with_header_conn.
  destruct (String.eqb operation "Create") eqn:Hc.
  { apply show_create_form_unwired.
    cbn [andb orb] in Hw. apply orb_false_iff in Hw as [Hw _].
    by apply orb_false_iff in Hw as [Hw _]. }
  destruct (String.eqb operation "Read"); [apply show_read_table_conn|].
  destruct (String.eqb operation "Update").
  { cbn [andb orb] in Hw. apply orb_false_iff in Hw as [Hw _].
    destruct (String.eqb table "Providers") eqn:Ht.
    - apply show_update_form_unsubmitted. by destruct (submitted f).
    - apply show_update_form_other_tables. by apply String.eqb_neq. }
  destruct (String.eqb operation "Delete"); [|done].
  cbn [andb orb] in Hw. subst pressed. apply show_delete_form_unpressed.
Qed.
End CrudPageAnyDriver.

Lemma crud_page_writes_only_where_wired_witness :
  conn (show_crud_operations app_server "Update" "Claims" 0 edited_receiver
          true (fresh fixture)).2
  = conn (fresh fixture).
Proof.
  exact (crud_page_writes_only_where_wired app_server "Update" "Claims" 0
           edited_receiver true (fresh fixture) eq_refl).
Defined.

(** ** Update of a provider *)

Lemma filter_none {A} (P : A -> Prop) `{forall x, Decision (P x)} (l : list A) :
  Forall (fun x => ~ P x) l -> filter P l = [].
Proof.
  induction 1 as [|x l Hx Hl IH]; [done|].
  by rewrite filter_cons, decide_False.
Qed.

Lemma filter_unique_key {A} (key : A -> Z) (l : list A) (i : nat) (a : A) :
  NoDup (map key l) -> l !! i = Some a ->
  filter (fun b => key b = key a) l = [a].
Proof.
  revert i. induction l as [|b l IH]; intros i Hnd Hi; [done|].
  cbn [map] in Hnd. apply NoDup_cons in Hnd as [Hb Hnd].
  rewrite filter_cons. destruct i as [|i]; cbn in Hi.
  - injection Hi as ->. rewrite decide_True by done. f_equal.
    apply filter_none, Forall_forall. intros c Hc Hkey.
    apply Hb. rewrite <- Hkey. by apply list_elem_of_fmap_2.
  - rewrite decide_False; [by eapply IH|].
    intros Hkey. apply Hb. rewrite Hkey.
    apply list_elem_of_fmap_2. by eapply list_elem_of_lookup_2.
Qed.

Lemma filter_rows_with_id {A} (key : A -> Z) (to_row : A -> list value) id
    (l : list A) :
  (forall a, cell (to_row a) 0 = VInt (key a)) ->
  filter (fun r => cell r 0 = VInt id) (map to_row l) =
    map to_row (filter (fun a => key a = id) l).
Proof.
  intros Hcell. induction l as [|a l IH]; [done|].
  cbn [map]. rewrite !filter_cons, Hcell.
  destruct (decide (key a = id)) as [Heq|Hne].
  - rewrite decide_True by congruence. cbn [map]. by rewrite IH.
  - rewrite decide_False by congruence. done.
Qed.

Lemma update_at_unique_key id n t a c k (ps : list Provider.t) (i : nat) p :
  NoDup (map Provider.Provider_ID ps) -> ps !! i = Some p ->
  Provider.Provider_ID p = id ->
  map (update_provider id n t a c k) ps = <[i := Provider.mk id n t a c k]> ps.
Proof.
  revert i. induction ps as [|q ps IH]; intros i Hnd Hi Hid; [done|].
  cbn [map] in *. apply NoDup_cons in Hnd as [Hq Hnd].
  destruct i as [|i]; cbn in Hi.
  - injection Hi as ->. cbn. unfold update_provider at 1.
    rewrite decide_True by done. f_equal.
    rewrite <- (list_fmap_id ps) at 2. apply list_fmap_ext.
    intros j r Hr. unfold update_provider. rewrite decide_False; [done|].
    intros Heq. apply Hq. rewrite Hid, <- Heq.
    apply list_elem_of_fmap_2. by eapply list_elem_of_lookup_2.
  - cbn. unfold update_provider at 1. rewrite decide_False.
    + f_equal. by eapply IH.
    + intros Heq. apply Hq. rewrite Heq, <- Hid.
      apply list_elem_of_fmap_2. by eapply list_elem_of_lookup_2.
Qed.

Lemma selected_provider_row db choice p :
  NoDup (map Provider.Provider_ID (Providers db)) ->
  Providers db !! choice = Some p ->
  column_values (providers_frame db) (id_col "Providers") =
    Return (map VInt (map Provider.Provider_ID (Providers db)))
  /\ map VInt (map Provider.Provider_ID (Providers db)) !! choice =
       Some (VInt (Provider.Provider_ID p))
  /\ first_row_where (providers_frame db) (id_col "Providers")
                     (VInt (Provider.Provider_ID p)) =
       Return (zip Provider.cols (Provider.to_row p))
  /\ empty (providers_frame db) = false.
Proof.
  intros Hnd Hp. split; [|split; [|split]].
  - unfold column_values. cbn. f_equal. by rewrite !map_map.
  - change (map ?f ?l) with (f <$> l). by rewrite !list_lookup_fmap, Hp.
  - unfold first_row_where. cbn [id_col String.eqb Ascii.eqb Bool.eqb].
    cbn [providers_frame columns rows Provider.cols col_index String.eqb
         Ascii.eqb Bool.eqb].
    rewrite (filter_rows_with_id Provider.Provider_ID) by done.
    by rewrite (filter_unique_key Provider.Provider_ID _ choice p).
  - unfold empty. cbn. by destruct (Providers db).
Qed.

Lemma provider_type_index ty :
  ty ∈ provider_types -> exists i, list_index provider_types (VStr ty) = Return i.
Proof.
  unfold provider_types. intros Hin.
  repeat (apply elem_of_cons in Hin as [-> | Hin]; [by eexists|]).
  by apply elem_of_nil in Hin.
Qed.

Lemma provider_type_missing ty :
  ty ∉ provider_types ->
  list_index provider_types (VStr ty) =
    Raise (ValueError (repr (VStr ty) +:+ " is not in list")).
Proof.
  intros Hnot. unfold list_index.
  destruct (list_find _ provider_types) as [[i o]|] eqn:Hfind; [|done].
  apply list_find_Some in Hfind as (Ho & [= ->] & _).
  destruct Hnot. by eapply list_elem_of_lookup_2.
Qed.

Lemma crud_tables_cases (P : string -> Prop) :
  P "Providers" -> P "Receivers" -> P "Food_Listings_Dataset" -> P "Claims" ->
  forall table, table ∈ crud_tables -> P table.
Proof.
  intros H1 H2 H3 H4 table Hin. unfold crud_tables in Hin.
  repeat (apply elem_of_cons in Hin as [-> | Hin]; [assumption|]).
  by apply elem_of_nil in Hin.
Qed.

Lemma read_table_frame table db :
  table ∈ crud_tables ->
  sql_read_all (select_all table) db = Return (table_frame table db).
Proof. revert table. apply crud_tables_cases; reflexivity. Qed.

(** A form reads its table as this process takes it to be. *)
Lemma load_table table db seen (m : gmap string DataFrame) :
  table ∈ crud_tables -> reads_as table m db seen ->
  load_data app_server (select_all table) (mkSession (Some db) m) =
    (Return (table_frame table seen),
     mkSession (Some db) (<[select_all table := table_frame table seen]> m)).
Proof.
  intros Htable [Hm | [Hm ->]]; unfold load_data; cbn [memo conn]; rewrite Hm.
  - by rewrite insert_id.
  - cbn [app_server pd_read_sql]. by rewrite read_table_frame.
Qed.

Lemma update_absent id n t a c k (ps : list Provider.t) :
  id ∉ map Provider.Provider_ID ps ->
  map (update_provider id n t a c k) ps = ps.
Proof.
  intros Hnot. rewrite <- (list_fmap_id ps) at 2. apply list_fmap_ext.
  intros j q Hq. unfold update_provider. rewrite decide_False; [done|].
  intros Heq. apply Hnot. rewrite <- Heq.
  apply list_elem_of_fmap_2. by eapply list_elem_of_lookup_2.
Qed.

(** The Update form for Providers up to the point where it is submitted:
    the row picked from the frame as read, and the options of its Type. *)
Lemma show_update_form_providers db seen (m : gmap string DataFrame)
    choice p f :
  reads_as "Providers" m db seen ->
  NoDup (map Provider.Provider_ID (Providers seen)) ->
  Providers seen !! choice = Some p ->
  show_update_form app_server "Providers" choice f (mkSession (Some db) m) =
    (_ <<- lift (list_index provider_types (VStr (Provider.Type_ p))) ;;
     if submitted f then
       ok <<- execute_query app_server update_provider_sql
                (Some [VStr (name f); VStr (type_ f); VStr (address f);
                       VStr (city f); VStr (contact f);
                       VInt (Provider.Provider_ID p)]) ;;
       ret (st_subheader "Update Providers" ::
            if ok : bool
            then [st_success "Provider updated successfully!"; st_rerun]
            else [])
     else ret [st_subheader "Update Providers"])
      (mkSession (Some db)
                 (<[select_all "Providers" := providers_frame seen]> m)).
Proof.
  intros Hread Hnd Hp.
  destruct (selected_provider_row seen choice p Hnd Hp)
    as (Hcol & Hsel & Hrow & Hemp).
  unfold show_update_form. unfold iobind at 1.
  rewrite (load_table "Providers" db seen m) by (done || by left).
  change (table_frame "Providers" seen) with (providers_frame seen).
  rewrite Hemp. unfold iobind at 1, lift at 1. rewrite Hcol, Hsel.
  cbn [default from_option]. unfold Datatypes.id.
  unfold iobind at 1, lift at 1. rewrite Hrow.
  change (String.eqb "Providers" "Providers") with true. cbv iota.
  change (row_get (zip Provider.cols (Provider.to_row p)) "Name")
    with (Return (VStr (Provider.Name p))).
  change (row_get (zip Provider.cols (Provider.to_row p)) "Type")
    with (Return (VStr (Provider.Type_ p))).
  change (row_get (zip Provider.cols (Provider.to_row p)) "Address")
    with (Return (VStr (Provider.Address p))).
  change (row_get (zip Provider.cols (Provider.to_row p)) "City")
    with (Return (VStr (Provider.City p))).
  change (row_get (zip Provider.cols (Provider.to_row p)) "Contact")
    with (Return (VStr (Provider.Contact p))).
  unfold iobind, lift.
  by destruct (list_index provider_types (VStr (Provider.Type_ p))).
Qed.

(** X4.  The Update form for Providers offers the rows of the frame as
    this process read it ([seen]: the current table in a session that has
    not read it, the memoised state otherwise).  With unique identities
    there and the Type of the picked row among the four options, a
    submitted form issues the update for the picked identity on the
    current table: every current row with that identity gets the submitted
    fields and keeps its identity, no other row and no other table
    changes, and the success notice is shown.  With unique identities in
    the current table that is the one row at its position; when no current
    row has the identity any more, the notice is shown all the same and
    nothing changes. *)
Theorem update_providers_rewrites_selected db seen
    (m : gmap string DataFrame) choice p f :
  reads_as "Providers" m db seen ->
  NoDup (map Provider.Provider_ID (Providers seen)) ->
  Providers seen !! choice = Some p ->
  Provider.Type_ p ∈ provider_types ->
  submitted f = true ->
  let rewritten :=
    map (update_provider (Provider.Provider_ID p) (name f) (type_ f)
                         (address f) (city f) (contact f)) (Providers db) in
  show_update_form app_server "Providers" choice f (mkSession (Some db) m) =
    (Return [st_subheader "Update Providers";
             st_success "Provider updated successfully!"; st_rerun],
     mkSession
       (Some (mkDatabase rewritten (Receivers db) (Food_Listings_Dataset db)
                         (Claims db)))
       (<[select_all "Providers" := providers_frame seen]> m))
  /\ (forall i q,
        NoDup (map Provider.Provider_ID (Providers db)) ->
        Providers db !! i = Some q ->
        Provider.Provider_ID q = Provider.Provider_ID p ->
        rewritten =
          <[i := provider_of_form (Provider.Provider_ID p) f]> (Providers db))
  /\ (Provider.Provider_ID p ∉ map Provider.Provider_ID (Providers db) ->
      rewritten = Providers db).
Proof.
  intros Hread Hnd Hp Hty Hsub rewritten. split; [|split].
  - rewrite (show_update_form_providers db seen m choice p f) by done.
    destruct (provider_type_index _ Hty) as [i Hi].
    unfold iobind at 1, lift at 1. rewrite Hi, Hsub.
    unfold iobind, execute_query.
    cbn [conn app_server conn_cursor cursor_execute conn_commit memo].
    change (sql_execute_all update_provider_sql ?ps db)
      with (sql_execute update_provider_sql ps db).
    by rewrite update_provider_runs.
  - intros i q Hdb Hq Hid. subst rewritten.
    by rewrite (update_at_unique_key _ _ _ _ _ _ _ i q).
  - intros Hnot. by apply update_absent.
Qed.

Lemma update_providers_rewrites_selected_witness :
  show_update_form app_server "Providers" 1 new_provider
    (mkSession (Some fixture_without_cafe) memo_of_fixture) =
    (Return [st_subheader "Update Providers";
             st_success "Provider updated successfully!"; st_rerun],
     mkSession (Some fixture_without_cafe) memo_of_fixture).
Proof.
  refine (eq_trans
            (proj1 (update_providers_rewrites_selected fixture_without_cafe
                      fixture memo_of_fixture 1
                      (Provider.mk 2 "Corner Cafe" "Restaurant" "9 Elm St"
                                   "Adambury" "555-0102")
                      new_provider (or_introl eq_refl) _ eq_refl _ eq_refl))
            _).
  - refine (bool_decide_unpack (NoDup _) _). vm_compute. exact I.
  - refine (bool_decide_unpack (_ ∈ _) _). vm_compute. exact I.
  - vm_compute. reflexivity.
Defined.

(** X5.  A provider whose Type, in the frame as this process read it, is
    not one of the four options of the form cannot be edited: picking it
    in the Update form raises [ValueError] while the form is built,
    submitted or not, before any statement is issued, and the database is
    left as it was. *)
Theorem update_form_rejects_unlisted_type db seen (m : gmap string DataFrame)
    choice p f :
  reads_as "Providers" m db seen ->
  NoDup (map Provider.Provider_ID (Providers seen)) ->
  Providers seen !! choice = Some p ->
  Provider.Type_ p ∉ provider_types ->
  exists msg,
    show_update_form app_server "Providers" choice f (mkSession (Some db) m) =
      (Raise (ValueError msg),
       mkSession (Some db)
                 (<[select_all "Providers" := providers_frame seen]> m)).
Proof.
  intros Hread Hnd Hp Hty. eexists.
  rewrite (show_update_form_providers db seen m choice p f) by done.
  unfold iobind at 1, lift at 1.
  by rewrite (provider_type_missing _ Hty).
Qed.

Lemma update_form_rejects_unlisted_type_witness :
  exists msg,
    show_update_form app_server "Providers" 1 new_provider
      (mkSession (Some database_with_bakery)
         {[ select_all "Providers" := providers_frame database_with_bakery ]}) =
      (Raise (ValueError msg),
       mkSession (Some database_with_bakery)
         (<[select_all "Providers" := providers_frame database_with_bakery]>
            {[ select_all "Providers" :=
                 providers_frame database_with_bakery ]})).
Proof.
  refine (update_form_rejects_unlisted_type database_with_bakery
            database_with_bakery
            {[ select_all "Providers" := providers_frame database_with_bakery ]}
            1
            (Provider.mk 2 "Sun Bakery" "Bakery" "2 Mill Rd" "Adambury"
                         "555-0104")
            new_provider (or_introl _) _ eq_refl _).
  - apply lookup_singleton_eq.
  - refine (bool_decide_unpack (NoDup _) _). vm_compute. exact I.
  - refine (bool_decide_unpack (_ ∉ _) _). vm_compute. exact I.
Defined.

(** ** Delete *)

Lemma table_frame_ids table db :
  table ∈ crud_tables ->
  column_values (table_frame table db) (id_col table) =
    Return (map VInt (ids_of table db))
  /\ empty (table_frame table db) = bool_decide (ids_of table db = []).
Proof.
  revert table. apply crud_tables_cases; (split;
    [ unfold column_values; cbn; f_equal; rewrite !map_map; reflexivity
    | unfold empty; cbn;
      match goal with |- context [map _ ?l] => by destruct l end ]).
Qed.

Lemma delete_runs table id db :
  table ∈ crud_tables ->
  sql_execute_all (delete_sql table) [VInt id] db =
    Return (delete_rows table id db).
Proof. revert table. apply crud_tables_cases; reflexivity. Qed.

Lemma filter_out_key {A} (key : A -> Z) (id : Z) (l : list A) :
  map key (filter (fun a => key a <> id) l) =
  filter (fun k => k <> id) (map key l).
Proof.
  induction l as [|a l IH]; [done|].
  rewrite filter_cons. cbn [map]. rewrite filter_cons.
  destruct (decide (key a <> id)); cbn [map]; by rewrite IH.
Qed.

Lemma ids_after_delete table id db :
  table ∈ crud_tables ->
  ids_of table (delete_rows table id db) =
    filter (fun k => k <> id) (ids_of table db).
Proof.
  revert table. apply crud_tables_cases; cbn; apply filter_out_key.
Qed.

Lemma filter_all {A} (P : A -> Prop) `{forall x, Decision (P x)} (l : list A) :
  Forall P l -> filter P l = l.
Proof.
  induction 1 as [|x l Hx Hl IH]; [done|].
  rewrite filter_cons, decide_True by done. by rewrite IH.
Qed.

Lemma filter_twice {A} (P : A -> Prop) `{forall x, Decision (P x)} (l : list A) :
  filter P (filter P l) = filter P l.
Proof.
  apply filter_all, Forall_forall. intros x Hx.
  by apply list_elem_of_filter in Hx as [? _].
Qed.

Lemma filter_out_length (id : Z) (l : list Z) :
  NoDup l -> id ∈ l ->
  (length (filter (fun k => k <> id) l) + 1 = length l)%nat.
Proof.
  induction 1 as [|k l Hk Hnd IH]; intros Hin; [by apply elem_of_nil in Hin|].
  rewrite filter_cons. destruct (decide (k <> id)) as [Hne|Heq].
  - apply elem_of_cons in Hin as [?|Hin]; [congruence|].
    cbn [length]. rewrite <- IH by done. lia.
  - apply dec_stable in Heq. subst k. cbn [length].
    rewrite filter_all; [lia|].
    apply Forall_forall. intros x Hx ->. done.
Qed.

Lemma other_tables_after_delete table id db t :
  table ∈ crud_tables -> t ∈ crud_tables -> t <> table ->
  table_frame t (delete_rows table id db) = table_frame t db.
Proof.
  unfold crud_tables. intros Htable Ht Hne.
  repeat (apply elem_of_cons in Htable as [-> | Htable]);
    [..| by apply elem_of_nil in Htable];
    repeat (apply elem_of_cons in Ht as [-> | Ht]);
    try (by apply elem_of_nil in Ht); done.
Qed.

Lemma delete_rows_twice table id db :
  table ∈ crud_tables ->
  delete_rows table id (delete_rows table id db) = delete_rows table id db.
Proof.
  revert table. apply crud_tables_cases; cbn;
    unfold delete_providers, delete_receivers, delete_listings, delete_claims;
    cbn; by rewrite filter_twice.
Qed.

Lemma filter_rows_by_id {A} (key : A -> Z) (to_row : A -> list value) id
    (l : list A) :
  (forall a, cell (to_row a) 0 = VInt (key a)) ->
  map to_row (filter (fun a => key a <> id) l) =
    filter (fun r => cell r 0 <> VInt id) (map to_row l).
Proof.
  intros Hcell. induction l as [|a l IH]; [done|].
  rewrite filter_cons. cbn [map]. rewrite filter_cons, Hcell.
  destruct (decide (key a <> id)) as [Hne|Heq].
  - rewrite decide_True by congruence. cbn [map]. by rewrite IH.
  - apply dec_stable in Heq. subst id. by rewrite decide_False by tauto.
Qed.

Lemma rows_after_delete table id db :
  table ∈ crud_tables ->
  rows (table_frame table (delete_rows table id db)) =
    filter (fun r => cell r 0 <> VInt id) (rows (table_frame table db)).
Proof.
  revert table. apply crud_tables_cases; cbn.
  - by apply (filter_rows_by_id Provider.Provider_ID).
  - by apply (filter_rows_by_id Receiver.Receiver_ID).
  - by apply (filter_rows_by_id FoodListing.Food_ID).
  - by apply (filter_rows_by_id Claim.Claim_ID).
Qed.

Lemma filter_out_absent {A} (key : A -> Z) (id : Z) (l : list A) :
  id ∉ map key l -> filter (fun a => key a <> id) l = l.
Proof.
  intros Hnot. apply filter_all, Forall_forall. intros x Hx Heq.
  apply Hnot. rewrite <- Heq. by apply list_elem_of_fmap_2.
Qed.

Lemma delete_absent table id db :
  table ∈ crud_tables -> id ∉ ids_of table db -> delete_rows table id db = db.
Proof.
  intros Htable. revert table Htable id.
  apply (crud_tables_cases
           (fun table => forall id, id ∉ ids_of table db ->
                                    delete_rows table id db = db));
    intros id Hnot; destruct db; cbn in *;
    unfold delete_providers, delete_receivers, delete_listings, delete_claims;
    cbn; f_equal; by apply filter_out_absent.
Qed.

(** The Delete form with its button pressed, for the identity at the
    picked position of the frame as read. *)
Lemma show_delete_form_pressed table db seen (m : gmap string DataFrame)
    choice id :
  table ∈ crud_tables ->
  reads_as table m db seen ->
  ids_of table seen !! choice = Some id ->
  show_delete_form app_server table choice true (mkSession (Some db) m) =
    (Return [st_subheader ("Delete from " +:+ table);
             st_success "Record deleted successfully!"; st_rerun],
     mkSession (Some (delete_rows table id db))
               (<[select_all table := table_frame table seen]> m)).
Proof.
  intros Htable Hread Hid. unfold show_delete_form. unfold iobind at 1.
  rewrite (load_table table db seen m) by done.
  destruct (table_frame_ids table seen Htable) as [Hcol Hemp].
  rewrite Hemp, bool_decide_eq_false_2
    by (intros Hnil; by rewrite Hnil in Hid).
  unfold iobind, lift. rewrite Hcol.
  change (map VInt (ids_of table seen)) with (VInt <$> ids_of table seen).
  rewrite list_lookup_fmap, Hid. cbn [fmap option_fmap option_map default].
  unfold execute_query.
  cbn [conn app_server conn_cursor cursor_execute conn_commit memo].
  unfold Datatypes.id. by rewrite delete_runs.
Qed.

(** X6.  The Delete form offers the identities of the frame as this process
    read it ([seen]: the current table in a session that has not read it,
    the memoised state otherwise).  For each of the four tables, pressing
    Delete removes from the current table exactly the rows whose identity
    column holds the picked value: every other row stays, in order, and
    the three other tables are untouched (a provider is deleted without
    its listings, a listing without its claims).  When the current
    identities are unique and the picked one is among them the table has
    one row less; when it is not among them any more, nothing changes.
    The success notice is shown in each case. *)
Theorem delete_removes_selected table db seen (m : gmap string DataFrame)
    choice id :
  table ∈ crud_tables ->
  reads_as table m db seen ->
  ids_of table seen !! choice = Some id ->
  show_delete_form app_server table choice true (mkSession (Some db) m) =
    (Return [st_subheader ("Delete from " +:+ table);
             st_success "Record deleted successfully!"; st_rerun],
     mkSession (Some (delete_rows table id db))
               (<[select_all table := table_frame table seen]> m))
  /\ rows (table_frame table (delete_rows table id db)) =
       filter (fun r => cell r 0 <> VInt id) (rows (table_frame table db))
  /\ ids_of table (delete_rows table id db) =
       filter (fun k => k <> id) (ids_of table db)
  /\ (forall t, t ∈ crud_tables -> t <> table ->
        table_frame t (delete_rows table id db) = table_frame t db)
  /\ (NoDup (ids_of table db) -> id ∈ ids_of table db ->
      (length (ids_of table (delete_rows table id db)) + 1 =
       length (ids_of table db))%nat)
  /\ (id ∉ ids_of table db -> delete_rows table id db = db).
Proof.
  intros Htable Hread Hid. split; [|split; [|split; [|split; [|split]]]].
  - by apply show_delete_form_pressed.
  - by apply rows_after_delete.
  - by apply ids_after_delete.
  - intros t Ht Hne. by apply other_tables_after_delete.
  - intros Hnd Hin. rewrite ids_after_delete by done.
    by apply filter_out_length.
  - by apply delete_absent.
Qed.

Lemma delete_removes_selected_witness :
  show_delete_form app_server "Providers" 0 true
    (mkSession (Some fixture) memo_of_fixture) =
    (Return [st_subheader ("Delete from " +:+ "Providers");
             st_success "Record deleted successfully!"; st_rerun],
     mkSession (Some (delete_rows "Providers" 1 fixture))
               (<[select_all "Providers" := table_frame "Providers" fixture]>
                  memo_of_fixture)).
Proof.
  refine (proj1 (delete_removes_selected "Providers" fixture fixture
                   memo_of_fixture 0 1 _ (or_introl eq_refl) eq_refl)).
  vm_compute. left.
Defined.

(** X7.  After a delete, in any session, the select box still offers the
    deleted identity, since the identities come from the memoised frame;
    picking it and pressing Delete again shows the success notice once
    more although no row is removed: the session stays as the first
    delete left it. *)
Theorem delete_again_reports_success table db seen (m : gmap string DataFrame)
    choice id :
  table ∈ crud_tables ->
  reads_as table m db seen ->
  ids_of table seen !! choice = Some id ->
  show_delete_form app_server table choice true
    (show_delete_form app_server table choice true (mkSession (Some db) m)).2
  = (Return [st_subheader ("Delete from " +:+ table);
             st_success "Record deleted successfully!"; st_rerun],
     (show_delete_form app_server table choice true (mkSession (Some db) m)).2).
Proof.
  intros Htable Hread Hid.
  rewrite (show_delete_form_pressed table db seen m choice id) by done.
  cbn [snd].
  rewrite (show_delete_form_pressed table _ seen _ choice id)
    by (done || left; apply lookup_insert_eq).
  by rewrite delete_rows_twice, insert_insert_eq.
Qed.

Lemma delete_again_reports_success_witness :
  show_delete_form app_server "Claims" 1 true
    (show_delete_form app_server "Claims" 1 true
       (mkSession (Some fixture) memo_of_fixture)).2
  = (Return [st_subheader ("Delete from " +:+ "Claims");
             st_success "Record deleted successfully!"; st_rerun],
     (show_delete_form app_server "Claims" 1 true
        (mkSession (Some fixture) memo_of_fixture)).2).
Proof.
  refine (delete_again_reports_success "Claims" fixture fixture
            memo_of_fixture 1 2 _ (or_introl eq_refl) eq_refl).
  vm_compute. do 3 right. left.
Defined.

(** ** Rows that came after the table was read *)

Lemma selected_is_listed (ids : list Z) (choice : nat) :
  ids <> [] ->
  exists j, j ∈ ids
    /\ default (default VNull (head (map VInt ids))) (map VInt ids !! choice)
       = VInt j.
Proof.
  intros Hne. change (map VInt ids) with (VInt <$> ids).
  rewrite list_lookup_fmap.
  destruct (ids !! choice) as [j|] eqn:Hj.
  - exists j. split; [by eapply list_elem_of_lookup_2 | done].
  - destruct ids as [|i ids]; [done|]. exists i. split; [by left | done].
Qed.

(** One press: nothing happens, or the rows of one memoised identity go. *)
Lemma delete_press_step table db seen (m : gmap string DataFrame) choice :
  table ∈ crud_tables ->
  m !! select_all table = Some (table_frame table seen) ->
  exists db',
    (show_delete_form app_server table choice true (mkSession (Some db) m)).2
      = mkSession (Some db') m
    /\ (db' = db
        \/ exists j, j ∈ ids_of table seen /\ db' = delete_rows table j db).
Proof.
  intros Htable Hm. unfold show_delete_form. unfold iobind at 1.
  rewrite (load_table table db seen m) by (done || by left).
  rewrite insert_id by done.
  destruct (table_frame_ids table seen Htable) as [Hcol Hemp]. rewrite Hemp.
  case_bool_decide as Hids.
  - exists db. split; [done | by left].
  - unfold iobind, lift. rewrite Hcol.
    destruct (selected_is_listed (ids_of table seen) choice Hids)
      as (j & Hj & Hsel).
    rewrite Hsel. unfold execute_query.
    cbn [conn app_server conn_cursor cursor_execute conn_commit memo].
    rewrite delete_runs by done.
    exists (delete_rows table j db). split; [done|]. right. by exists j.
Qed.

(** X8.  Once a table has been read in this process, no sequence of
    presses of the Delete button removes a row whose identity was not in
    the table at that read (a row that this process or another client
    created since): the select box offers the memoised identities only,
    whatever is picked. *)
Theorem unlisted_rows_survive_delete table db seen
    (m : gmap string DataFrame) r k choices :
  table ∈ crud_tables ->
  m !! select_all table = Some (table_frame table seen) ->
  r ∈ rows (table_frame table db) ->
  cell r 0 = VInt k ->
  k ∉ ids_of table seen ->
  exists db',
    delete_presses table (mkSession (Some db) m) choices
      = mkSession (Some db') m
    /\ r ∈ rows (table_frame table db').
Proof.
  intros Htable Hm Hr Hk Hnew. revert db Hr.
  induction choices as [|choice choices IH]; intros db Hr.
  - by exists db.
  - unfold delete_presses. cbn [foldl].
    destruct (delete_press_step table db seen m choice Htable Hm)
      as (db1 & -> & Hdb1).
    apply IH. destruct Hdb1 as [-> | (j & Hj & ->)]; [done|].
    rewrite rows_after_delete by done. apply list_elem_of_filter.
    split; [|done]. rewrite Hk. intros [= ->]. done.
Qed.

Lemma unlisted_rows_survive_delete_witness :
  exists db',
    delete_presses "Providers"
      (mkSession (Some (with_provider fixture late_provider)) memo_of_fixture)
      [2%nat; 0%nat; 1%nat]
      = mkSession (Some db') memo_of_fixture
    /\ Provider.to_row late_provider ∈ rows (table_frame "Providers" db').
Proof.
  refine (unlisted_rows_survive_delete "Providers"
            (with_provider fixture late_provider) fixture memo_of_fixture
            (Provider.to_row late_provider) 7 [2%nat; 0%nat; 1%nat]
            _ eq_refl _ eq_refl _).
  - vm_compute. left.
  - refine (bool_decide_unpack (_ ∈ _) _). vm_compute. exact I.
  - refine (bool_decide_unpack (_ ∉ _) _). vm_compute. exact I.
Defined.

(** ** Grouped reports *)

#[local] Instance more_first_total {K} : Total (@more_first K).
Proof. intros a b. unfold more_first. lia. Qed.

Lemma order_desc_perm {K} (l : list (K * Z)) : order_desc l ≡ₚ l.
Proof. apply merge_sort_Permutation. Qed.

Lemma order_desc_sorted {K} (l : list (K * Z)) :
  Sorted more_first (order_desc l).
Proof. apply Sorted_merge_sort, _. Qed.

Lemma sum_Z_perm (l k : list Z) : l ≡ₚ k -> sum_Z l = sum_Z k.
Proof.
  unfold sum_Z. induction 1; cbn [foldr]; lia.
Qed.

Lemma sum_Z_app (l k : list Z) : sum_Z (l ++ k) = sum_Z l + sum_Z k.
Proof. unfold sum_Z. induction l; cbn [foldr app]; lia. Qed.

Lemma sum_Z_pick {K} `{EqDecision K} (k0 : K) (x : Z) keys :
  NoDup keys -> k0 ∈ keys ->
  sum_Z (map (fun k => if decide (k0 = k) then x else 0) keys) = x.
Proof.
  induction 1 as [|k keys Hk Hnd IH]; intros Hin; [by apply elem_of_nil in Hin|].
  unfold sum_Z in *. cbn [map foldr].
  destruct (decide (k0 = k)) as [->|Hne].
  - assert (foldr Z.add 0
              (map (fun k' => if decide (k = k') then x else 0) keys) = 0)
      as ->; [|lia].
    clear IH Hin Hnd. induction keys as [|k' keys IH]; [done|].
    cbn [map foldr]. apply not_elem_of_cons in Hk as [Hne Hk].
    rewrite decide_False by done. rewrite IH by done. done.
  - apply elem_of_cons in Hin as [?|Hin]; [done|]. rewrite IH by done. done.
Qed.

(** The groups of a [GROUP BY] partition the rows: an additive aggregate
    summed over the groups is the aggregate of all rows. *)
Lemma weight_partition {R K} `{EqDecision K} (key : R -> K) (w : R -> Z)
    (joined : list R) (keys : list K) :
  NoDup keys -> (forall r, r ∈ joined -> key r ∈ keys) ->
  sum_Z (map (fun k => sum_Z (map w (filter (fun r => key r = k) joined))) keys)
  = sum_Z (map w joined).
Proof.
  intros Hnd. induction joined as [|r joined IH]; intros Hall.
  - cbn. clear. induction keys; [done|]. unfold sum_Z in *. cbn. lia.
  - rewrite (map_ext _
      (fun k => (if decide (key r = k) then w r else 0)
                + sum_Z (map w (filter (fun r' => key r' = k) joined)))).
    + rewrite sum_Z_add, sum_Z_pick, IH; [unfold sum_Z; cbn; lia | | done |].
      * intros r' Hr'. apply Hall. by right.
      * apply Hall. by left.
    + intros k. rewrite filter_cons.
      destruct (decide (key r = k)); unfold sum_Z; cbn; lia.
Qed.

Lemma grouped_keys {R K} `{EqDecision K} (key : R -> K) agg (joined : list R) :
  map fst (grouped key agg joined) = remove_dups (map key joined).
Proof. unfold grouped. rewrite map_map. cbn. apply map_id. Qed.

Lemma grouped_sum {R K} `{EqDecision K} (key : R -> K) (w : R -> Z) agg
    (joined : list R) :
  (forall grp, agg grp = sum_Z (map w grp)) ->
  sum_Z (map snd (grouped key agg joined)) = sum_Z (map w joined).
Proof.
  intros Hagg. unfold grouped. rewrite map_map. cbn.
  rewrite (map_ext _ (fun k => sum_Z (map w (filter (fun r => key r = k) joined))))
    by (intros k; apply Hagg).
  apply weight_partition; [apply NoDup_remove_dups|].
  intros r Hr. rewrite elem_of_remove_dups. by apply list_elem_of_fmap_2.
Qed.

Lemma grouped_lookup {R K} `{EqDecision K} (key : R -> K) agg (joined : list R)
    (k : K) (n : Z) :
  (k, n) ∈ grouped key agg joined <->
  k ∈ map key joined /\ n = agg (filter (fun r => key r = k) joined).
Proof.
  unfold grouped. rewrite list_elem_of_fmap. split.
  - intros (k' & Heq & Hk). injection Heq as -> ->.
    rewrite elem_of_remove_dups in Hk. by split.
  - intros [Hk ->]. exists k. split; [done|]. by rewrite elem_of_remove_dups.
Qed.

Lemma count_rows_weight {R} (grp : list R) :
  count_rows grp = sum_Z (map (fun _ => 1) grp).
Proof.
  unfold count_rows, sum_Z. induction grp; cbn [map foldr length]; lia.
Qed.

Lemma count_matched_weight {A B} (grp : list (A * option B)) :
  count_matched grp =
  sum_Z (map (fun r => if decide (is_Some r.2) then 1 else 0) grp).
Proof.
  unfold count_matched, sum_Z. induction grp as [|r grp IH]; [done|].
  rewrite filter_cons. cbn [map foldr].
  destruct (decide (is_Some r.2)); cbn [length]; lia.
Qed.

Lemma aggregates_render {K} (render : K * Z -> list value) (l : list (K * Z)) :
  (forall g, List.last (render g) VNull = VInt g.2) ->
  forall cols, aggregates (mkDataFrame cols (map render l)) = map snd l.
Proof.
  intros Hlast cols. unfold aggregates. cbn [rows].
  induction l as [|g l IH]; [done|]. cbn [map omap list_omap].
  rewrite Hlast. cbn. f_equal. exact IH.
Qed.

Lemma left_join_filter {A B} (on : A -> B -> bool) (P : A -> Prop)
    `{forall a, Decision (P a)} (l : list A) (r : list B) :
  filter (fun row => P row.1) (left_join on l r) = left_join on (filter P l) r.
Proof.
  unfold left_join. induction l as [|a l IH]; [done|].
  cbn [flat_map]. rewrite filter_app, IH, (filter_cons P).
  destruct (decide (P a)) as [Ha|Ha]; cbn [flat_map].
  - f_equal. apply filter_all, Forall_forall. intros row Hrow.
    destruct (filter (fun b => on a b) r) as [|b0 bs].
    + apply list_elem_of_singleton in Hrow. by subst row.
    + apply list_elem_of_fmap in Hrow as (b & -> & _). done.
  - rewrite filter_none; [done|]. apply Forall_forall. intros row Hrow.
    destruct (filter (fun b => on a b) r) as [|b0 bs].
    + apply list_elem_of_singleton in Hrow. by subst row.
    + apply list_elem_of_fmap in Hrow as (b & -> & _). done.
Qed.

Lemma inner_join_filter {A B} (on : A -> B -> bool) (P : B -> Prop)
    `{forall b, Decision (P b)} (l : list A) (r : list B) :
  filter (fun row => P row.2) (inner_join on l r) =
  inner_join on l (filter P r).
Proof.
  unfold inner_join. induction l as [|a l IH]; [done|].
  cbn [flat_map]. rewrite filter_app, IH. f_equal.
  clear IH. induction r as [|b r IH]; [done|].
  rewrite (filter_cons P), (filter_cons (fun b => on a b)).
  destruct (decide (on a b)) as [Hab|Hab], (decide (P b)) as [Hb|Hb];
    cbn [map]; rewrite ?filter_cons; cbn [snd];
    rewrite ?(decide_True _ _ Hb), ?(decide_False _ _ Hb),
            ?(decide_True _ _ Hab), ?(decide_False _ _ Hab);
    cbn [map]; by rewrite IH.
Qed.

(** The matched rows of a left join are the rows of the inner join. *)
Lemma count_matched_left_join {A B} (on : A -> B -> bool) (l : list A)
    (r : list B) :
  count_matched (left_join on l r) = Z.of_nat (length (inner_join on l r)).
Proof.
  unfold count_matched, left_join, inner_join.
  induction l as [|a l IH]; [done|].
  cbn [flat_map]. rewrite filter_app, !length_app, !Nat2Z.inj_add, IH.
  f_equal. f_equal.
  destruct (filter (fun b => on a b) r) as [|b0 bs]; [done|].
  rewrite filter_all, !length_map; [done|].
  apply Forall_forall. intros row Hrow.
  apply list_elem_of_fmap in Hrow as (b & -> & _). by eexists.
Qed.

Lemma inner_join_rows {A B} (on : A -> B -> bool) (l : list A) (r : list B)
    (a : A) (b : B) :
  (a, b) ∈ inner_join on l r <-> a ∈ l /\ b ∈ r /\ on a b = true.
Proof.
  unfold inner_join. rewrite list_elem_of_In, in_flat_map. split.
  - intros (a' & Ha' & Hin). apply list_elem_of_In in Ha', Hin.
    apply list_elem_of_fmap in Hin as (b' & [= -> ->] & Hb').
    apply list_elem_of_filter in Hb' as [Hon Hb']. split; [done|].
    split; [done|]. by apply Is_true_true.
  - intros (Ha & Hb & Hon). exists a. split; [by apply list_elem_of_In|].
    apply list_elem_of_In, list_elem_of_fmap. exists b. split; [done|].
    apply list_elem_of_filter. split; [by apply Is_true_true | done].
Qed.

(** Under referential integrity every row of the referring table joins
    with exactly one row of the referred one. *)
Lemma inner_join_total {A B} (fk : A -> Z) (key : B -> Z)
    (on : A -> B -> bool) (l : list A) (r : list B) :
  (forall a b, on a b = bool_decide (fk a = key b)) ->
  NoDup (map key r) -> (forall a, a ∈ l -> fk a ∈ map key r) ->
  map fst (inner_join on l r) = l.
Proof.
  intros Hon Hnd Hfk. unfold inner_join.
  induction l as [|a l IH]; [done|].
  cbn [flat_map]. rewrite map_app, IH by (intros a' Ha'; apply Hfk; by right).
  assert (Hin : fk a ∈ map key r) by (apply Hfk; by left).
  apply list_elem_of_fmap in Hin as (b & Heq & Hb).
  apply list_elem_of_lookup in Hb as [i Hi].
  rewrite (list_filter_iff _ (fun b' => key b' = key b)).
  - by rewrite (filter_unique_key key r i b).
  - intros b'. rewrite Hon, Heq. rewrite bool_decide_spec. split; congruence.
Qed.

Lemma ordered_groups {R K} `{EqDecision K} (key : R -> K) agg (joined : list R) :
  Sorted more_first (order_desc (grouped key agg joined))
  /\ NoDup (map fst (order_desc (grouped key agg joined)))
  /\ (forall k n,
        (k, n) ∈ order_desc (grouped key agg joined) <->
        k ∈ map key joined /\ n = agg (filter (fun r => key r = k) joined)).
Proof.
  split; [apply order_desc_sorted|]. split.
  - change (map fst ?l) with (fst <$> l).
    rewrite order_desc_perm. change (fst <$> ?l) with (map fst l).
    rewrite grouped_keys. apply NoDup_remove_dups.
  - intros k n. rewrite order_desc_perm. apply grouped_lookup.
Qed.

Lemma ordered_groups_sum {R K} `{EqDecision K} (key : R -> K) (w : R -> Z) agg
    (joined : list R) :
  (forall grp, agg grp = sum_Z (map w grp)) ->
  sum_Z (map snd (order_desc (grouped key agg joined))) = sum_Z (map w joined).
Proof.
  intros Hagg. rewrite <- (grouped_sum key w agg joined Hagg).
  apply sum_Z_perm. change (map snd ?l) with (snd <$> l).
  by rewrite order_desc_perm.
Qed.

Lemma count_matched_group {A B K} `{EqDecision K} (on : A -> B -> bool)
    (key : A -> K) (k : K) (l : list A) (r : list B) :
  count_matched (filter (fun row => key row.1 = k) (left_join on l r)) =
  Z.of_nat (length (inner_join on (filter (fun a => key a = k) l) r)).
Proof.
  transitivity (count_matched (left_join on (filter (fun a => key a = k) l) r));
    [|apply count_matched_left_join].
  f_equal.
  exact (@left_join_filter A B on (fun a => key a = k)
           (fun a => decide (key a = k)) l r).
Qed.

Lemma sum_Z_ones {R} (l : list R) :
  sum_Z (map (fun _ => 1) l) = Z.of_nat (length l).
Proof. by rewrite <- count_rows_weight. Qed.

(** X9.  Query 7 returns one row per distinct food type with the number of
    listings of that type, the larger counts first; the counts add up to
    the number of listings. *)
Theorem report7_counts db :
  exists groups,
    sql_read_all query7 db =
      Return (mkDataFrame ["Food_Type"; "Listings_Count"]
                (map (fun g => [VStr g.1; VInt g.2]) groups))
    /\ Sorted more_first groups
    /\ NoDup (map fst groups)
    /\ (forall ft n,
          (ft, n) ∈ groups <->
          ft ∈ map FoodListing.Food_Type (Food_Listings_Dataset db)
          /\ n = Z.of_nat (length (filter (fun l => FoodListing.Food_Type l = ft)
                                          (Food_Listings_Dataset db))))
    /\ sum_Z (map snd groups) = Z.of_nat (length (Food_Listings_Dataset db)).
Proof.
  exists (order_desc (report7_groups db)). split; [reflexivity|].
  unfold report7_groups.
  destruct (ordered_groups FoodListing.Food_Type count_rows
              (Food_Listings_Dataset db)) as (Hs & Hn & Hm).
  split; [done|]. split; [done|]. split; [exact Hm|].
  rewrite (ordered_groups_sum _ (fun _ => 1)) by apply count_rows_weight.
  apply sum_Z_ones.
Qed.


Lemma left_join_covers {A B} (on : A -> B -> bool) (l : list A) (r : list B)
    (a : A) :
  a ∈ l -> exists row, row ∈ left_join on l r /\ row.1 = a.
Proof.
  intros Ha. unfold left_join.
  destruct (filter (fun b => on a b) r) as [|b bs] eqn:Hf.
  - exists (a, None). split; [|done].
    apply list_elem_of_In, in_flat_map. exists a.
    split; [by apply list_elem_of_In|]. rewrite Hf. by left.
  - exists (a, Some b). split; [|done].
    apply list_elem_of_In, in_flat_map. exists a.
    split; [by apply list_elem_of_In|]. rewrite Hf. by left.
Qed.

Lemma sum_Z_map_fst {A B} (w : A -> Z) (l : list (A * B)) :
  sum_Z (map (fun r => w r.1) l) = sum_Z (map w (map fst l)).
Proof. by rewrite map_map. Qed.

Lemma inner_join_group {A B K} `{EqDecision K} (on : A -> B -> bool)
    (key : B -> K) (k : K) (l : list A) (r : list B) :
  filter (fun row => key row.2 = k) (inner_join on l r) =
  inner_join on l (filter (fun b => key b = k) r).
Proof.
  exact (@inner_join_filter A B on (fun b => key b = k)
           (fun b => decide (key b = k)) l r).
Qed.

Lemma sum_Z_filter_le {R} (w : R -> Z) (P : R -> Prop)
    `{forall r, Decision (P r)} (l : list R) :
  Forall (fun r => 0 <= w r) l ->
  0 <= sum_Z (map w (filter P l)) <= sum_Z (map w l).
Proof.
  unfold sum_Z. induction 1 as [|r l Hr Hl IH]; [done|].
  rewrite filter_cons. destruct (decide (P r)); cbn [map foldr]; lia.
Qed.

(** A grouped total returns all of its groups once every group's total is
    in range, as it is for weights that are not negative and whose sum is
    in range. *)
Lemma grouped_m_in_range {R K} `{EqDecision K} (key : R -> K) (w : R -> Z)
    (joined : list R) :
  Forall (fun r => 0 <= w r) joined ->
  sum_Z (map w joined) <= int_max ->
  grouped_m key (fun grp => running_total 0 (map w grp)) joined =
    Return (grouped key (fun grp => sum_Z (map w grp)) joined).
Proof.
  intros Hpos Hmax. unfold grouped_m, grouped.
  induction (remove_dups (map key joined)) as [|k ks IH]; [done|].
  cbn [mapM map].
  pose proof (sum_Z_filter_le w (fun r => key r = k) joined Hpos) as Hk.
  rewrite running_total_in_range; [| lia | | lia].
  - cbn [bind]. by rewrite IH.
  - apply Forall_fmap. apply Forall_forall. intros r Hr.
    apply list_elem_of_filter in Hr as [_ Hr].
    by apply (proj1 (Forall_forall _ _) Hpos).
Qed.

Lemma joined_quantities db :
  Forall (fun f => 0 <= FoodListing.Quantity f) (Food_Listings_Dataset db) ->
  Forall (fun r : FoodListing.t * Provider.t => 0 <= FoodListing.Quantity r.1)
         (inner_join provided_by (Food_Listings_Dataset db) (Providers db)).
Proof.
  intros Hpos. apply Forall_forall. intros [f p] Hrow.
  apply inner_join_rows in Hrow as (Hf & _ & _).
  by apply (proj1 (Forall_forall _ _) Hpos).
Qed.

(** X11.  With quantities that are not negative and whose sum over the
    pairs of a listing and its provider is in the range of [int], Query 13
    returns one row per provider that has a listing (a provider without
    listings is left out), the larger totals first; the total of a row is
    the sum of the quantities of the listings of the providers with that
    identity and name.  When provider identities are unique and every
    listing refers to a provider, the totals add up to the sum of all
    listing quantities, which is the scalar of Query 5. *)
Theorem report13_totals db :
  Forall (fun f => 0 <= FoodListing.Quantity f) (Food_Listings_Dataset db) ->
  sum_Z (map (fun r => FoodListing.Quantity r.1)
             (inner_join provided_by (Food_Listings_Dataset db)
                         (Providers db))) <= int_max ->
  exists groups,
    sql_read_all query13 db =
      Return (mkDataFrame
                ["Provider_ID"; "Provider_Name"; "Total_Quantity_Donated"]
                (map (fun g => [VInt g.1.1; VStr g.1.2; VInt g.2]) groups))
    /\ Sorted more_first groups
    /\ NoDup (map fst groups)
    /\ (forall id name,
          (id, name) ∈ map fst groups <->
          exists f p, f ∈ Food_Listings_Dataset db /\ p ∈ Providers db
                      /\ FoodListing.Provider_ID f = Provider.Provider_ID p
                      /\ Provider.Provider_ID p = id /\ Provider.Name p = name)
    /\ (forall k total,
          (k, total) ∈ groups ->
          total =
            sum_Z (map (fun r => FoodListing.Quantity r.1)
                       (inner_join provided_by (Food_Listings_Dataset db)
                          (filter (fun p => (Provider.Provider_ID p,
                                             Provider.Name p) = k)
                                  (Providers db)))))
    /\ (NoDup (map Provider.Provider_ID (Providers db)) ->
        (forall f, f ∈ Food_Listings_Dataset db ->
                   FoodListing.Provider_ID f
                     ∈ map Provider.Provider_ID (Providers db)) ->
        sum_Z (map snd groups) =
          sum_Z (map FoodListing.Quantity (Food_Listings_Dataset db))
        /\ (Food_Listings_Dataset db <> [] ->
            sql_read_all query5 db =
              Return (mkDataFrame ["Total_Quantity_Available"]
                        [[VInt (sum_Z (map snd groups))]]))).
Proof.
  intros Hpos Hmax.
  set (key := fun r : FoodListing.t * Provider.t =>
                (Provider.Provider_ID r.2, Provider.Name r.2)).
  set (total := fun grp : list (FoodListing.t * Provider.t) =>
                  sum_Z (map (fun r => FoodListing.Quantity r.1) grp)).
  set (joined := inner_join provided_by (Food_Listings_Dataset db)
                            (Providers db)).
  exists (order_desc (grouped key total joined)). split.
  { change (sql_read_all query13 db) with (report13 db).
    unfold report13, report13_groups.
    by rewrite (grouped_m_in_range _ (fun r => FoodListing.Quantity r.1))
      by (done || by apply joined_quantities). }
  destruct (ordered_groups key total joined) as (Hs & Hn & Hm).
  split; [done|]. split; [done|]. split; [|split].
  - intros id name. change (map fst ?l) with (fst <$> l).
    rewrite order_desc_perm. change (fst <$> ?l) with (map fst l).
    rewrite grouped_keys, elem_of_remove_dups, list_elem_of_fmap. split.
    + intros ([f p] & [= -> ->] & Hrow).
      apply inner_join_rows in Hrow as (Hf & Hp & Hon).
      apply bool_decide_eq_true in Hon. by exists f, p.
    + intros (f & p & Hf & Hp & Hon & <- & <-). exists (f, p).
      split; [done|]. apply inner_join_rows.
      split; [done|]. split; [done|]. by apply bool_decide_eq_true.
  - intros k t Hin. apply Hm in Hin as [_ ->]. unfold total, joined. f_equal.
    f_equal.
    apply (inner_join_group provided_by
             (fun p => (Provider.Provider_ID p, Provider.Name p))).
  - intros Hnd Hfk.
    assert (Hjoin : map fst joined = Food_Listings_Dataset db)
      by (by apply (inner_join_total FoodListing.Provider_ID
                      Provider.Provider_ID)).
    assert (Hsum :
      sum_Z (map snd (order_desc (grouped key total joined)))
      = sum_Z (map FoodListing.Quantity (Food_Listings_Dataset db))).
    { rewrite (ordered_groups_sum _ (fun r => FoodListing.Quantity r.1)) by done.
      by rewrite sum_Z_map_fst, Hjoin. }
    split; [exact Hsum|]. intros Hne. rewrite Hsum.
    apply (report5_total db Hne); [done|].
    by rewrite <- Hjoin, <- sum_Z_map_fst.
Qed.

Lemma report13_totals_witness :
  exists groups,
    sql_read_all query13 fixture =
      Return (mkDataFrame
                ["Provider_ID"; "Provider_Name"; "Total_Quantity_Donated"]
                (map (fun g => [VInt g.1.1; VStr g.1.2; VInt g.2]) groups))
    /\ map snd groups = [25; 10].
Proof.
  assert (Hpos : Forall (fun f => 0 <= FoodListing.Quantity f)
                        (Food_Listings_Dataset fixture))
    by (repeat constructor; done).
  assert (Hmax : sum_Z (map (fun r : FoodListing.t * Provider.t =>
                               FoodListing.Quantity r.1)
                            (inner_join provided_by
                               (Food_Listings_Dataset fixture)
                               (Providers fixture))) <= int_max)
    by (vm_compute; discriminate).
  destruct (report13_totals fixture Hpos Hmax) as (groups & Hread & _).
  exists groups. split; [exact Hread|].
  vm_compute in Hread. injection Hread as Hrows.
  revert Hrows. generalize groups. clear.
  intros [|[[i1 n1] t1] [|[[i2 n2] t2] [|g3 groups]]]; cbn; try discriminate.
  by intros [= _ _ -> _ _ ->].
Defined.

(** X12.  Query 4 returns one row per receiver identity and name that has
    a claim, the larger counts first: the count of a row is the number of
    pairs of a claim and a receiver of that identity and name with the
    claim's Receiver_ID.  The counts add up to the number of all such
    pairs: a claim whose receiver does not exist is counted nowhere, and
    when receiver identities are unique and every claim refers to a
    receiver the counts add up to the number of claims. *)
Theorem report4_totals db :
  exists groups,
    sql_read_all query4 db =
      Return (mkDataFrame ["Receiver_ID"; "Receiver_Name"; "Total_Claims"]
                (map (fun g => [VInt g.1.1; VStr g.1.2; VInt g.2]) groups))
    /\ Sorted more_first groups
    /\ NoDup (map fst groups)
    /\ (forall id name,
          (id, name) ∈ map fst groups <->
          exists c r, c ∈ Claims db /\ r ∈ Receivers db
                      /\ Claim.Receiver_ID c = Receiver.Receiver_ID r
                      /\ Receiver.Receiver_ID r = id /\ Receiver.Name r = name)
    /\ (forall k n,
          (k, n) ∈ groups ->
          n = Z.of_nat
                (length (inner_join claimed_by (Claims db)
                           (filter (fun r => (Receiver.Receiver_ID r,
                                              Receiver.Name r) = k)
                                   (Receivers db)))))
    /\ sum_Z (map snd groups) =
         Z.of_nat (length (inner_join claimed_by (Claims db) (Receivers db)))
    /\ (NoDup (map Receiver.Receiver_ID (Receivers db)) ->
        (forall c, c ∈ Claims db ->
                   Claim.Receiver_ID c
                     ∈ map Receiver.Receiver_ID (Receivers db)) ->
        sum_Z (map snd groups) = Z.of_nat (length (Claims db))).
Proof.
  exists (order_desc (report4_groups db)). split; [reflexivity|].
  unfold report4_groups.
  destruct (ordered_groups
              (fun r : Claim.t * Receiver.t =>
                 (Receiver.Receiver_ID r.2, Receiver.Name r.2))
              count_rows
              (inner_join claimed_by (Claims db) (Receivers db)))
    as (Hs & Hn & Hm).
  split; [done|]. split; [done|]. split; [|split].
  - intros id name. change (map fst ?l) with (fst <$> l).
    rewrite order_desc_perm. change (fst <$> ?l) with (map fst l).
    rewrite grouped_keys, elem_of_remove_dups, list_elem_of_fmap. split.
    + intros ([c r] & [= -> ->] & Hrow).
      apply inner_join_rows in Hrow as (Hc & Hr & Hon).
      apply bool_decide_eq_true in Hon. by exists c, r.
    + intros (c & r & Hc & Hr & Hon & <- & <-). exists (c, r).
      split; [done|]. apply inner_join_rows.
      split; [done|]. split; [done|]. by apply bool_decide_eq_true.
  - intros k n Hin. apply Hm in Hin as [_ ->]. unfold count_rows. do 2 f_equal.
    apply (inner_join_group claimed_by
             (fun r => (Receiver.Receiver_ID r, Receiver.Name r))).
  - assert (Hsum :
      sum_Z (map snd (order_desc
        (grouped (fun r : Claim.t * Receiver.t =>
                    (Receiver.Receiver_ID r.2, Receiver.Name r.2))
           count_rows (inner_join claimed_by (Claims db) (Receivers db)))))
      = Z.of_nat (length (inner_join claimed_by (Claims db) (Receivers db)))).
    { rewrite (ordered_groups_sum _ (fun _ => 1)) by apply count_rows_weight.
      apply sum_Z_ones. }
    split; [exact Hsum|]. intros Hnd Hfk. rewrite Hsum.
    rewrite <- (length_map fst).
    by rewrite (inner_join_total Claim.Receiver_ID Receiver.Receiver_ID).
Qed.

(** X13.  The statistics of the Providers page list every provider name
    and type, also one without any listing (LEFT JOIN): its count is the
    number of listings of the providers of that name and type.  The page
    shows the providers frame and, below it, these statistics. *)
Theorem provider_counts_statistics db :
  exists groups,
    sql_read_all provider_counts_sql db =
      Return (mkDataFrame ["Name"; "Type"; "TotalListings"]
                (map (fun g => [VStr g.1.1; VStr g.1.2; VInt g.2]) groups))
    /\ Sorted more_first groups
    /\ NoDup (map fst groups)
    /\ (forall p, p ∈ Providers db ->
          (Provider.Name p, Provider.Type_ p) ∈ map fst groups)
    /\ (forall k n,
          (k, n) ∈ groups ->
          n = Z.of_nat
                (length (inner_join listed_by
                           (filter (fun p => (Provider.Name p, Provider.Type_ p)
                                             = k) (Providers db))
                           (Food_Listings_Dataset db))))
    /\ sum_Z (map snd groups) =
         Z.of_nat (length (inner_join listed_by (Providers db)
                                      (Food_Listings_Dataset db)))
    /\ (Providers db <> [] ->
        (show_providers app_server (providers_frame db) (fresh db)).1 =
          Return [st_header "🏢 Food Providers";
                  st_dataframe (providers_frame db);
                  st_subheader "Provider Statistics";
                  st_dataframe
                    (mkDataFrame ["Name"; "Type"; "TotalListings"]
                       (map (fun g => [VStr g.1.1; VStr g.1.2; VInt g.2])
                            groups))]).
Proof.
  exists (order_desc (provider_groups db)). split; [reflexivity|].
  unfold provider_groups.
  destruct (ordered_groups
              (fun r : Provider.t * option FoodListing.t =>
                 (Provider.Name r.1, Provider.Type_ r.1))
              count_matched
              (left_join listed_by (Providers db) (Food_Listings_Dataset db)))
    as (Hs & Hn & Hm).
  split; [done|]. split; [done|]. split; [|split; [|split]].
  - intros p Hp.
    destruct (left_join_covers listed_by _ (Food_Listings_Dataset db) p Hp)
      as (row & Hrow & <-).
    apply list_elem_of_fmap.
    eexists ((Provider.Name row.1, Provider.Type_ row.1), _). split; [done|].
    apply Hm. split; [|reflexivity].
    by apply (list_elem_of_fmap_2
                (fun r : Provider.t * option FoodListing.t =>
                   (Provider.Name r.1, Provider.Type_ r.1))).
  - intros k n Hin. apply Hm in Hin as [_ ->].
    apply (count_matched_group listed_by
             (fun p => (Provider.Name p, Provider.Type_ p))).
  - rewrite (ordered_groups_sum _ (fun r => if decide (is_Some r.2) then 1 else 0))
      by apply count_matched_weight.
    rewrite <- count_matched_weight. apply count_matched_left_join.
  - intros Hne. unfold show_providers.
    replace (empty (providers_frame db)) with false
      by (unfold empty; cbn; by destruct (Providers db)).
    reflexivity.
Qed.

(** ** Which reports get a chart *)







(** ** The Food Listings page *)

Lemma filter_map_rows {A} (to_row : A -> list value)
    (P : list value -> Prop) (Q : A -> Prop)
    `{forall r, Decision (P r)} `{forall a, Decision (Q a)} (l : list A) :
  (forall a, P (to_row a) <-> Q a) ->
  filter P (map to_row l) = map to_row (filter Q l).
Proof.
  intros HPQ. induction l as [|a l IH]; [done|].
  cbn [map]. rewrite !filter_cons.
  destruct (decide (P (to_row a))) as [Hp|Hp], (decide (Q a)) as [Hq|Hq];
    cbn [map]; rewrite ?IH; try done; by apply HPQ in Hp || apply HPQ in Hq.
Qed.

Lemma isin_listings (ls : list FoodListing.t) (values : list value) :
  isin_rows (listings_frame_of ls) "Location" values =
    Return (listings_frame_of
              (filter (fun l => VStr (FoodListing.Location l) ∈ values) ls))
  /\ isin_rows (listings_frame_of ls) "Food_Type" values =
       Return (listings_frame_of
                 (filter (fun l => VStr (FoodListing.Food_Type l) ∈ values) ls))
  /\ isin_rows (listings_frame_of ls) "Provider_Type" values =
       Return (listings_frame_of
                 (filter (fun l => VStr (FoodListing.Provider_Type l) ∈ values)
                         ls)).
Proof.
  unfold isin_rows, listings_frame_of. cbn.
  repeat split; do 2 f_equal; by apply filter_map_rows.
Qed.

Lemma eq_listings (ls : list FoodListing.t) (v : value) :
  eq_rows (listings_frame_of ls) "Location" v =
    Return (listings_frame_of
              (filter (fun l => VStr (FoodListing.Location l) = v) ls))
  /\ eq_rows (listings_frame_of ls) "Food_Type" v =
       Return (listings_frame_of
                 (filter (fun l => VStr (FoodListing.Food_Type l) = v) ls)).
Proof.
  unfold eq_rows, listings_frame_of. cbn.
  repeat split; do 2 f_equal; by apply filter_map_rows.
Qed.

Lemma column_unique_listings (ls : list FoodListing.t) :
  column_unique (listings_frame_of ls) "Location" =
    Return (unique (map (fun l => VStr (FoodListing.Location l)) ls))
  /\ column_unique (listings_frame_of ls) "Food_Type" =
       Return (unique (map (fun l => VStr (FoodListing.Food_Type l)) ls))
  /\ column_unique (listings_frame_of ls) "Provider_Type" =
       Return (unique (map (fun l => VStr (FoodListing.Provider_Type l)) ls)).
Proof.
  unfold column_unique, column_values, listings_frame_of. cbn.
  repeat split; by rewrite map_map.
Qed.

Lemma listings_frame_empty (ls : list FoodListing.t) :
  ls <> [] -> empty (listings_frame_of ls) = false.
Proof. intros Hne. unfold empty. cbn. by destruct ls. Qed.

Lemma isin_or_all (values : list value) (ls : list FoodListing.t)
    (col : string) (proj : FoodListing.t -> value) :
  isin_rows (listings_frame_of ls) col values =
    Return (listings_frame_of (filter (fun l => proj l ∈ values) ls)) ->
  (if bool_decide (values <> []) then
     isin_rows (listings_frame_of ls) col values
   else Return (listings_frame_of ls))
  = Return (listings_frame_of
              (filter (fun l => values = [] \/ proj l ∈ values) ls)).
Proof.
  intros Hisin. destruct values as [|v vs].
  - rewrite bool_decide_eq_false_2 by (intros H; by apply H).
    do 2 f_equal. symmetry.
    apply filter_all, Forall_forall. intros l _. by left.
  - rewrite bool_decide_eq_true_2 by done. rewrite Hisin. do 2 f_equal.
    apply list_filter_iff. intros l. split; [by right|]. by intros [?|?].
Qed.

Lemma filtered_listings (locf ftf ptf : list value) (ls : list FoodListing.t) :
  (f1 <- (if bool_decide (locf <> []) then
            isin_rows (listings_frame_of ls) "Location" locf
          else Return (listings_frame_of ls)) ;;
   f2 <- (if bool_decide (ftf <> []) then isin_rows f1 "Food_Type" ftf
          else Return f1) ;;
   if bool_decide (ptf <> []) then isin_rows f2 "Provider_Type" ptf
   else Return f2)
  = Return (listings_frame_of (filter (listing_shown locf ftf ptf) ls)).
Proof.
  rewrite (isin_or_all locf ls "Location"
             (fun l => VStr (FoodListing.Location l)))
    by apply isin_listings.
  cbn [bind].
  rewrite (isin_or_all ftf _ "Food_Type"
             (fun l => VStr (FoodListing.Food_Type l)))
    by apply isin_listings.
  cbn [bind].
  rewrite (isin_or_all ptf _ "Provider_Type"
             (fun l => VStr (FoodListing.Provider_Type l)))
    by apply isin_listings.
  do 2 f_equal. rewrite !list_filter_filter. apply list_filter_iff.
  intros l. unfold listing_shown. tauto.
Qed.

Lemma show_food_listings_filtered {C} (drv : driver C) (ls : list FoodListing.t)
    providers locf ftf ptf pressed show lf (s : session C) :
  ls <> [] ->
  show_food_listings drv (listings_frame_of ls) providers locf ftf ptf
                     pressed show lf s =
  (let shown := listings_frame_of (filter (listing_shown locf ftf ptf) ls) in
   let flag := pressed || show in
   let page := [st_header "🥘 Food Listings"; st_dataframe shown] in
   let form := page ++ [st_subheader "Add New Food Listing"] in
   if flag then
     if listing_submitted lf then
       (ok <<- execute_query drv insert_listing_sql
                 (Some [VStr (food_name lf); VInt (quantity lf);
                        VStr (expiry_date lf); VInt (provider_id lf);
                        VStr (provider_type lf); VStr (location lf);
                        VStr (food_type lf); VStr (meal_type lf)]) ;;
        if ok : bool then
          ret (form ++ [st_success "Listing added successfully!"; st_rerun],
               false)
        else ret (form, flag)) s
     else (Return (form, flag), s)
   else (Return (page, flag), s)).
Proof.
  intros Hne. unfold show_food_listings.
  rewrite listings_frame_empty by done.
  destruct (column_unique_listings ls) as (H1 & H2 & H3).
  unfold iobind at 1, lift at 1. rewrite H1.
  unfold iobind at 1, lift at 1. rewrite H2.
  unfold iobind at 1, lift at 1. rewrite H3.
  pose proof (filtered_listings locf ftf ptf ls) as Hf.
  destruct (if bool_decide (locf <> []) then _ else _) as [f1|e1] eqn:E1;
    [|done].
  unfold iobind at 1, lift at 1. cbn [bind] in Hf.
  destruct (if bool_decide (ftf <> []) then _ else _) as [f2|e2] eqn:E2;
    [|done].
  unfold iobind at 1, lift at 1. cbn [bind] in Hf. rewrite Hf.
  cbv zeta. by destruct (pressed || show), (listing_submitted lf).
Qed.

(** X15.  On the Food Listings page the frame shown holds exactly the
    listings that pass all three multiselects, in their order, a
    multiselect with nothing picked letting every listing pass; with no
    pick at all every listing is shown.  The add form appears below the
    frame once its button was pressed or while the session flag is set,
    and unless that form is submitted the page changes nothing. *)
Theorem food_listings_page_filters {C} (drv : driver C)
    (ls : list FoodListing.t) providers locf ftf ptf pressed show lf
    (s : session C) :
  ls <> [] ->
  (pressed || show) && listing_submitted lf = false ->
  show_food_listings drv (listings_frame_of ls) providers locf ftf ptf
                     pressed show lf s =
    (Return ([st_header "🥘 Food Listings";
              st_dataframe
                (listings_frame_of (filter (listing_shown locf ftf ptf) ls))]
             ++ (if pressed || show
                 then [st_subheader "Add New Food Listing"] else []),
             pressed || show), s)
  /\ filter (listing_shown [] [] []) ls = ls.
Proof.
  intros Hne Hflag. split.
  - rewrite show_food_listings_filtered by done. cbv zeta.
    destruct (pressed || show); [|done].
    cbn [andb] in Hflag. by rewrite Hflag.
  - apply filter_all, Forall_forall. intros l _.
    unfold listing_shown. tauto.
Qed.

Lemma food_listings_page_filters_witness :
  show_food_listings sql_server
    (listings_frame_of (Food_Listings_Dataset fixture))
    (providers_frame fixture) [VStr "Adambury"] [] [] false false new_listing
    (fresh fixture) =
    (Return ([st_header "🥘 Food Listings";
              st_dataframe
                (listings_frame_of
                   (filter (listing_shown [VStr "Adambury"] [] [])
                           (Food_Listings_Dataset fixture)))]
             ++ (if false || false
                 then [st_subheader "Add New Food Listing"] else []),
             false || false), fresh fixture).
Proof.
  refine (proj1 (food_listings_page_filters sql_server
                   (Food_Listings_Dataset fixture) (providers_frame fixture)
                   [VStr "Adambury"] [] [] false false new_listing
                   (fresh fixture) _ eq_refl)).
  discriminate.
Defined.

Lemma insert_listing_runs db lf :
  int_min <= quantity lf <= int_max ->
  int_min <= provider_id lf <= int_max ->
  sql_execute_all insert_listing_sql
    [VStr (food_name lf); VInt (quantity lf); VStr (expiry_date lf);
     VInt (provider_id lf); VStr (provider_type lf); VStr (location lf);
     VStr (food_type lf); VStr (meal_type lf)] db
  = Return (with_listing db (created_listing db lf)).
Proof.
  intros Hq Hp. apply in_int_spec in Hq, Hp.
  change (sql_execute_all insert_listing_sql
            [VStr (food_name lf); VInt (quantity lf); VStr (expiry_date lf);
             VInt (provider_id lf); VStr (provider_type lf);
             VStr (location lf); VStr (food_type lf); VStr (meal_type lf)] db)
    with (if in_int (quantity lf) && in_int (provider_id lf)
          then Return (with_listing db (created_listing db lf))
          else Raise overflow).
  by rewrite Hq, Hp.
Qed.

Lemma sum_Z_snoc (l : list Z) (x : Z) : sum_Z (l ++ [x]) = sum_Z l + x.
Proof. unfold sum_Z. induction l; cbn [foldr app]; lia. Qed.

(** X16.  A submitted add-listing form whose quantity and provider
    identity are at least 1, the minimum of their inputs, and in the range
    of [int] appends one listing that holds the submitted fields, closes
    the form and asks for a rerun; nothing else in the database changes.
    The frame on the page is still the one the page was given.  When the
    quantities in the table are not negative and their sum with the
    submitted quantity is in the range of [int], the total of Query 5 on
    the database has grown by the submitted quantity. *)
Theorem add_listing_grows_total db (m : gmap string DataFrame)
    (ls : list FoodListing.t) providers locf ftf ptf pressed show lf :
  ls <> [] ->
  pressed || show = true ->
  listing_submitted lf = true ->
  1 <= quantity lf <= int_max ->
  1 <= provider_id lf <= int_max ->
  show_food_listings app_server (listings_frame_of ls) providers locf ftf ptf
                     pressed show lf (mkSession (Some db) m) =
    (Return ([st_header "🥘 Food Listings";
              st_dataframe
                (listings_frame_of (filter (listing_shown locf ftf ptf) ls));
              st_subheader "Add New Food Listing";
              st_success "Listing added successfully!"; st_rerun], false),
     mkSession (Some (with_listing db (created_listing db lf))) m)
  /\ (Forall (fun f => 0 <= FoodListing.Quantity f) (Food_Listings_Dataset db) ->
      sum_Z (map FoodListing.Quantity (Food_Listings_Dataset db))
        + quantity lf <= int_max ->
      sql_read_all query5 (with_listing db (created_listing db lf)) =
        Return (mkDataFrame ["Total_Quantity_Available"]
                  [[VInt (sum_Z (map FoodListing.Quantity
                                     (Food_Listings_Dataset db))
                          + quantity lf)]]))
  /\ sql_read_all (select_all "Food_Listings_Dataset")
       (with_listing db (created_listing db lf)) =
       Return (listings_frame_of
                 (Food_Listings_Dataset db ++ [created_listing db lf])).
Proof.
  intros Hne Hflag Hsub Hq Hp. split; [|split].
  - rewrite show_food_listings_filtered by done. cbv zeta.
    rewrite Hflag, Hsub. unfold iobind, execute_query.
    cbn [conn app_server conn_cursor cursor_execute conn_commit memo].
    by rewrite insert_listing_runs by (unfold int_min; lia).
  - intros Hpos Hmax.
    change (sql_read_all query5 ?d) with (sql_read query5 d).
    assert (Hsum :
      sum_Z (map FoodListing.Quantity
               (Food_Listings_Dataset (with_listing db (created_listing db lf))))
      = sum_Z (map FoodListing.Quantity (Food_Listings_Dataset db))
        + quantity lf).
    { cbn [with_listing Food_Listings_Dataset]. rewrite map_app.
      apply sum_Z_snoc. }
    rewrite <- Hsum.
    apply (report5_total (with_listing db (created_listing db lf))).
    + cbn [with_listing Food_Listings_Dataset].
      by destruct (Food_Listings_Dataset db).
    + cbn [with_listing Food_Listings_Dataset]. apply Forall_app. split; [done|].
      apply Forall_singleton. cbn. lia.
    + by rewrite Hsum.
  - reflexivity.
Qed.

Lemma add_listing_grows_total_witness :
  sql_read_all query5 (with_listing fixture (created_listing fixture new_listing))
  = Return (mkDataFrame ["Total_Quantity_Available"]
              [[VInt (sum_Z (map FoodListing.Quantity
                                 (Food_Listings_Dataset fixture))
                      + quantity new_listing)]]).
Proof.
  refine (proj1 (proj2 (add_listing_grows_total fixture memo_of_fixture
                          (Food_Listings_Dataset fixture)
                          (providers_frame fixture) [] [] [] true false
                          new_listing _ eq_refl eq_refl _ _)) _ _).
  - discriminate.
  - split; vm_compute; discriminate.
  - split; vm_compute; discriminate.
  - repeat constructor; done.
  - vm_compute. discriminate.
Defined.

(** ** The dashboard *)

Lemma eq_or_all (v : value) (ls : list FoodListing.t) (col : string)
    (proj : FoodListing.t -> value) :
  eq_rows (listings_frame_of ls) col v =
    Return (listings_frame_of (filter (fun l => proj l = v) ls)) ->
  (if bool_decide (v <> VStr "All") then eq_rows (listings_frame_of ls) col v
   else Return (listings_frame_of ls))
  = Return (listings_frame_of
              (filter (fun l => v = VStr "All" \/ proj l = v) ls)).
Proof.
  intros Heq. destruct (decide (v = VStr "All")) as [Hall|Hne].
  - rewrite bool_decide_eq_false_2 by (intros H; by apply H).
    do 2 f_equal. symmetry.
    apply filter_all, Forall_forall. intros l _. by left.
  - rewrite bool_decide_eq_true_2 by done. rewrite Heq. do 2 f_equal.
    apply list_filter_iff. intros l. split; [by right|]. by intros [?|?].
Qed.

(** X17.  The dashboard shows the numbers of rows of the four tables.
    Without listings it shows nothing more than the headings; otherwise it
    shows the first ten listings (all of them when there are fewer) and,
    under the quick filters, exactly the listings whose Location and
    Food_Type equal the picked options, the option All restricting
    nothing: with All picked twice every listing is shown. *)
Theorem dashboard_overview db location_pick food_type_pick :
  (Food_Listings_Dataset db = [] ->
   show_dashboard (providers_frame db) (receivers_frame db)
                  (food_listings_frame db) (claims_frame db)
                  location_pick food_type_pick =
     Return [st (st_header "📊 Dashboard Overview");
             st_metric "Total Providers" (length (Providers db));
             st_metric "Total Receivers" (length (Receivers db));
             st_metric "Total Food Listings" 0;
             st_metric "Total Claims" (length (Claims db));
             st (st_subheader "Recent Activity");
             st (st_subheader "Quick Filters")])
  /\ (Food_Listings_Dataset db <> [] ->
      show_dashboard (providers_frame db) (receivers_frame db)
                     (food_listings_frame db) (claims_frame db)
                     location_pick food_type_pick =
        Return [st (st_header "📊 Dashboard Overview");
                st_metric "Total Providers" (length (Providers db));
                st_metric "Total Receivers" (length (Receivers db));
                st_metric "Total Food Listings"
                          (length (Food_Listings_Dataset db));
                st_metric "Total Claims" (length (Claims db));
                st (st_subheader "Recent Activity");
                st (st_dataframe
                      (listings_frame_of (take 10 (Food_Listings_Dataset db))));
                st (st_subheader "Quick Filters");
                st (st_dataframe
                      (listings_frame_of
                         (filter
                            (quick_match
                               (picked (location_options
                                          (Food_Listings_Dataset db))
                                       location_pick)
                               (picked (food_type_options
                                          (Food_Listings_Dataset db))
                                       food_type_pick))
                            (Food_Listings_Dataset db))))])
  /\ picked (location_options (Food_Listings_Dataset db)) 0 = VStr "All"
  /\ picked (food_type_options (Food_Listings_Dataset db)) 0 = VStr "All"
  /\ filter (quick_match (VStr "All") (VStr "All")) (Food_Listings_Dataset db)
     = Food_Listings_Dataset db.
Proof.
  split; [|split; [|split; [done|split; [done|]]]].
  - intros Hnil. unfold show_dashboard, empty, len.
    cbn [food_listings_frame providers_frame receivers_frame claims_frame
         columns rows]. rewrite Hnil, !length_map. reflexivity.
  - intros Hne. unfold show_dashboard.
    change (food_listings_frame db)
      with (listings_frame_of (Food_Listings_Dataset db)).
    rewrite listings_frame_empty by done.
    destruct (column_unique_listings (Food_Listings_Dataset db))
      as (H1 & H2 & _).
    rewrite H1. cbn [bind]. rewrite H2. cbn [bind].
    fold (location_options (Food_Listings_Dataset db)).
    fold (food_type_options (Food_Listings_Dataset db)).
    rewrite (eq_or_all _ _ "Location" (fun l => VStr (FoodListing.Location l)))
      by apply eq_listings.
    cbn [bind].
    rewrite (eq_or_all _ _ "Food_Type"
               (fun l => VStr (FoodListing.Food_Type l)))
      by apply eq_listings.
    cbn [bind]. unfold len, head_rows, listings_frame_of.
    cbn [providers_frame receivers_frame claims_frame columns rows app].
    rewrite !length_map. do 10 f_equal.
    + change (map ?f ?l) with (f <$> l). by rewrite fmap_take.
    + do 5 f_equal. rewrite list_filter_filter.
      apply list_filter_iff. intros l. unfold quick_match. tauto.
  - apply filter_all, Forall_forall. intros l _. unfold quick_match. tauto.
Qed.
